(** * Study planner: the day-by-day allocation engine

    A shallow embedding of [distribute_minutes_over_days] and of the
    orchestration step of [build_study_plan] from [src/study_planner.py],
    followed by the properties of the allocation engine.

    Modelling conventions.
    - Python [int] is unbounded: minutes and day indices are [Z].
    - [per_day] is a Python list of per-day dicts with the four fixed keys
      [learn], [exo], [review], [mock]; a day is a record [DayAllocation],
      the list is threaded through every call as explicit state, and list
      indexing follows Python (negative indices count from the end, an index
      out of range raises [IndexError]).
    - [blocked], [last_40] and [seen] are Python sets: [gset Z].
    - Exceptions are the constructor [Raise] of [result].
    - The table [per_day] of the function is written [pd], and the four
      budget parameters [learn_total], [exo_total], [review_total],
      [mock_total]: the source's names are the fields of [PlanResult] and
      [PlanItem]. [PlanResult] leaves out [params_used], a dict of floats.
    - A calendar date is represented by its proleptic Gregorian ordinal
      ([date.toordinal()]); [date + timedelta] raises [OverflowError] outside
      [1 .. 3652059].
    - [int(D*0.6)] is float arithmetic; for the day counts a list of [D]
      dicts can hold (below 2^50) the product is within 1/8 of the exact
      value [6*D/10], whose fractional part is 0 or at least 1/5, and an
      exact multiple of five gives an exact float, so the truncation is the
      truncation of the exact quotient.
    - [int(round(x))] on an [int] is the identity. *)

From stdpp Require Import base gmap list.
From Stdlib Require Import ZArith Lia.

Local Open Scope Z_scope.

(** ** Exceptions *)

Inductive PyError : Type :=
| IndexError
| OverflowError.

Inductive result (A : Type) : Type :=
| Ok (a : A)
| Raise (e : PyError).

Arguments Ok {A} a.
Arguments Raise {A} e.

Notation "'let?' x ':=' e 'in' k" :=
  (match e with Ok x => k | Raise err => Raise err end)
  (at level 10, x pattern, e at level 200, k at level 200,
   format "'[v' 'let?'  x  ':='  e  'in' '/' k ']'").

(** ** Data model *)

Record Constraints : Type := {
  days_available : Z;
  max_minutes_per_day : Z;
  min_minutes_per_day : Z;
  blocked_days : option (list Z)
}.

Record PlanItem : Type := {
  day_index : Z;
  date : option Z;
  learn_min : Z;
  exercises_min : Z;
  review_min : Z;
  mock_min : Z
}.

Record PlanResult : Type := {
  total_minutes : Z;
  per_day : list PlanItem;
  breakdown : Z * Z * Z * Z
}.

(** The keys of a per-day dict. *)
Inductive Kind : Type := learn | exo | review | mock.

(** [dict(learn=0, exo=0, review=0, mock=0)] and its later states. *)
Record DayAllocation : Type := {
  d_learn : Z;
  d_exo : Z;
  d_review : Z;
  d_mock : Z
}.

Definition empty_day : DayAllocation :=
  {| d_learn := 0; d_exo := 0; d_review := 0; d_mock := 0 |}.

(** [per_day[d][k]] on a day already fetched. *)
Definition bucket (k : Kind) (a : DayAllocation) : Z :=
  match k with
  | learn => d_learn a
  | exo => d_exo a
  | review => d_review a
  | mock => d_mock a
  end.

(** [day[k] += m]. *)
Definition add_bucket (k : Kind) (m : Z) (a : DayAllocation) : DayAllocation :=
  match k with
  | learn => {| d_learn := d_learn a + m; d_exo := d_exo a;
                d_review := d_review a; d_mock := d_mock a |}
  | exo => {| d_learn := d_learn a; d_exo := d_exo a + m;
              d_review := d_review a; d_mock := d_mock a |}
  | review => {| d_learn := d_learn a; d_exo := d_exo a;
                 d_review := d_review a + m; d_mock := d_mock a |}
  | mock => {| d_learn := d_learn a; d_exo := d_exo a;
               d_review := d_review a; d_mock := d_mock a + m |}
  end.

(** [sum(day.values())]. *)
Definition day_sum (a : DayAllocation) : Z :=
  d_learn a + d_exo a + d_review a + d_mock a.

(** ** Python lists *)

(** The position a Python index denotes in a list of length [n]. *)
Definition py_index (n : nat) (i : Z) : option nat :=
  if bool_decide (0 <= i < Z.of_nat n) then Some (Z.to_nat i)
  else if bool_decide (- Z.of_nat n <= i < 0) then Some (Z.to_nat (Z.of_nat n + i))
  else None.

(** [l[i]]. *)
Definition py_get {A : Type} (l : list A) (i : Z) : result A :=
  match py_index (length l) i with
  | Some n => match l !! n with Some x => Ok x | None => Raise IndexError end
  | None => Raise IndexError
  end.

(** [l[i] = x], returning the updated list. *)
Definition py_set {A : Type} (l : list A) (i : Z) (x : A) : result (list A) :=
  match py_index (length l) i with
  | Some n => Ok (<[n := x]> l)
  | None => Raise IndexError
  end.

(** [list(range(a, b))]. *)
Definition py_range (a b : Z) : list Z := seqZ a (b - a).

(** [l[k:]]. *)
Definition py_slice_from {A : Type} (l : list A) (k : Z) : list A :=
  if bool_decide (0 <= k) then drop (Z.to_nat k) l
  else drop (Z.to_nat (Z.of_nat (length l) + k)) l.

(** ** Dates *)

Definition max_ordinal : Z := 3652059.

(** [(start_date + dt.timedelta(days=d))], as an ordinal. *)
Definition date_plus_days (start d : Z) : result Z :=
  if bool_decide (1 <= start + d <= max_ordinal) then Ok (start + d)
  else Raise OverflowError.

(** ** The allocation engine *)

Section Engine.

(** The locals [D], [blocked], [maxd], [mind] that the nested helpers
    close over. *)
Variable D : Z.
Variable blocked : gset Z.
Variable maxd : Z.
Variable mind : Z.

(** [push(kind, minutes, day_order)]: returns what is left and the
    updated table. *)
Fixpoint push (kind : Kind) (remaining : Z) (day_order : list Z)
    (pd : list DayAllocation) : result (Z * list DayAllocation) :=
  match day_order with
  | [] => Ok (remaining, pd)
  | d :: rest =>
    if bool_decide (d ∈ blocked) then push kind remaining rest pd
    else
      let? a := py_get pd d in
      let cap := maxd - day_sum a in
      if bool_decide (cap <= 0) then push kind remaining rest pd
      else
        let alloc := Z.min cap remaining in
        let? pd' := py_set pd d (add_bucket kind alloc a) in
        let remaining' := remaining - alloc in
        if bool_decide (remaining' <= 0) then Ok (remaining', pd')
        else push kind remaining' rest pd'
  end.

(** [days_idx = list(range(D))]. *)
Definition days_idx : list Z := py_range 0 D.

(** [int(D*0.6)]. *)
Definition int_D_06 : Z := Z.quot (D * 6) 10.

(** [last_40 = set(days_idx[int(D*0.6):]) if D > 1 else set([0])]. *)
Definition last_40 : gset Z :=
  if bool_decide (1 < D) then list_to_set (py_slice_from days_idx int_D_06)
  else {[ 0 ]}.

(** The pattern shared by the four passes:
    [rem = push(kind, minutes, order)] and then, if [rem > 0],
    [push(kind, rem, spill_order)], whose result is discarded. *)
Definition push_then_spill (kind : Kind) (minutes : Z)
    (order spill_order : list Z) (pd : list DayAllocation)
    : result (list DayAllocation) :=
  let? (rem, pd1) := push kind minutes order pd in
  if bool_decide (0 < rem) then
    let? (_, pd2) := push kind rem spill_order pd1 in Ok pd2
  else Ok pd1.

(** [order_exo = list(range(D//3, D)) if D >= 3 else days_idx]. *)
Definition order_exo : list Z :=
  if bool_decide (3 <= D) then py_range (D / 3) D else days_idx.

(** The list [waves] after the three conditional appends and the
    default. *)
Definition waves : list (list Z) :=
  let w1 := if bool_decide (2 <= D) then [[Z.min 1 (D - 1)]] else [] in
  let w2 := if bool_decide (4 <= D) then w1 ++ [[Z.min 3 (D - 1)]] else w1 in
  let w3 := if bool_decide (8 <= D) then w2 ++ [[Z.min 7 (D - 1)]] else w2 in
  match w3 with
  | [] => [[0]]
  | _ => w3
  end.

(** The loop of [around] that keeps first occurrences. *)
Fixpoint unique_in_order (cand : list Z) (seen : gset Z) : list Z :=
  match cand with
  | [] => []
  | c :: cs =>
    if bool_decide (c ∈ seen) then unique_in_order cs seen
    else c :: unique_in_order cs ({[ c ]} ∪ seen)
  end.

(** [around(day)]. *)
Definition around (day : Z) : list Z :=
  unique_in_order [Z.max 0 (day - 1); day; Z.min (D - 1) (day + 1)] ∅.

(** [share + (1 if i < spill else 0)]. *)
Definition wave_minutes (share spill i : Z) : Z :=
  share + (if bool_decide (i < spill) then 1 else 0).

(** [for i, w in enumerate(waves): ...], from index [i] on. *)
Fixpoint review_loop (i : Z) (ws : list (list Z)) (share spill : Z)
    (pd : list DayAllocation) : result (list DayAllocation) :=
  match ws with
  | [] => Ok pd
  | w :: rest =>
    let minutes := wave_minutes share spill i in
    let? target := py_get w 0 in
    let? pd' := push_then_spill review minutes (around target) days_idx pd in
    review_loop (i + 1) rest share spill pd'
  end.

(** Step 3 of the function: the review budget split over the waves. *)
Definition review_pass (review_total : Z) (pd : list DayAllocation)
    : result (list DayAllocation) :=
  let n := Z.of_nat (length waves) in
  let share := review_total / n in
  let spill := review_total - share * n in
  review_loop 0 waves share spill pd.

(** [order_mock]: the days of [last_40] in day order, or every day when
    that list is empty. *)
Definition order_mock : list Z :=
  match filter (fun d => d ∈ last_40) days_idx with
  | [] => days_idx
  | l => l
  end.

(** Step 4 of the function. *)
Definition mock_pass (mock_total : Z) (pd : list DayAllocation)
    : result (list DayAllocation) :=
  push_then_spill mock mock_total order_mock (reverse days_idx) pd.

(** The four placement passes, in order, from a table of empty days. *)
Definition place_all (learn_total exo_total review_total mock_total : Z)
    : result (list DayAllocation) :=
  let pd0 := map (fun _ => empty_day) days_idx in
  let? pd1 := push_then_spill learn learn_total days_idx (reverse days_idx) pd0 in
  let? pd2 := push_then_spill exo exo_total order_exo (reverse days_idx) pd1 in
  let? pd3 := review_pass review_total pd2 in
  mock_pass mock_total pd3.

(** One transfer of the rebalancing pass:
    [per_day[s][k] -= move; per_day[d][k] += move]. *)
Definition transfer (k : Kind) (move s d : Z) (pd : list DayAllocation)
    : result (list DayAllocation) :=
  let? a := py_get pd s in
  let? pd1 := py_set pd s (add_bucket k (- move) a) in
  let? b := py_get pd1 d in
  py_set pd1 d (add_bucket k move b).

(** [for k in ["review", "exo", "learn", "mock"]: ...] for one donor. *)
Fixpoint move_kinds (ks : list Kind) (s d need : Z) (pd : list DayAllocation)
    : result (Z * list DayAllocation) :=
  match ks with
  | [] => Ok (need, pd)
  | k :: rest =>
    let? a := py_get pd s in
    let move := Z.min (bucket k a) need in
    let? pd' := transfer k move s d pd in
    let need' := need - move in
    if bool_decide (need' <= 0) then Ok (need', pd')
    else move_kinds rest s d need' pd'
  end.

(** The test a donor day must pass. *)
Definition donor_ok (src_sum need : Z) : bool :=
  bool_decide (mind <= src_sum - need) || bool_decide (mind + 60 < src_sum).

(** [for s in reversed(days_idx): ...] for the needy day [d]. *)
Fixpoint pull_from (donors : list Z) (d need : Z) (pd : list DayAllocation)
    : result (Z * list DayAllocation) :=
  match donors with
  | [] => Ok (need, pd)
  | s :: rest =>
    if bool_decide (s = d) then pull_from rest d need pd
    else
      let? a := py_get pd s in
      let? (need', pd') :=
        (if donor_ok (day_sum a) need
         then move_kinds [review; exo; learn; mock] s d need pd
         else Ok (need, pd)) in
      if bool_decide (need' <= 0) then Ok (need', pd')
      else pull_from rest d need' pd'
  end.

(** The body of the outer rebalancing loop for day [d]. *)
Definition rebalance_day (d : Z) (pd : list DayAllocation)
    : result (list DayAllocation) :=
  if bool_decide (d ∈ blocked) then Ok pd
  else
    let? a := py_get pd d in
    if bool_decide (day_sum a = 0) then Ok pd
    else if bool_decide (day_sum a < mind) then
      let? (_, pd') := pull_from (reverse days_idx) d (mind - day_sum a) pd in
      Ok pd'
    else Ok pd.

(** [for d in days_idx: ...], the rebalancing pass over the days [ds]. *)
Fixpoint rebalance_loop (ds : list Z) (pd : list DayAllocation)
    : result (list DayAllocation) :=
  match ds with
  | [] => Ok pd
  | d :: rest => let? pd' := rebalance_day d pd in rebalance_loop rest pd'
  end.

Definition rebalance (pd : list DayAllocation) : result (list DayAllocation) :=
  rebalance_loop days_idx pd.

(** The final loop that builds the [PlanItem] rows. *)
Fixpoint build_items (ds : list Z) (pd : list DayAllocation)
    (start_date : option Z) : result (list PlanItem) :=
  match ds with
  | [] => Ok []
  | d :: rest =>
    let? date_str :=
      match start_date with
      | Some s => let? o := date_plus_days s d in Ok (Some o)
      | None => Ok None
      end in
    let? a := py_get pd d in
    let? items := build_items rest pd start_date in
    Ok ({| day_index := d; date := date_str;
           learn_min := bucket learn a; exercises_min := bucket exo a;
           review_min := bucket review a; mock_min := bucket mock a |}
        :: items)
  end.

(** Placement, rebalancing and row construction. *)
Definition run (learn_total exo_total review_total mock_total : Z)
    (start_date : option Z) : result (list PlanItem) :=
  let? pd := place_all learn_total exo_total review_total mock_total in
  let? pd' := rebalance pd in
  build_items days_idx pd' start_date.

End Engine.

(** [blocked = set(constraints.blocked_days or [])]. *)
Definition blocked_set (c : Constraints) : gset Z :=
  match blocked_days c with
  | Some l => list_to_set l
  | None => ∅
  end.

(** [distribute_minutes_over_days]. *)
Definition distribute_minutes_over_days
    (learn_total exo_total review_total mock_total : Z)
    (constraints : Constraints) (start_date : option Z)
    : result (list PlanItem) :=
  run (days_available constraints) (blocked_set constraints)
      (max_minutes_per_day constraints) (min_minutes_per_day constraints)
      learn_total exo_total review_total mock_total start_date.

(** The part of [build_study_plan] that follows the estimators: the four
    totals [TAI], [TEXO], [TR], [TEB] come from float arithmetic (the
    estimators and the gap adjustment), and are taken as they reach step 6. *)
Definition build_study_plan (TAI TEXO TR TEB : Z) (constraints : Constraints)
    (start_date : option Z) : result PlanResult :=
  let? schedule :=
    distribute_minutes_over_days TAI TEXO TR TEB constraints start_date in
  Ok {| total_minutes := TAI + TEXO + TR + TEB;
        per_day := schedule;
        breakdown := (TAI, TEXO, TR, TEB) |}.

(** ** Observations on tables and schedules *)

(** Sum of all four buckets over all days of a per-day table. *)
Definition table_total (pd : list DayAllocation) : Z :=
  foldr (fun a acc => day_sum a + acc) 0 pd.

(** The four buckets of a result row. *)
Definition item_buckets (it : PlanItem) : DayAllocation :=
  {| d_learn := learn_min it; d_exo := exercises_min it;
     d_review := review_min it; d_mock := mock_min it |}.

Definition item_total (it : PlanItem) : Z := day_sum (item_buckets it).

Definition schedule_total (items : list PlanItem) : Z :=
  table_total (item_buckets <$> items).

Definition day_nonneg (a : DayAllocation) : Prop :=
  0 <= d_learn a /\ 0 <= d_exo a /\ 0 <= d_review a /\ 0 <= d_mock a.

(** Bucket-wise order on days. *)
Definition day_le (a a' : DayAllocation) : Prop :=
  d_learn a <= d_learn a' /\ d_exo a <= d_exo a' /\
  d_review a <= d_review a' /\ d_mock a <= d_mock a'.

(** The start date is a date, and the date of the last day still is. *)
Definition dates_fit (start_date : option Z) (D : Z) : Prop :=
  match start_date with
  | Some s => 1 <= s /\ s + (D - 1) <= max_ordinal
  | None => True
  end.

(** The three configuration errors of the specification. *)
Definition config_error (c : Constraints) : Prop :=
  days_available c < 1 \/
  max_minutes_per_day c < min_minutes_per_day c \/
  (forall d, 0 <= d < days_available c -> d ∈ blocked_set c).

(** Sum of [max_minutes_per_day] over the non-blocked days. *)
Definition capacity (D : Z) (blocked : gset Z) (maxd : Z) : Z :=
  foldr (fun d acc => (if bool_decide (d ∈ blocked) then 0 else maxd) + acc)
        0 (days_idx D).

(** Some day other than [d] passes the donor test for the amount [need]. *)
Definition has_donor (D mind d need : Z) (pd : list DayAllocation) : bool :=
  existsb (fun s =>
             bool_decide (s <> d) &&
             match pd !! Z.to_nat s with
             | Some a => donor_ok mind (day_sum a) need
             | None => false
             end)
          (days_idx D).

(** ** The review and mock policies as the specification words them *)

(** Follows the specification: the remaining capacity of a day is the cap
    minus the minutes already placed that day, and a blocked day receives
    nothing. *)
Definition room_spec (blocked : gset Z) (maxd : Z) (pd : list DayAllocation)
    (d : Z) : Z :=
  if bool_decide (d ∈ blocked) then 0
  else match pd !! Z.to_nat d with
       | Some a => Z.max 0 (maxd - day_sum a)
       | None => 0
       end.

(** Follows the specification: first fit by capacity. The days of [order]
    are visited in order, and each takes, of the minutes still to place,
    what its remaining capacity allows. Returns the minutes that found no
    room and the table. *)
Fixpoint first_fit_spec (blocked : gset Z) (maxd : Z) (kind : Kind)
    (minutes : Z) (order : list Z) (pd : list DayAllocation)
    : Z * list DayAllocation :=
  match order with
  | [] => (minutes, pd)
  | d :: rest =>
    let take := Z.min (room_spec blocked maxd pd d) minutes in
    first_fit_spec blocked maxd kind (minutes - take) rest
      (alter (add_bucket kind take) (Z.to_nat d) pd)
  end.

(** Follows the specification: the minutes are placed first fit into the
    preferred days, and what is left is spilled, first fit again, over the
    days of [spill_order]. *)
Definition place_then_spill_spec (blocked : gset Z) (maxd : Z) (kind : Kind)
    (minutes : Z) (order spill_order : list Z) (pd : list DayAllocation)
    : list DayAllocation :=
  let (left_over, pd1) := first_fit_spec blocked maxd kind minutes order pd in
  (first_fit_spec blocked maxd kind left_over spill_order pd1).2.






(** Follows the specification: the preferred mock days are
    [days_idx[ceil(0.6*D):]], or day 0 if that range is empty. *)
Definition mock_days_spec (D : Z) : list Z :=
  match py_slice_from (days_idx D) (- ((- (D * 6)) / 10)) with
  | [] => [0]
  | l => l
  end.

Definition mock_pass_spec (D : Z) (blocked : gset Z) (maxd total : Z)
    (pd : list DayAllocation) : result (list DayAllocation) :=
  push_then_spill blocked maxd mock total (mock_days_spec D)
    (reverse (days_idx D)) pd.

(** The mock policy with the preferred days that the code uses: first fit
    by capacity into the days [floor(0.6*D) .. D-1] in forward order, what
    is left spilled over all days back to front. *)
Definition mock_pass_from_floor (D : Z) (blocked : gset Z) (maxd total : Z)
    (pd : list DayAllocation) : list DayAllocation :=
  place_then_spill_spec blocked maxd mock total
    (seqZ (D * 6 / 10) (D - D * 6 / 10)) (reverse (seqZ 0 D)) pd.

(** The default constraints of the application: 240 minutes at most and 60
    at least per day, no blocked day. *)
Definition default_constraints (D : Z) : Constraints :=
  {| days_available := D; max_minutes_per_day := 240;
     min_minutes_per_day := 60; blocked_days := None |}.

(** ** Relations between the table before and after a step *)

(** No capacity is left on that day. *)
Definition day_full (maxd : Z) (a : DayAllocation) : Prop := maxd <= day_sum a.

(** Every day kept or increased each of its buckets, and no day whose sum
    was under the cap went over it. *)
Definition grown (maxd : Z) (pd pd' : list DayAllocation) : Prop :=
  forall (n : nat) a, pd !! n = Some a ->
    exists a', pd' !! n = Some a' /\ day_le a a' /\
               day_sum a' <= Z.max maxd (day_sum a).

(** The blocked days are as they were. *)
Definition blocked_kept (blocked : gset Z) (pd pd' : list DayAllocation) : Prop :=
  forall n : nat, Z.of_nat n ∈ blocked -> pd' !! n = pd !! n.

(** Every non-blocked day of [order] is full. *)
Definition order_full (blocked : gset Z) (maxd : Z) (order : list Z)
    (pd : list DayAllocation) : Prop :=
  Forall (fun d => d ∈ blocked \/
                   exists a, pd !! Z.to_nat d = Some a /\ day_full maxd a) order.

(** Every non-blocked day of the table is full. *)
Definition all_full (blocked : gset Z) (maxd : Z) (pd : list DayAllocation) : Prop :=
  forall (n : nat) a, pd !! n = Some a -> Z.of_nat n ∈ blocked \/ day_full maxd a.

(** What a placement of at most [m] minutes does to the table: either all
    [m] minutes were placed, or every non-blocked day is full. *)
Definition placed (blocked : gset Z) (maxd m : Z)
    (pd pd' : list DayAllocation) : Prop :=
  blocked_kept blocked pd pd' /\ grown maxd pd pd' /\
  table_total pd <= table_total pd' <= table_total pd + m /\
  (table_total pd' = table_total pd + m \/ all_full blocked maxd pd').

(** The day indices of [order] are positions of the table. *)
Definition in_table (pd : list DayAllocation) (order : list Z) : Prop :=
  Forall (fun d => 0 <= d < Z.of_nat (length pd)) order.

(** The minutes of [n] consecutive waves from wave [i] on. *)
Fixpoint sum_wave_minutes (share spill i : Z) (n : nat) : Z :=
  match n with
  | O => 0
  | S n' => wave_minutes share spill i + sum_wave_minutes share spill (i + 1) n'
  end.

(** ** The invariant of the rebalancing pass *)

(** Sum of the buckets [ks] of a day. *)
Definition sum_buckets (ks : list Kind) (a : DayAllocation) : Z :=
  foldr (fun k acc => bucket k a + acc) 0 ks.

(** No bucket is negative and the blocked days are empty. *)
Definition good_table (blocked : gset Z) (pd : list DayAllocation) : Prop :=
  forall (n : nat) a, pd !! n = Some a ->
    day_nonneg a /\ (Z.of_nat n ∈ blocked -> a = empty_day).

(** While the needy day at position [dn] pulls minutes: [need] is what it
    still lacks to reach the floor, the table stays good, and no other day
    holds more than it did in [pd0], the table when the pull began. *)
Definition pull_inv (blocked : gset Z) (mind : Z) (dn : nat) (need : Z)
    (pd0 pd : list DayAllocation) : Prop :=
  0 <= need /\
  good_table blocked pd /\
  (exists b, pd !! dn = Some b /\ day_sum b + need = mind) /\
  (forall (n : nat) a, n <> dn -> pd !! n = Some a ->
     exists a0, pd0 !! n = Some a0 /\ day_sum a <= day_sum a0).

(** ** Observations by category, by order and by blocked set *)

(** Sum of bucket [k] over all days of a table. *)
Definition kind_total (k : Kind) (pd : list DayAllocation) : Z :=
  foldr (fun a acc => bucket k a + acc) 0 pd.

(** Room left under the cap on the non-blocked days of [order]. *)
Definition free_capacity (blocked : gset Z) (maxd : Z) (order : list Z)
    (pd : list DayAllocation) : Z :=
  foldr (fun d acc =>
           (if bool_decide (d ∈ blocked) then 0
            else match pd !! Z.to_nat d with
                 | Some a => Z.max 0 (maxd - day_sum a)
                 | None => 0
                 end) + acc)
        0 order.

(** Only bucket [kind] may differ between the two tables. *)
Definition only_kind (kind : Kind) (pd pd' : list DayAllocation) : Prop :=
  forall (n : nat) a, pd !! n = Some a ->
    exists a', pd' !! n = Some a' /\
               forall k, k <> kind -> bucket k a' = bucket k a.

(** The days outside [order] are as they were. *)
Definition outside_kept (order : list Z) (pd pd' : list DayAllocation) : Prop :=
  forall n : nat, Z.of_nat n ∉ order -> pd' !! n = pd !! n.

(** The two sets block the same days of [[0, D)]. *)
Definition same_blocked_days (D : Z) (b1 b2 : gset Z) : Prop :=
  forall d, 0 <= d < D -> (d ∈ b1 <-> d ∈ b2).

(** The table holds no more than the cap on any day. *)
Definition under_cap (maxd : Z) (pd : list DayAllocation) : Prop :=
  Forall (fun a => day_sum a <= maxd) pd.

(** * Properties *)

(** ** Python lists *)

Lemma py_index_in_range (n : nat) (i : Z) :
  0 <= i < Z.of_nat n -> py_index n i = Some (Z.to_nat i).
Proof.
  intros Hi. unfold py_index. rewrite bool_decide_eq_true_2; done.
Qed.

Lemma py_get_in_range {A : Type} (l : list A) (i : Z) :
  0 <= i < Z.of_nat (length l) ->
  exists x, l !! Z.to_nat i = Some x /\ py_get l i = Ok x.
Proof.
  intros Hi. unfold py_get. rewrite py_index_in_range by done.
  destruct (lookup_lt_is_Some_2 l (Z.to_nat i)) as [x Hx]; [lia|].
  exists x. by rewrite Hx.
Qed.

Lemma py_get_lookup {A : Type} (l : list A) (i : Z) (x : A) :
  0 <= i -> l !! Z.to_nat i = Some x -> py_get l i = Ok x.
Proof.
  intros Hi Hx. pose proof (lookup_lt_Some _ _ _ Hx) as Hlt.
  unfold py_get. rewrite py_index_in_range by lia. by rewrite Hx.
Qed.

Lemma py_set_in_range {A : Type} (l : list A) (i : Z) (x : A) :
  0 <= i < Z.of_nat (length l) -> py_set l i x = Ok (<[Z.to_nat i := x]> l).
Proof.
  intros Hi. unfold py_set. by rewrite py_index_in_range.
Qed.

(** ** Totals *)

Lemma table_total_insert (pd : list DayAllocation) (n : nat) (a x : DayAllocation) :
  pd !! n = Some a ->
  table_total (<[n := x]> pd) = table_total pd - day_sum a + day_sum x.
Proof.
  revert n. induction pd as [|b pd IH]; intros [|n] H; simplify_eq/=.
  - lia.
  - rewrite (IH n H). lia.
Qed.

Lemma day_sum_add_bucket (k : Kind) (m : Z) (a : DayAllocation) :
  day_sum (add_bucket k m a) = day_sum a + m.
Proof. destruct k; unfold day_sum; simpl; lia. Qed.

Lemma bucket_add_bucket (k : Kind) (m : Z) (a : DayAllocation) :
  bucket k (add_bucket k m a) = bucket k a + m.
Proof. by destruct k. Qed.

Lemma add_bucket_0 (k : Kind) (a : DayAllocation) : add_bucket k 0 a = a.
Proof. destruct k, a; simpl; f_equal; lia. Qed.

Lemma day_le_add_bucket (k : Kind) (m : Z) (a : DayAllocation) :
  0 <= m -> day_le a (add_bucket k m a).
Proof. intros Hm. destruct k; unfold day_le; simpl; lia. Qed.

Lemma day_le_refl (a : DayAllocation) : day_le a a.
Proof. unfold day_le; lia. Qed.

Lemma day_le_trans (a b c : DayAllocation) : day_le a b -> day_le b c -> day_le a c.
Proof. unfold day_le; lia. Qed.

Lemma day_le_sum (a b : DayAllocation) : day_le a b -> day_sum a <= day_sum b.
Proof. unfold day_le, day_sum; lia. Qed.

Lemma day_le_nonneg (a b : DayAllocation) : day_le a b -> day_nonneg a -> day_nonneg b.
Proof. unfold day_le, day_nonneg; lia. Qed.

(** ** The relations are preorders, and one update fits them *)

Section Relations.

Context (blocked : gset Z) (maxd : Z).

Lemma grown_refl (pd : list DayAllocation) : grown maxd pd pd.
Proof.
  intros n a Ha. exists a. split_and!; [done|apply day_le_refl|lia].
Qed.

Lemma grown_trans (pd1 pd2 pd3 : list DayAllocation) :
  grown maxd pd1 pd2 -> grown maxd pd2 pd3 -> grown maxd pd1 pd3.
Proof.
  intros H12 H23 n a Ha.
  destruct (H12 n a Ha) as (b & Hb & Hab & Hsb).
  destruct (H23 n b Hb) as (c & Hc & Hbc & Hsc).
  exists c. split_and!; [done|by eapply day_le_trans|lia].
Qed.

Lemma grown_length (pd pd' : list DayAllocation) :
  grown maxd pd pd' -> (length pd <= length pd')%nat.
Proof.
  intros Hg. destruct (decide (length pd <= length pd')%nat) as [|Hn]; [done|].
  destruct (lookup_lt_is_Some_2 pd (length pd')) as [a Ha]; [lia|].
  destruct (Hg _ _ Ha) as (a' & Ha' & _).
  apply lookup_lt_Some in Ha'. lia.
Qed.

Lemma grown_insert (pd : list DayAllocation) (n : nat) (a a' : DayAllocation) :
  pd !! n = Some a -> day_le a a' -> day_sum a' <= Z.max maxd (day_sum a) ->
  grown maxd pd (<[n := a']> pd).
Proof.
  intros Ha Hle Hs m b Hb. destruct (decide (n = m)) as [->|Hne].
  - simplify_eq. exists a'. split; [|done].
    apply list_lookup_insert_eq. by eapply lookup_lt_Some.
  - exists b. rewrite list_lookup_insert_ne by done.
    split_and!; [done|apply day_le_refl|lia].
Qed.

Lemma grown_nonneg (pd pd' : list DayAllocation) :
  length pd' = length pd -> grown maxd pd pd' ->
  Forall day_nonneg pd -> Forall day_nonneg pd'.
Proof.
  intros Hlen Hg Hpd. apply Forall_lookup. intros n a' Ha'.
  destruct (lookup_lt_is_Some_2 pd n) as [a Ha].
  { apply lookup_lt_Some in Ha'. lia. }
  destruct (Hg n a Ha) as (b & Hb & Hle & _). simplify_eq.
  eapply day_le_nonneg; [done|]. by eapply Forall_lookup_1.
Qed.

Lemma grown_under_cap (pd pd' : list DayAllocation) :
  length pd' = length pd -> grown maxd pd pd' ->
  Forall (fun a => day_sum a <= maxd) pd ->
  Forall (fun a => day_sum a <= maxd) pd'.
Proof.
  intros Hlen Hg Hpd. apply Forall_lookup. intros n a' Ha'.
  destruct (lookup_lt_is_Some_2 pd n) as [a Ha].
  { apply lookup_lt_Some in Ha'. lia. }
  destruct (Hg n a Ha) as (b & Hb & _ & Hs). simplify_eq.
  pose proof (Forall_lookup_1 _ _ _ _ Hpd Ha) as Hcap. simpl in Hcap. lia.
Qed.

Lemma grown_total (pd pd' : list DayAllocation) :
  length pd' = length pd -> grown maxd pd pd' ->
  table_total pd <= table_total pd'.
Proof.
  revert pd'. induction pd as [|a pd IH]; intros [|a' pd'] Hlen Hg;
    simplify_eq/=; [lia|].
  destruct (Hg 0%nat a eq_refl) as (b & Hb & Hle & _). simplify_eq/=.
  apply day_le_sum in Hle.
  assert (table_total pd <= table_total pd'); [|lia].
  apply IH; [done|]. intros n c Hc. apply (Hg (S n) c Hc).
Qed.

Lemma blocked_kept_refl (pd : list DayAllocation) : blocked_kept blocked pd pd.
Proof. by intros n Hn. Qed.

Lemma blocked_kept_trans (pd1 pd2 pd3 : list DayAllocation) :
  blocked_kept blocked pd1 pd2 -> blocked_kept blocked pd2 pd3 ->
  blocked_kept blocked pd1 pd3.
Proof. intros H12 H23 n Hn. by rewrite H23, H12. Qed.

Lemma blocked_kept_insert (pd : list DayAllocation) (d : Z) (x : DayAllocation) :
  0 <= d -> d ∉ blocked -> blocked_kept blocked pd (<[Z.to_nat d := x]> pd).
Proof.
  intros Hd Hnb n Hn. apply list_lookup_insert_ne.
  intros Heq. apply Hnb. subst n. by rewrite Z2Nat.id in Hn.
Qed.

Lemma order_full_grown (order : list Z) (pd pd' : list DayAllocation) :
  grown maxd pd pd' -> order_full blocked maxd order pd ->
  order_full blocked maxd order pd'.
Proof.
  intros Hg Hf. unfold order_full. eapply Forall_impl; [exact Hf|].
  intros d [Hb|(a & Ha & Hfull)]; [by left|right].
  destruct (Hg _ _ Ha) as (a' & Ha' & Hle & _).
  exists a'. split; [done|]. apply day_le_sum in Hle. unfold day_full in *. lia.
Qed.

Lemma all_full_grown (pd pd' : list DayAllocation) :
  length pd' = length pd -> grown maxd pd pd' ->
  all_full blocked maxd pd -> all_full blocked maxd pd'.
Proof.
  intros Hlen Hg Hfull n a' Ha'.
  destruct (lookup_lt_is_Some_2 pd n) as [a Ha].
  { apply lookup_lt_Some in Ha'. lia. }
  destruct (Hg n a Ha) as (b & Hb & Hle & _). simplify_eq.
  destruct (Hfull n a Ha) as [|Hf]; [by left|right].
  apply day_le_sum in Hle. unfold day_full in *. lia.
Qed.

Lemma placed_refl (pd : list DayAllocation) : placed blocked maxd 0 pd pd.
Proof.
  split_and!; [apply blocked_kept_refl|apply grown_refl|lia|lia|left; lia].
Qed.

Lemma placed_trans (m1 m2 : Z) (pd1 pd2 pd3 : list DayAllocation) :
  length pd2 = length pd1 -> length pd3 = length pd2 ->
  placed blocked maxd m1 pd1 pd2 -> placed blocked maxd m2 pd2 pd3 ->
  placed blocked maxd (m1 + m2) pd1 pd3.
Proof.
  intros Hl12 Hl23 (Hb1 & Hg1 & Ht1 & Hf1) (Hb2 & Hg2 & Ht2 & Hf2).
  split_and!; [by eapply blocked_kept_trans|by eapply grown_trans|lia|lia|].
  destruct Hf2 as [Heq2|Hfull]; [|by right].
  destruct Hf1 as [Heq1|Hfull]; [left; lia|right].
  by eapply all_full_grown.
Qed.

End Relations.

(** ** [push] *)

Section Push.

Context (blocked : gset Z) (maxd : Z).

(** [push] never fails on day indices of the table; it keeps the length
    and the blocked days, accounts for every minute it took, and, given a
    non-negative amount, only adds under the cap and stops either with
    nothing left or with every day of its order full. *)
Lemma push_spec (kind : Kind) (order : list Z) :
  forall (rem : Z) (pd : list DayAllocation),
    in_table pd order ->
    exists rem' pd',
      push blocked maxd kind rem order pd = Ok (rem', pd') /\
      length pd' = length pd /\
      table_total pd' = table_total pd + (rem - rem') /\
      blocked_kept blocked pd pd' /\
      (0 <= rem ->
       0 <= rem' /\ grown maxd pd pd' /\
       (rem' = 0 \/ order_full blocked maxd order pd')).
Proof.
  induction order as [|d order IH]; intros rem pd Hin; simpl.
  - exists rem, pd. split_and!; [done|done|lia|apply blocked_kept_refl|].
    intros Hrem. split_and!; [done|apply grown_refl|right; constructor].
  - apply Forall_cons in Hin as [Hd Hin].
    case_bool_decide as Hblocked.
    { destruct (IH rem pd Hin) as (rem' & pd' & Hpush & Hlen & Htot & Hkept & Hpos).
      exists rem', pd'. split_and!; try done.
      intros Hrem. destruct (Hpos Hrem) as (Hrem' & Hg & Hfull).
      split_and!; try done. destruct Hfull as [|Hfull]; [by left|right].
      constructor; [by left|done]. }
    destruct (py_get_in_range pd d Hd) as (a & Ha & ->).
    case_bool_decide as Hcap.
    { destruct (IH rem pd Hin) as (rem' & pd' & Hpush & Hlen & Htot & Hkept & Hpos).
      exists rem', pd'. split_and!; try done.
      intros Hrem. destruct (Hpos Hrem) as (Hrem' & Hg & Hfull).
      split_and!; try done. destruct Hfull as [|Hfull]; [by left|right].
      constructor; [|done]. right.
      destruct (Hg _ _ Ha) as (a' & Ha' & Hle & _). exists a'. split; [done|].
      apply day_le_sum in Hle. unfold day_full. lia. }
    rewrite py_set_in_range by done.
    set (alloc := Z.min (maxd - day_sum a) rem).
    set (pd1 := <[Z.to_nat d := add_bucket kind alloc a]> pd).
    assert (Hlen1 : length pd1 = length pd) by apply length_insert.
    assert (Htot1 : table_total pd1 = table_total pd + alloc).
    { unfold pd1. rewrite (table_total_insert _ _ a) by done.
      rewrite day_sum_add_bucket. lia. }
    assert (Hkept1 : blocked_kept blocked pd pd1).
    { apply blocked_kept_insert; [lia|done]. }
    assert (Hg1 : 0 <= rem -> grown maxd pd pd1).
    { intros Hrem. eapply grown_insert; [done| |].
      - apply day_le_add_bucket. lia.
      - rewrite day_sum_add_bucket. lia. }
    case_bool_decide as Hdone.
    { exists (rem - alloc), pd1. split_and!; [done|done|lia|done|].
      intros Hrem. split_and!; [lia|by apply Hg1|left; lia]. }
    assert (Hin1 : in_table pd1 order).
    { unfold in_table. by rewrite Hlen1. }
    destruct (IH (rem - alloc) pd1 Hin1)
      as (rem' & pd' & Hpush & Hlen & Htot & Hkept & Hpos).
    exists rem', pd'. split_and!; [done|congruence|lia| |].
    { by eapply blocked_kept_trans. }
    intros Hrem. destruct Hpos as (Hrem' & Hg & Hfull); [lia|].
    split_and!; [done|eapply grown_trans; [by apply Hg1|done]|].
    destruct Hfull as [|Hfull]; [by left|right].
    constructor; [|done]. right.
    assert (Ha1 : pd1 !! Z.to_nat d = Some (add_bucket kind alloc a)).
    { apply list_lookup_insert_eq. lia. }
    destruct (Hg _ _ Ha1) as (a' & Ha' & Hle & _). exists a'. split; [done|].
    apply day_le_sum in Hle. rewrite day_sum_add_bucket in Hle.
    unfold day_full. lia.
Qed.

Lemma order_full_all (D : Z) (pd : list DayAllocation) :
  length pd = Z.to_nat D ->
  order_full blocked maxd (days_idx D) pd -> all_full blocked maxd pd.
Proof.
  intros Hlen Hfull n a Ha.
  pose proof (lookup_lt_Some _ _ _ Ha) as Hn.
  assert (Hel : Z.of_nat n ∈ days_idx D).
  { unfold days_idx, py_range. apply elem_of_seqZ. lia. }
  unfold order_full in Hfull. rewrite Forall_forall in Hfull.
  destruct (Hfull _ Hel) as [|(b & Hb & Hf)]; [by left|right].
  rewrite Nat2Z.id in Hb. by simplify_eq.
Qed.

(** A pass: [push] over the preferred order, then over an order that
    covers every day. *)
Lemma push_then_spill_spec (D : Z) (kind : Kind) (minutes : Z)
    (order spill_order : list Z) (pd : list DayAllocation) :
  length pd = Z.to_nat D ->
  in_table pd order -> in_table pd spill_order ->
  spill_order = days_idx D \/ spill_order = reverse (days_idx D) ->
  exists pd',
    push_then_spill blocked maxd kind minutes order spill_order pd = Ok pd' /\
    length pd' = length pd /\
    (0 <= minutes -> placed blocked maxd minutes pd pd').
Proof.
  intros HD Hin Hspill Hcover. unfold push_then_spill.
  destruct (push_spec kind order minutes pd Hin)
    as (rem & pd1 & -> & Hlen1 & Htot1 & Hkept1 & Hpos1).
  case_bool_decide as Hrem.
  - assert (Hspill1 : in_table pd1 spill_order).
    { unfold in_table. by rewrite Hlen1. }
    destruct (push_spec kind spill_order rem pd1 Hspill1)
      as (rem2 & pd2 & -> & Hlen2 & Htot2 & Hkept2 & Hpos2).
    exists pd2. split_and!; [done|congruence|].
    intros Hmin. destruct (Hpos1 Hmin) as (_ & Hg1 & _).
    destruct Hpos2 as (Hrem2 & Hg2 & Hfull2); [lia|].
    assert (Hg : grown maxd pd pd2) by (by eapply grown_trans).
    split_and!; [by eapply blocked_kept_trans|done| |lia|].
    { apply (grown_total maxd); [congruence|done]. }
    destruct Hfull2 as [->|Hfull2]; [left; lia|right].
    apply (order_full_all D); [congruence|].
    destruct Hcover as [->| ->]; [done|].
    unfold order_full in *. by apply (proj1 (Forall_reverse _ _)).
  - exists pd1. split_and!; [done|done|].
    intros Hmin. destruct (Hpos1 Hmin) as (Hrem1 & Hg1 & _).
    split_and!; [done|done|by apply (grown_total maxd)|lia|left; lia].
Qed.

End Push.

(** ** [push] is first fit by capacity *)

Section FirstFit.

Context (blocked : gset Z) (maxd : Z).

Lemma alter_lookup_insert {A : Type} (f : A -> A) (l : list A) (n : nat) (x : A) :
  l !! n = Some x -> alter f n l = <[n := f x]> l.
Proof.
  intros Hx. apply list_eq. intros m. destruct (decide (n = m)) as [<-|Hne].
  - rewrite list_lookup_alter_eq, Hx, list_lookup_insert_eq; [done|].
    by eapply lookup_lt_Some.
  - by rewrite list_lookup_alter_ne, list_lookup_insert_ne.
Qed.

Lemma alter_add_bucket_0 (kind : Kind) (n : nat) (pd : list DayAllocation) :
  alter (add_bucket kind 0) n pd = pd.
Proof. apply list_alter_id. intros a. apply add_bucket_0. Qed.

Lemma room_spec_nonneg (pd : list DayAllocation) (d : Z) :
  0 <= room_spec blocked maxd pd d.
Proof.
  unfold room_spec. case_bool_decide; [done|].
  destruct (pd !! Z.to_nat d); lia.
Qed.

(** With nothing to place the table is returned as it is. *)
Lemma first_fit_spec_0 (kind : Kind) (order : list Z) :
  forall pd, first_fit_spec blocked maxd kind 0 order pd = (0, pd).
Proof.
  induction order as [|d order IH]; intros pd; [done|].
  cbn [first_fit_spec]. cbv zeta.
  pose proof (room_spec_nonneg pd d).
  replace (Z.min (room_spec blocked maxd pd d) 0) with 0 by lia.
  rewrite alter_add_bucket_0. apply IH.
Qed.

Lemma first_fit_spec_length (kind : Kind) (order : list Z) :
  forall minutes pd,
    length (first_fit_spec blocked maxd kind minutes order pd).2 = length pd.
Proof.
  induction order as [|d order IH]; intros minutes pd; [done|].
  cbn [first_fit_spec]. cbv zeta. by rewrite IH, length_alter.
Qed.

Lemma first_fit_spec_left_over (kind : Kind) (order : list Z) :
  forall minutes pd,
    0 <= minutes ->
    0 <= (first_fit_spec blocked maxd kind minutes order pd).1.
Proof.
  induction order as [|d order IH]; intros minutes pd Hm; [done|].
  cbn [first_fit_spec]. cbv zeta. apply IH. lia.
Qed.


(** On a non-negative amount and days of the table, [push] returns what
    first fit by capacity leaves over, and the table it builds. *)
Lemma push_first_fit (kind : Kind) (order : list Z) :
  forall (rem : Z) (pd : list DayAllocation),
    in_table pd order -> 0 <= rem ->
    push blocked maxd kind rem order pd
    = Ok (first_fit_spec blocked maxd kind rem order pd).
Proof.
  induction order as [|d order IH]; intros rem pd Hin Hrem; [done|].
  apply Forall_cons in Hin as [Hd Hin].
  cbn [push first_fit_spec]. cbv zeta. unfold room_spec.
  case_bool_decide as Hblocked.
  { replace (Z.min 0 rem) with 0 by lia. rewrite alter_add_bucket_0.
    replace (rem - 0) with rem by lia. by apply IH. }
  destruct (py_get_in_range pd d Hd) as (a & Ha & ->). rewrite Ha.
  case_bool_decide as Hcap.
  { replace (Z.max 0 (maxd - day_sum a)) with 0 by lia.
    replace (Z.min 0 rem) with 0 by lia. rewrite alter_add_bucket_0.
    replace (rem - 0) with rem by lia. by apply IH. }
  replace (Z.max 0 (maxd - day_sum a)) with (maxd - day_sum a) by lia.
  rewrite py_set_in_range by done.
  rewrite (alter_lookup_insert _ _ _ _ Ha).
  case_bool_decide as Hleft.
  - replace (rem - Z.min (maxd - day_sum a) rem) with 0 by lia.
    by rewrite first_fit_spec_0.
  - apply IH; [|lia]. unfold in_table in *. by rewrite length_insert.
Qed.

(** A pass of the code is the placement of the specification: first fit
    into the preferred days, the rest spilled first fit over the spill
    order. *)
Lemma push_then_spill_first_fit (kind : Kind) (minutes : Z)
    (order spill_order : list Z) (pd : list DayAllocation) :
  in_table pd order -> in_table pd spill_order -> 0 <= minutes ->
  push_then_spill blocked maxd kind minutes order spill_order pd
  = Ok (place_then_spill_spec blocked maxd kind minutes order spill_order pd).
Proof.
  intros Hin Hspill Hmin. unfold push_then_spill, place_then_spill_spec.
  rewrite push_first_fit by done.
  pose proof (first_fit_spec_length kind order minutes pd) as Hlen.
  pose proof (first_fit_spec_left_over kind order minutes pd Hmin) as Hleft.
  destruct (first_fit_spec blocked maxd kind minutes order pd) as [r pd1].
  simpl in Hlen, Hleft. cbv beta iota.
  case_bool_decide as Hr.
  - rewrite push_first_fit; [|unfold in_table in *; by rewrite Hlen|done].
    by destruct (first_fit_spec blocked maxd kind r spill_order pd1).
  - assert (r = 0) as -> by lia. by rewrite first_fit_spec_0.
Qed.

End FirstFit.

(** ** The day orders stay inside the table *)

Section Orders.

Context (D : Z) (blocked : gset Z) (maxd : Z).

Lemma elem_of_days_idx (d : Z) : d ∈ days_idx D <-> 0 <= d < D.
Proof. unfold days_idx, py_range. rewrite elem_of_seqZ. lia. Qed.

Lemma length_days_idx : length (days_idx D) = Z.to_nat D.
Proof. unfold days_idx, py_range. rewrite length_seqZ. lia. Qed.

Lemma days_idx_seqZ : days_idx D = seqZ 0 D.
Proof. unfold days_idx, py_range. by rewrite Z.sub_0_r. Qed.

Lemma in_table_range (pd : list DayAllocation) (order : list Z) :
  length pd = Z.to_nat D ->
  Forall (fun d => 0 <= d < D) order -> in_table pd order.
Proof.
  intros Hlen Hall. unfold in_table. eapply Forall_impl; [exact Hall|].
  intros d Hd. simpl in *. lia.
Qed.

Lemma days_idx_range : Forall (fun d => 0 <= d < D) (days_idx D).
Proof. apply Forall_forall. intros d. by rewrite elem_of_days_idx. Qed.

Lemma reverse_days_idx_range : Forall (fun d => 0 <= d < D) (reverse (days_idx D)).
Proof. apply Forall_reverse, days_idx_range. Qed.

Lemma order_exo_range : Forall (fun d => 0 <= d < D) (order_exo D).
Proof.
  unfold order_exo. case_bool_decide as HD; [|apply days_idx_range].
  apply Forall_forall. intros d. unfold py_range. rewrite elem_of_seqZ.
  pose proof (Z.div_pos D 3). lia.
Qed.

Lemma order_mock_range : Forall (fun d => 0 <= d < D) (order_mock D).
Proof.
  unfold order_mock.
  destruct (filter _ (days_idx D)) as [|d l] eqn:Hf; [apply days_idx_range|].
  rewrite <- Hf. apply Forall_forall. intros x Hx.
  apply list_elem_of_filter in Hx as [_ Hx]. by apply elem_of_days_idx.
Qed.

Lemma unique_in_order_range (P : Z -> Prop) (cand : list Z) :
  forall seen, Forall P cand -> Forall P (unique_in_order cand seen).
Proof.
  induction cand as [|c cand IH]; intros seen Hall; simpl; [done|].
  apply Forall_cons in Hall as [Hc Hall].
  case_bool_decide; [by apply IH|]. constructor; [done|by apply IH].
Qed.

Lemma around_range (day : Z) :
  0 <= day < D -> Forall (fun d => 0 <= d < D) (around D day).
Proof.
  intros Hday. unfold around. apply unique_in_order_range.
  repeat constructor; lia.
Qed.

(** Every wave is a one-element list holding a day index. *)
Lemma waves_targets :
  1 <= D -> Forall (fun w => exists t, w = [t] /\ 0 <= t < D) (waves D).
Proof.
  intros HD. unfold waves.
  repeat case_bool_decide; simpl; repeat constructor;
    eexists; (split; [reflexivity|lia]).
Qed.

Lemma wave_minutes_nonneg (share spill i : Z) :
  0 <= share -> 0 <= wave_minutes share spill i.
Proof. intros Hs. unfold wave_minutes. case_bool_decide; lia. Qed.

Lemma sum_wave_minutes_closed (share spill : Z) (n : nat) :
  forall i, sum_wave_minutes share spill i n
            = Z.of_nat n * share + Z.max 0 (Z.min (spill - i) (Z.of_nat n)).
Proof.
  induction n as [|n IH]; intros i.
  - simpl. lia.
  - cbn [sum_wave_minutes]. rewrite IH, Nat2Z.inj_succ, Z.mul_succ_l.
    unfold wave_minutes. case_bool_decide; lia.
Qed.

(** The shares of the waves add up to the review budget. *)
Lemma sum_wave_minutes_total (total : Z) (n : nat) :
  (0 < n)%nat ->
  let W := Z.of_nat n in
  sum_wave_minutes (total / W) (total - total / W * W) 0 n = total.
Proof.
  intros Hn W. rewrite sum_wave_minutes_closed. fold W.
  pose proof (Z.div_mod total W ltac:(lia)) as Hdm.
  pose proof (Z.mod_pos_bound total W ltac:(lia)) as Hmod.
  lia.
Qed.

Lemma review_loop_spec (share spill : Z) (ws : list (list Z)) :
  forall (i : Z) (pd : list DayAllocation),
    length pd = Z.to_nat D ->
    Forall (fun w => exists t, w = [t] /\ 0 <= t < D) ws ->
    exists pd',
      review_loop D blocked maxd i ws share spill pd = Ok pd' /\
      length pd' = length pd /\
      (0 <= share ->
       placed blocked maxd (sum_wave_minutes share spill i (length ws)) pd pd').
Proof.
  induction ws as [|w ws IH]; intros i pd Hlen Hws; simpl.
  - exists pd. split_and!; [done|done|]. intros _. apply placed_refl.
  - apply Forall_cons in Hws as [(t & -> & Ht) Hws].
    change (py_get [t] 0) with (Ok t).
    destruct (push_then_spill_spec blocked maxd D review
                (wave_minutes share spill i) (around D t) (days_idx D) pd)
      as (pd1 & -> & Hlen1 & Hplaced1); [done| | |by left|].
    { apply in_table_range; [done|by apply around_range]. }
    { apply in_table_range; [done|apply days_idx_range]. }
    destruct (IH (i + 1) pd1) as (pd2 & -> & Hlen2 & Hplaced2);
      [congruence|done|].
    exists pd2. split_and!; [done|congruence|].
    intros Hshare. eapply placed_trans; [done|done| |by apply Hplaced2].
    apply Hplaced1. by apply wave_minutes_nonneg.
Qed.

Lemma length_waves_pos : (0 < length (waves D))%nat.
Proof. unfold waves. repeat case_bool_decide; simpl; lia. Qed.

Lemma review_pass_spec_placed (total : Z) (pd : list DayAllocation) :
  1 <= D -> length pd = Z.to_nat D ->
  exists pd',
    review_pass D blocked maxd total pd = Ok pd' /\
    length pd' = length pd /\
    (0 <= total -> placed blocked maxd total pd pd').
Proof.
  intros HD Hlen. unfold review_pass.
  pose proof length_waves_pos as Hpos.
  destruct (review_loop_spec
              (total / Z.of_nat (length (waves D)))
              (total - total / Z.of_nat (length (waves D))
                       * Z.of_nat (length (waves D)))
              (waves D) 0 pd Hlen (waves_targets HD))
    as (pd' & Hrun & Hlen' & Hplaced).
  exists pd'. split_and!; [done|done|].
  intros Htotal. rewrite <- (sum_wave_minutes_total total _ Hpos) at 1.
  apply Hplaced. apply Z.div_pos; lia.
Qed.

Lemma mock_pass_placed (total : Z) (pd : list DayAllocation) :
  length pd = Z.to_nat D ->
  exists pd',
    mock_pass D blocked maxd total pd = Ok pd' /\
    length pd' = length pd /\
    (0 <= total -> placed blocked maxd total pd pd').
Proof.
  intros Hlen. unfold mock_pass.
  apply (push_then_spill_spec blocked maxd D); [done| | |by right].
  - apply in_table_range; [done|apply order_mock_range].
  - apply in_table_range; [done|apply reverse_days_idx_range].
Qed.

(** The table the placement starts from. *)
Lemma empty_table_lookup (n : nat) (a : DayAllocation) :
  ((fun _ => empty_day) <$> days_idx D) !! n = Some a -> a = empty_day.
Proof.
  rewrite list_lookup_fmap. destruct (days_idx D !! n); naive_solver.
Qed.

(** The four passes run to the end on any input with at least one day,
    and together they are one placement of the whole budget. *)
Lemma place_all_spec (learn_total exo_total review_total mock_total : Z) :
  1 <= D ->
  exists pd,
    place_all D blocked maxd learn_total exo_total review_total mock_total
      = Ok pd /\
    length pd = Z.to_nat D /\
    (0 <= learn_total -> 0 <= exo_total -> 0 <= review_total ->
     0 <= mock_total ->
     placed blocked maxd (learn_total + exo_total + review_total + mock_total)
            ((fun _ => empty_day) <$> days_idx D) pd).
Proof.
  intros HD. unfold place_all.
  set (pd0 := map _ (days_idx D)).
  assert (Hlen0 : length pd0 = Z.to_nat D).
  { unfold pd0. rewrite length_map. apply length_days_idx. }
  destruct (push_then_spill_spec blocked maxd D learn learn_total
              (days_idx D) (reverse (days_idx D)) pd0)
    as (pd1 & -> & Hlen1 & Hp1); [done| | |by right|].
  { apply in_table_range; [done|apply days_idx_range]. }
  { apply in_table_range; [done|apply reverse_days_idx_range]. }
  destruct (push_then_spill_spec blocked maxd D exo exo_total
              (order_exo D) (reverse (days_idx D)) pd1)
    as (pd2 & -> & Hlen2 & Hp2); [congruence| | |by right|].
  { apply in_table_range; [congruence|apply order_exo_range]. }
  { apply in_table_range; [congruence|apply reverse_days_idx_range]. }
  destruct (review_pass_spec_placed review_total pd2)
    as (pd3 & -> & Hlen3 & Hp3); [done|congruence|].
  destruct (mock_pass_placed mock_total pd3)
    as (pd4 & -> & Hlen4 & Hp4); [congruence|].
  exists pd4. split_and!; [done|congruence|].
  intros Hl He Hr Hm.
  apply (placed_trans blocked maxd _ _ pd0 pd3 pd4);
    [congruence|done| |by apply Hp4].
  apply (placed_trans blocked maxd _ _ pd0 pd2 pd3);
    [congruence|done| |by apply Hp3].
  apply (placed_trans blocked maxd _ _ pd0 pd1 pd2);
    [congruence|done|by apply Hp1|by apply Hp2].
Qed.

End Orders.

(** ** The rebalancing pass *)

Section Rebalance.

Context (D : Z) (blocked : gset Z) (maxd mind : Z).

Lemma bucket_add_bucket_ne (k k' : Kind) (m : Z) (a : DayAllocation) :
  k <> k' -> bucket k' (add_bucket k m a) = bucket k' a.
Proof. by destruct k, k'. Qed.

Lemma day_sum_buckets (a : DayAllocation) :
  sum_buckets [review; exo; learn; mock] a = day_sum a.
Proof. unfold sum_buckets, day_sum. simpl. lia. Qed.

Lemma day_nonneg_bucket (k : Kind) (a : DayAllocation) :
  day_nonneg a -> 0 <= bucket k a.
Proof. unfold day_nonneg. destruct k; simpl; lia. Qed.

Lemma day_nonneg_take (k : Kind) (m : Z) (a : DayAllocation) :
  day_nonneg a -> m <= bucket k a -> day_nonneg (add_bucket k (- m) a).
Proof. unfold day_nonneg. destruct k; simpl; lia. Qed.

(** A transfer between two days of the table succeeds and is a pair of
    updates: the donor loses [move] in bucket [k], the needy day gains
    it. *)
Lemma transfer_spec (k : Kind) (move s d : Z) (pd : list DayAllocation) :
  0 <= s < Z.of_nat (length pd) -> 0 <= d < Z.of_nat (length pd) ->
  exists a b,
    pd !! Z.to_nat s = Some a /\
    <[Z.to_nat s := add_bucket k (- move) a]> pd !! Z.to_nat d = Some b /\
    transfer k move s d pd
    = Ok (<[Z.to_nat d := add_bucket k move b]>
            (<[Z.to_nat s := add_bucket k (- move) a]> pd)).
Proof.
  intros Hs Hd. unfold transfer.
  destruct (py_get_in_range pd s Hs) as (a & Ha & ->).
  rewrite py_set_in_range by done.
  destruct (py_get_in_range (<[Z.to_nat s := add_bucket k (- move) a]> pd) d)
    as (b & Hb & ->); [by rewrite length_insert|].
  rewrite py_set_in_range by (by rewrite length_insert).
  by exists a, b.
Qed.

(** Every transfer removes from the donor exactly what it adds to the
    needy day. *)
Lemma transfer_total (k : Kind) (move s d : Z) (pd : list DayAllocation) :
  0 <= s < Z.of_nat (length pd) -> 0 <= d < Z.of_nat (length pd) ->
  exists pd',
    transfer k move s d pd = Ok pd' /\
    length pd' = length pd /\
    table_total pd' = table_total pd.
Proof.
  intros Hs Hd.
  destruct (transfer_spec k move s d pd Hs Hd) as (a & b & Ha & Hb & ->).
  eexists. split_and!; [done|by rewrite !length_insert|].
  rewrite (table_total_insert _ _ b) by done.
  rewrite (table_total_insert _ _ a) by done.
  rewrite !day_sum_add_bucket. lia.
Qed.

Lemma pull_inv_transfer (k : Kind) (sn dn : nat) (need : Z)
    (pd0 pd : list DayAllocation) (a b : DayAllocation) :
  sn <> dn -> Z.of_nat dn ∉ blocked -> 0 < need ->
  pd !! sn = Some a -> pd !! dn = Some b ->
  pull_inv blocked mind dn need pd0 pd ->
  pull_inv blocked mind dn (need - Z.min (bucket k a) need) pd0
    (<[dn := add_bucket k (Z.min (bucket k a) need) b]>
       (<[sn := add_bucket k (- Z.min (bucket k a) need) a]> pd)).
Proof.
  intros Hne Hnb Hneed Ha Hb (_ & Hgood & (b' & Hb' & Hdef) & Hdon).
  simplify_eq.
  destruct (Hgood _ _ Ha) as [Hna Hba]. destruct (Hgood _ _ Hb) as [Hnb' _].
  pose proof (day_nonneg_bucket k a Hna) as Hk.
  set (move := Z.min (bucket k a) need).
  assert (Hmove : 0 <= move <= need) by lia.
  assert (Hmove' : move <= bucket k a) by lia.
  split_and!.
  - lia.
  - intros n c Hc.
    apply list_lookup_insert_Some in Hc as [(<- & <- & _)|[Hn Hc]].
    { split; [|done]. eapply day_le_nonneg; [|done].
      apply day_le_add_bucket. lia. }
    apply list_lookup_insert_Some in Hc as [(<- & <- & _)|[Hn' Hc]];
      [|by apply Hgood].
    split; [by apply day_nonneg_take|].
    intros Hblocked. rewrite (Hba Hblocked) in *.
    assert (move = 0) as -> by (destruct k; simpl in *; lia).
    apply add_bucket_0.
  - exists (add_bucket k move b). split.
    + apply list_lookup_insert_eq. rewrite length_insert.
      by eapply lookup_lt_Some.
    + rewrite day_sum_add_bucket. lia.
  - intros n c Hn Hc.
    rewrite list_lookup_insert_ne in Hc by done.
    apply list_lookup_insert_Some in Hc as [(<- & <- & _)|[Hn' Hc]];
      [|by apply Hdon].
    destruct (Hdon _ _ Hn Ha) as (a0 & Ha0 & Hle).
    exists a0. split; [done|]. rewrite day_sum_add_bucket. lia.
Qed.

Lemma move_kinds_spec (s d : Z) (pd0 : list DayAllocation) (ks : list Kind) :
  s <> d ->
  forall (need : Z) (pd : list DayAllocation),
    0 <= s < Z.of_nat (length pd) -> 0 <= d < Z.of_nat (length pd) ->
    exists need' pd',
      move_kinds ks s d need pd = Ok (need', pd') /\
      length pd' = length pd /\
      table_total pd' = table_total pd /\
      (forall n : nat, n <> Z.to_nat s -> n <> Z.to_nat d ->
                       pd' !! n = pd !! n) /\
      (0 < need -> d ∉ blocked ->
       pull_inv blocked mind (Z.to_nat d) need pd0 pd ->
       pull_inv blocked mind (Z.to_nat d) need' pd0 pd').
Proof.
  intros Hsd. induction ks as [|k ks IH]; intros need pd Hs Hd; simpl.
  - exists need, pd. by split_and!.
  - assert (Hne : Z.to_nat s <> Z.to_nat d) by lia.
    destruct (py_get_in_range pd s Hs) as (a & Ha & ->).
    destruct (transfer_spec k (Z.min (bucket k a) need) s d pd Hs Hd)
      as (a' & b & Ha' & Hb & ->).
    rewrite list_lookup_insert_ne in Hb by done. simplify_eq.
    set (move := Z.min (bucket k a) need).
    set (pd1 := <[Z.to_nat d := add_bucket k move b]>
                  (<[Z.to_nat s := add_bucket k (- move) a]> pd)).
    assert (Hlen1 : length pd1 = length pd).
    { unfold pd1. by rewrite !length_insert. }
    assert (Htot1 : table_total pd1 = table_total pd).
    { unfold pd1. rewrite (table_total_insert _ _ b)
        by (by rewrite list_lookup_insert_ne).
      rewrite (table_total_insert _ _ a) by done.
      rewrite !day_sum_add_bucket. lia. }
    assert (Hoth1 : forall n : nat, n <> Z.to_nat s -> n <> Z.to_nat d ->
                                    pd1 !! n = pd !! n).
    { intros n Hns Hnd. unfold pd1. by rewrite !list_lookup_insert_ne. }
    assert (Hinv1 : 0 < need -> d ∉ blocked ->
                    pull_inv blocked mind (Z.to_nat d) need pd0 pd ->
                    pull_inv blocked mind (Z.to_nat d) (need - move) pd0 pd1).
    { intros Hneed Hnb Hinv. apply pull_inv_transfer; try done.
      by rewrite Z2Nat.id by lia. }
    case_bool_decide as Hdone.
    { exists (need - move), pd1. by split_and!. }
    destruct (IH (need - move) pd1) as (need' & pd' & -> & Hlen & Htot & Hoth & Hinv);
      [by rewrite Hlen1..|].
    exists need', pd'. split_and!; [done|congruence|congruence| |].
    + intros n Hns Hnd. rewrite Hoth by done. by apply Hoth1.
    + intros Hneed Hnb Hpre. apply Hinv; [lia|done|by apply Hinv1].
Qed.

Lemma donor_at_floor (need : Z) : 0 < need -> donor_ok mind mind need = false.
Proof.
  intros Hneed. unfold donor_ok.
  rewrite !bool_decide_eq_false_2; [done|lia|lia].
Qed.

Lemma pull_from_spec (d : Z) (pd0 : list DayAllocation) (donors : list Z) :
  forall (need : Z) (pd : list DayAllocation),
    in_table pd donors -> 0 <= d < Z.of_nat (length pd) ->
    exists need' pd',
      pull_from mind donors d need pd = Ok (need', pd') /\
      length pd' = length pd /\
      table_total pd' = table_total pd /\
      (0 < need ->
       forall (n : nat) a, n <> Z.to_nat d -> pd !! n = Some a ->
                           day_sum a = mind -> pd' !! n = Some a) /\
      (0 < need -> d ∉ blocked ->
       pull_inv blocked mind (Z.to_nat d) need pd0 pd ->
       pull_inv blocked mind (Z.to_nat d) need' pd0 pd').
Proof.
  induction donors as [|s donors IH]; intros need pd Hin Hd; cbn [pull_from].
  - exists need, pd. by split_and!.
  - apply Forall_cons in Hin as [Hs Hin].
    case_bool_decide as Hsd; [by apply IH|].
    destruct (py_get_in_range pd s Hs) as (a & Ha & ->).
    destruct (move_kinds_spec s d pd0 [review; exo; learn; mock] Hsd need pd Hs Hd)
      as (need1 & pd1 & Hmove & Hlen1 & Htot1 & Hoth1 & Hinv1).
    assert (exists need2 pd2,
      (if donor_ok mind (day_sum a) need
       then move_kinds [review; exo; learn; mock] s d need pd
       else Ok (need, pd)) = Ok (need2, pd2) /\
      length pd2 = length pd /\ table_total pd2 = table_total pd /\
      (0 < need -> (0 < need2 \/ need2 <= 0) /\
         forall (n : nat) b, n <> Z.to_nat d -> pd !! n = Some b ->
                             day_sum b = mind -> pd2 !! n = Some b) /\
      (0 < need -> d ∉ blocked ->
       pull_inv blocked mind (Z.to_nat d) need pd0 pd ->
       pull_inv blocked mind (Z.to_nat d) need2 pd0 pd2))
      as (need2 & pd2 & -> & Hlen2 & Htot2 & Hkeep2 & Hinv2).
    { destruct (donor_ok mind (day_sum a) need) eqn:Hdon.
      - exists need1, pd1. split_and!; try done.
        intros Hneed. split; [lia|]. intros n b Hn Hb Hsum.
        destruct (decide (n = Z.to_nat s)) as [->|Hns].
        + rewrite Ha in Hb. injection Hb as <-.
          rewrite Hsum, donor_at_floor in Hdon; done.
        + by rewrite Hoth1.
      - exists need, pd. split_and!; try done. intros Hneed. split; [lia|done]. }
    case_bool_decide as Hdone.
    { exists need2, pd2. split_and!; try done. intros Hneed. by apply Hkeep2. }
    destruct (IH need2 pd2) as (need' & pd' & -> & Hlen & Htot & Hkeep & Hinv).
    { unfold in_table. by rewrite Hlen2. }
    { by rewrite Hlen2. }
    exists need', pd'. split_and!; [done|congruence|congruence| |].
    + intros Hneed n b Hn Hb Hsum. apply Hkeep; [lia|done| |done].
      by apply Hkeep2.
    + intros Hneed Hnb Hpre. apply Hinv; [lia|done|by apply Hinv2].
Qed.

Lemma pull_inv_start (d : Z) (pd : list DayAllocation) (a : DayAllocation) :
  good_table blocked pd -> pd !! Z.to_nat d = Some a -> day_sum a < mind ->
  pull_inv blocked mind (Z.to_nat d) (mind - day_sum a) pd pd.
Proof.
  intros Hgood Ha Hlt. split_and!; [lia|done| |].
  - exists a. split; [done|lia].
  - intros n c _ Hc. exists c. split; [done|lia].
Qed.

Lemma pull_inv_under_cap (dn : nat) (need : Z) (pd0 pd : list DayAllocation) :
  length pd = length pd0 -> mind <= maxd ->
  Forall (fun a => day_sum a <= maxd) pd0 ->
  pull_inv blocked mind dn need pd0 pd ->
  Forall (fun a => day_sum a <= maxd) pd.
Proof.
  intros Hlen Hmm Hcap (Hneed & _ & (b & Hb & Hdef) & Hdon).
  apply Forall_lookup. intros n c Hc.
  destruct (decide (n = dn)) as [->|Hn].
  - simplify_eq. lia.
  - destruct (Hdon n c Hn Hc) as (c0 & Hc0 & Hle).
    pose proof (Forall_lookup_1 _ _ _ _ Hcap Hc0) as Hc0cap.
    simpl in Hc0cap. lia.
Qed.

(** One round of the outer loop: it always succeeds on a day of the
    table, moves minutes without creating or losing any, leaves alone
    every other day that sits exactly on the floor, and keeps the table
    good and under the cap. *)
Lemma rebalance_day_spec (d : Z) (pd : list DayAllocation) :
  length pd = Z.to_nat D -> 0 <= d < D ->
  exists pd',
    rebalance_day D blocked mind d pd = Ok pd' /\
    length pd' = length pd /\
    table_total pd' = table_total pd /\
    (forall (n : nat) a, n <> Z.to_nat d -> pd !! n = Some a ->
                         day_sum a = mind -> pd' !! n = Some a) /\
    (good_table blocked pd ->
     good_table blocked pd' /\
     (mind <= maxd -> Forall (fun a => day_sum a <= maxd) pd ->
      Forall (fun a => day_sum a <= maxd) pd')).
Proof.
  intros Hlen Hd. unfold rebalance_day.
  assert (Hsame : exists pd', Ok pd = Ok pd' /\
    length pd' = length pd /\ table_total pd' = table_total pd /\
    (forall (n : nat) a, n <> Z.to_nat d -> pd !! n = Some a ->
                         day_sum a = mind -> pd' !! n = Some a) /\
    (good_table blocked pd ->
     good_table blocked pd' /\
     (mind <= maxd -> Forall (fun a => day_sum a <= maxd) pd ->
      Forall (fun a => day_sum a <= maxd) pd'))).
  { exists pd. by split_and!. }
  case_bool_decide as Hblocked; [done|].
  destruct (py_get_in_range pd d) as (a & Ha & ->); [lia|].
  case_bool_decide as Hzero; [done|].
  case_bool_decide as Hlow; [|done].
  destruct (pull_from_spec d pd (reverse (days_idx D)) (mind - day_sum a) pd)
    as (need' & pd' & -> & Hlen' & Htot' & Hkeep & Hinv).
  { apply (in_table_range D); [done|apply reverse_days_idx_range]. }
  { lia. }
  exists pd'. split_and!; [done|done|done| |].
  - intros n b Hn Hb Hsum. apply Hkeep; [lia|done..].
  - intros Hgood.
    assert (Hpost : pull_inv blocked mind (Z.to_nat d) need' pd pd').
    { apply Hinv; [lia|done|by apply pull_inv_start]. }
    split; [apply Hpost|].
    intros Hmm Hcap. by eapply pull_inv_under_cap.
Qed.

Lemma rebalance_loop_spec (ds : list Z) :
  forall pd : list DayAllocation,
    length pd = Z.to_nat D -> Forall (fun d => 0 <= d < D) ds ->
    exists pd',
      rebalance_loop D blocked mind ds pd = Ok pd' /\
      length pd' = length pd /\
      table_total pd' = table_total pd /\
      (forall (n : nat) a, Z.of_nat n ∉ ds -> pd !! n = Some a ->
                           day_sum a = mind -> pd' !! n = Some a) /\
      (good_table blocked pd ->
       good_table blocked pd' /\
       (mind <= maxd -> Forall (fun a => day_sum a <= maxd) pd ->
        Forall (fun a => day_sum a <= maxd) pd')).
Proof.
  induction ds as [|d ds IH]; intros pd Hlen Hds; simpl.
  - exists pd. by split_and!.
  - apply Forall_cons in Hds as [Hd Hds].
    destruct (rebalance_day_spec d pd Hlen Hd)
      as (pd1 & -> & Hlen1 & Htot1 & Hkeep1 & Hgood1).
    destruct (IH pd1) as (pd' & -> & Hlen' & Htot' & Hkeep & Hgood);
      [congruence|done|].
    exists pd'. split_and!; [done|congruence|congruence| |].
    + intros n a Hn Ha Hsum. apply not_elem_of_cons in Hn as [Hnd Hn].
      apply Hkeep; [done| |done]. apply Hkeep1; [|done..].
      intros ->. apply Hnd. lia.
    + intros Hg. destruct (Hgood1 Hg) as [Hg1 Hcap1].
      destruct (Hgood Hg1) as [Hg' Hcap']. split; [done|].
      intros Hmm Hcap. apply Hcap'; [done|]. by apply Hcap1.
Qed.

(** With no day passing the donor test, a pull changes nothing. *)
Lemma pull_from_no_donor (d need : Z) (donors : list Z) (pd : list DayAllocation) :
  in_table pd donors ->
  Forall (fun s => s <> d ->
            forall a, pd !! Z.to_nat s = Some a ->
                      donor_ok mind (day_sum a) need = false) donors ->
  0 < need ->
  pull_from mind donors d need pd = Ok (need, pd).
Proof.
  intros Hin Hnone Hneed.
  induction donors as [|s donors IH]; cbn [pull_from]; [done|].
  apply Forall_cons in Hin as [Hs Hin].
  apply Forall_cons in Hnone as [Hnos Hnone].
  case_bool_decide as Hsd; [by apply IH|].
  destruct (py_get_in_range pd s Hs) as (a & Ha & ->).
  rewrite (Hnos Hsd a Ha).
  rewrite bool_decide_eq_false_2 by lia. by apply IH.
Qed.

(** A day that passes the donor test holds at least what is needed. *)
Lemma donor_ok_enough (a : DayAllocation) (need : Z) :
  0 <= mind -> need <= mind -> donor_ok mind (day_sum a) need = true ->
  need <= day_sum a.
Proof.
  intros Hmind Hneed Hok. unfold donor_ok in Hok.
  apply orb_true_iff in Hok as [Hok|Hok]; apply bool_decide_eq_true in Hok; lia.
Qed.

(** The buckets of a donor that holds enough cover the need. *)
Lemma move_kinds_enough (s d : Z) (ks : list Kind) :
  s <> d -> NoDup ks ->
  forall (need : Z) (pd : list DayAllocation) (a : DayAllocation),
    0 <= s < Z.of_nat (length pd) -> 0 <= d < Z.of_nat (length pd) ->
    pd !! Z.to_nat s = Some a -> day_nonneg a ->
    need <= sum_buckets ks a ->
    exists need' pd', move_kinds ks s d need pd = Ok (need', pd') /\ need' <= 0.
Proof.
  intros Hsd Hnd. induction Hnd as [|k ks Hk Hnd IH];
    intros need pd a Hs Hd Ha Hna Hsum; simpl in *.
  - exists need, pd. split; [done|lia].
  - assert (Hne : Z.to_nat s <> Z.to_nat d) by lia.
    rewrite (py_get_lookup pd s a) by (done || lia).
    destruct (transfer_spec k (Z.min (bucket k a) need) s d pd Hs Hd)
      as (a' & b & Ha' & Hb & ->). simplify_eq.
    case_bool_decide as Hdone; [by eauto|].
    set (move := Z.min (bucket k a) need) in *.
    apply (IH _ _ (add_bucket k (- move) a)).
    + by rewrite !length_insert.
    + by rewrite !length_insert.
    + rewrite list_lookup_insert_ne by done.
      apply list_lookup_insert_eq. lia.
    + apply day_nonneg_take; [done|lia].
    + assert (Hrest : sum_buckets ks (add_bucket k (- move) a) = sum_buckets ks a).
      { clear -Hk. induction ks as [|k' ks IHks]; simpl; [done|].
        apply not_elem_of_cons in Hk as [Hkk' Hk].
        rewrite bucket_add_bucket_ne by done. by rewrite IHks. }
      rewrite Hrest. lia.
Qed.

Lemma kinds_nodup : NoDup [review; exo; learn; mock].
Proof.
  repeat constructor; intros H;
    repeat (apply elem_of_cons in H as [H|H]; [discriminate|]);
    by apply elem_of_nil in H.
Qed.

(** With a day passing the donor test, a pull covers the whole need. *)
Lemma pull_from_donor (d : Z) (pd0 : list DayAllocation) (donors : list Z) :
  0 <= mind -> d ∉ blocked ->
  forall (need : Z) (pd : list DayAllocation),
    in_table pd donors -> 0 <= d < Z.of_nat (length pd) ->
    0 < need ->
    pull_inv blocked mind (Z.to_nat d) need pd0 pd ->
    Exists (fun s => s <> d /\
              exists a, pd !! Z.to_nat s = Some a /\
                        donor_ok mind (day_sum a) need = true) donors ->
    exists pd', pull_from mind donors d need pd = Ok (0, pd') /\
                pull_inv blocked mind (Z.to_nat d) 0 pd0 pd'.
Proof.
  intros Hmind Hnb.
  induction donors as [|s donors IH];
    intros need pd Hin Hd Hneed Hinv Hex; cbn [pull_from].
  - by apply Exists_nil in Hex.
  - apply Forall_cons in Hin as [Hs Hin].
    case_bool_decide as Hsd.
    { apply IH; try done. apply Exists_cons in Hex as [[Hne _]|Hex]; done. }
    destruct (py_get_in_range pd s Hs) as (a & Ha & ->).
    destruct (donor_ok mind (day_sum a) need) eqn:Hok.
    + destruct (move_kinds_spec s d pd0 [review; exo; learn; mock] Hsd need pd Hs Hd)
        as (need1 & pd1 & Hrun & _ & _ & _ & Hinv1).
      destruct (move_kinds_enough s d [review; exo; learn; mock] Hsd
                  kinds_nodup need pd a Hs Hd Ha)
        as (need2 & pd2 & Hrun2 & Hle).
      { destruct Hinv as (_ & Hgood & _). by apply (Hgood _ _ Ha). }
      { rewrite day_sum_buckets. apply donor_ok_enough; [done| |done].
        destruct Hinv as (_ & Hgood & (b & Hb & Hdef) & _).
        destruct (Hgood _ _ Hb) as [Hnn _].
        unfold day_nonneg, day_sum in *. lia. }
      rewrite Hrun in Hrun2. simplify_eq. rewrite Hrun.
      specialize (Hinv1 Hneed Hnb Hinv).
      assert (need2 = 0) as -> by (destruct Hinv1; lia).
      rewrite bool_decide_eq_true_2 by lia. by exists pd2.
    + rewrite bool_decide_eq_false_2 by lia.
      apply IH; try done.
      apply Exists_cons in Hex as [(_ & a' & Ha' & Hok')|Hex]; [|done].
      simplify_eq. congruence.
Qed.

End Rebalance.

(** ** The result rows *)

Section Rows.

Context (D : Z).

Lemma date_plus_days_fit (s d : Z) :
  dates_fit (Some s) D -> 0 <= d < D -> date_plus_days s d = Ok (s + d).
Proof.
  intros [Hs Hlast] Hd. unfold date_plus_days.
  rewrite bool_decide_eq_true_2; [done|lia].
Qed.

Lemma build_items_spec (pd : list DayAllocation) (start_date : option Z)
    (ds : list Z) :
  length pd = Z.to_nat D -> dates_fit start_date D ->
  Forall (fun d => 0 <= d < D) ds ->
  exists items,
    build_items ds pd start_date = Ok items /\
    Forall2 (fun d it => day_index it = d /\
                         date it = (fun s => s + d) <$> start_date /\
                         pd !! Z.to_nat d = Some (item_buckets it))
            ds items.
Proof.
  intros Hlen Hfit. induction ds as [|d ds IH]; intros Hds; simpl.
  - exists []. split; [done|constructor].
  - apply Forall_cons in Hds as [Hd Hds].
    destruct (IH Hds) as (items & -> & Hall).
    destruct (py_get_in_range pd d) as (a & Ha & ->); [lia|].
    destruct start_date as [s|].
    + rewrite date_plus_days_fit by done. eexists. split; [done|].
      constructor; [|done]. simpl. split_and!; [done|done|]. by destruct a.
    + eexists. split; [done|].
      constructor; [|done]. simpl. split_and!; [done|done|]. by destruct a.
Qed.

(** The rows are the table, day by day, in day order. *)
Lemma build_items_days_idx (pd : list DayAllocation) (start_date : option Z) :
  length pd = Z.to_nat D -> dates_fit start_date D ->
  exists items,
    build_items (days_idx D) pd start_date = Ok items /\
    item_buckets <$> items = pd /\
    (forall (n : nat) it, items !! n = Some it ->
       day_index it = Z.of_nat n /\
       date it = (fun s => s + Z.of_nat n) <$> start_date).
Proof.
  intros Hlen Hfit.
  destruct (build_items_spec pd start_date (days_idx D) Hlen Hfit
              (days_idx_range D)) as (items & Hrun & Hall).
  exists items. split; [done|].
  pose proof (Forall2_length _ _ _ Hall) as Hlen2.
  rewrite length_days_idx in Hlen2.
  assert (Hrow : forall (n : nat) it, items !! n = Some it ->
    day_index it = Z.of_nat n /\
    date it = (fun s => s + Z.of_nat n) <$> start_date /\
    pd !! n = Some (item_buckets it)).
  { intros n it Hit.
    pose proof (lookup_lt_Some _ _ _ Hit) as Hn.
    assert (Hd : days_idx D !! n = Some (Z.of_nat n)).
    { unfold days_idx, py_range. rewrite lookup_seqZ_lt by lia. f_equal; lia. }
    destruct (Forall2_lookup_lr _ _ _ _ _ _ Hall Hd Hit) as (Hi & Hdt & Hb).
    by rewrite Nat2Z.id in Hb. }
  split.
  - apply list_eq. intros n. rewrite list_lookup_fmap.
    destruct (items !! n) as [it|] eqn:Hit; simpl.
    + symmetry. by apply Hrow.
    + symmetry. apply lookup_ge_None. apply lookup_ge_None in Hit. lia.
  - intros n it Hit. destruct (Hrow n it Hit) as (? & ? & _). done.
Qed.

End Rows.

(** ** The whole function *)

Section Whole.

Context (D : Z) (blocked : gset Z) (maxd mind : Z).
Context (learn_total exo_total review_total mock_total : Z).
Context (start_date : option Z).

(** The function runs to the end whenever there is at least one day and
    the dates exist; its rows are the rebalanced table; and on a
    non-negative budget the table is good before and after rebalancing
    and stays under the cap. *)
Lemma run_spec :
  1 <= D -> dates_fit start_date D ->
  exists pd pd' items,
    place_all D blocked maxd learn_total exo_total review_total mock_total
      = Ok pd /\
    rebalance D blocked mind pd = Ok pd' /\
    run D blocked maxd mind learn_total exo_total review_total mock_total
      start_date = Ok items /\
    item_buckets <$> items = pd' /\
    (forall (n : nat) it, items !! n = Some it ->
       day_index it = Z.of_nat n /\
       date it = (fun s => s + Z.of_nat n) <$> start_date) /\
    length pd = Z.to_nat D /\ length pd' = Z.to_nat D /\
    table_total pd' = table_total pd /\
    (0 <= learn_total -> 0 <= exo_total -> 0 <= review_total ->
     0 <= mock_total ->
     placed blocked maxd
       (learn_total + exo_total + review_total + mock_total)
       ((fun _ => empty_day) <$> days_idx D) pd /\
     good_table blocked pd /\ good_table blocked pd' /\
     (0 <= maxd ->
      Forall (fun a => day_sum a <= maxd) pd /\
      (mind <= maxd -> Forall (fun a => day_sum a <= maxd) pd'))).
Proof.
  intros HD Hfit. unfold run.
  destruct (place_all_spec D blocked maxd learn_total exo_total review_total
              mock_total HD) as (pd & Hplace & Hlen & Hplaced).
  destruct (rebalance_loop_spec D blocked maxd mind (days_idx D) pd Hlen
              (days_idx_range D))
    as (pd' & Hreb & Hlen' & Htot' & _ & Hgood').
  destruct (build_items_days_idx D pd' start_date)
    as (items & Hrows & Hbk & Hidx); [congruence|done|].
  exists pd, pd', items. unfold rebalance.
  rewrite Hplace, Hreb, Hrows.
  split_and!; [done|done|done|done|done|done|congruence|done|].
  intros Hl He Hr Hm.
  destruct (Hplaced Hl He Hr Hm) as (Hkept & Hgrown & Hbound & Hfull).
  assert (Hgood : good_table blocked pd).
  { intros n a Ha. split.
    - destruct (lookup_lt_is_Some_2 ((fun _ => empty_day) <$> days_idx D) n)
        as [a0 Ha0].
      { rewrite length_fmap, length_days_idx. apply lookup_lt_Some in Ha. lia. }
      destruct (Hgrown n a0 Ha0) as (a' & Ha' & Hle & _). simplify_eq.
      eapply day_le_nonneg; [done|].
      apply empty_table_lookup in Ha0 as ->. unfold day_nonneg. simpl. lia.
    - intros Hb. rewrite (Hkept n Hb) in Ha. by apply empty_table_lookup in Ha. }
  destruct (Hgood' Hgood) as [Hg' Hcap'].
  split_and!; [done|done|done|].
  intros Hmax.
  assert (Hcap : Forall (fun a => day_sum a <= maxd) pd).
  { apply (grown_under_cap maxd ((fun _ => empty_day) <$> days_idx D));
      [by rewrite length_fmap, length_days_idx|done|].
    apply Forall_lookup. intros n a Ha.
    apply empty_table_lookup in Ha as ->. simpl. unfold day_sum. simpl. lia. }
  split; [done|]. intros Hmm. by apply Hcap'.
Qed.

End Whole.

(** ** What is placed: the budget, or the capacity when it is smaller *)

Section Capacity.

Context (blocked : gset Z) (maxd : Z).

(** The bound of one day: nothing on a blocked day, the cap on the
    others. *)
Lemma capacity_unfold (D : Z) :
  capacity D blocked maxd
  = foldr (fun d acc => (if bool_decide (d ∈ blocked) then 0 else maxd) + acc)
          0 (seqZ 0 D).
Proof. unfold capacity, days_idx, py_range. by rewrite Z.sub_0_r. Qed.

Lemma total_above_bounds (g : Z -> Z) (pd : list DayAllocation) :
  forall i : Z,
    (forall (n : nat) a, pd !! n = Some a -> g (i + Z.of_nat n) <= day_sum a) ->
    foldr (fun d acc => g d + acc) 0 (seqZ i (Z.of_nat (length pd)))
    <= table_total pd.
Proof.
  induction pd as [|a pd IH]; intros i Hall; [done|].
  cbn [length]. rewrite seqZ_cons by lia. cbn [foldr].
  replace (Z.pred (Z.of_nat (S (length pd)))) with (Z.of_nat (length pd)) by lia.
  pose proof (Hall 0%nat a eq_refl) as H0. rewrite Z.add_0_r in H0.
  change (table_total (a :: pd)) with (day_sum a + table_total pd).
  assert (foldr (fun d acc => g d + acc) 0 (seqZ (Z.succ i) (Z.of_nat (length pd)))
          <= table_total pd); [|lia].
  apply IH. intros n b Hb.
  replace (Z.succ i + Z.of_nat n) with (i + Z.of_nat (S n)) by lia.
  by apply Hall.
Qed.

Lemma total_below_bounds (g : Z -> Z) (pd : list DayAllocation) :
  forall i : Z,
    (forall (n : nat) a, pd !! n = Some a -> day_sum a <= g (i + Z.of_nat n)) ->
    table_total pd
    <= foldr (fun d acc => g d + acc) 0 (seqZ i (Z.of_nat (length pd))).
Proof.
  induction pd as [|a pd IH]; intros i Hall; [done|].
  cbn [length]. rewrite seqZ_cons by lia. cbn [foldr].
  replace (Z.pred (Z.of_nat (S (length pd)))) with (Z.of_nat (length pd)) by lia.
  pose proof (Hall 0%nat a eq_refl) as H0. rewrite Z.add_0_r in H0.
  change (table_total (a :: pd)) with (day_sum a + table_total pd).
  assert (table_total pd
          <= foldr (fun d acc => g d + acc) 0
                   (seqZ (Z.succ i) (Z.of_nat (length pd)))); [|lia].
  apply IH. intros n b Hb.
  replace (Z.succ i + Z.of_nat n) with (i + Z.of_nat (S n)) by lia.
  by apply Hall.
Qed.

Lemma empty_table_total (D : Z) :
  table_total ((fun _ => empty_day) <$> days_idx D) = 0.
Proof.
  induction (days_idx D) as [|d l IH]; [done|].
  change (0 + table_total ((fun _ => empty_day) <$> l) = 0). by rewrite IH.
Qed.

End Capacity.

(** X1. On every valid input with a non-negative cap the buckets of the
    returned schedule add up to the budget when the capacity of the
    non-blocked days covers it, and to that capacity when it does not: the
    excess is left out. *)
Theorem schedule_total_budget_or_capacity
    (learn_total exo_total review_total mock_total : Z)
    (c : Constraints) (start_date : option Z) :
  1 <= days_available c ->
  0 <= learn_total -> 0 <= exo_total -> 0 <= review_total -> 0 <= mock_total ->
  0 <= max_minutes_per_day c ->
  dates_fit start_date (days_available c) ->
  exists items,
    distribute_minutes_over_days learn_total exo_total review_total mock_total
      c start_date = Ok items /\
    schedule_total items
    = Z.min (learn_total + exo_total + review_total + mock_total)
            (capacity (days_available c) (blocked_set c)
                      (max_minutes_per_day c)).
Proof.
  intros HD Hl He Hr Hm Hmax Hfit.
  destruct (run_spec (days_available c) (blocked_set c)
              (max_minutes_per_day c) (min_minutes_per_day c)
              learn_total exo_total review_total mock_total start_date HD Hfit)
    as (pd & pd' & items & _ & _ & Hrun & Hrows & _ & Hlen & _ & Htot & Hgood).
  destruct (Hgood Hl He Hr Hm) as ((_ & _ & Hbound & Hfull) & Hg & _ & Hcap).
  destruct (Hcap Hmax) as [Hcap1 _].
  rewrite empty_table_total in Hbound, Hfull.
  exists items. split; [done|].
  unfold schedule_total. rewrite Hrows, Htot, capacity_unfold.
  replace (days_available c) with (Z.of_nat (length pd)) by lia.
  assert (Hup : table_total pd
    <= foldr (fun d acc => (if bool_decide (d ∈ blocked_set c) then 0
                            else max_minutes_per_day c) + acc)
             0 (seqZ 0 (Z.of_nat (length pd)))).
  { apply (total_below_bounds
             (fun d => if bool_decide (d ∈ blocked_set c) then 0
                       else max_minutes_per_day c)).
    intros n a Ha. rewrite Z.add_0_l. case_bool_decide as Hb.
    - destruct (Hg n a Ha) as [_ Hz]. by rewrite (Hz Hb).
    - by apply (Forall_lookup_1 _ _ _ _ Hcap1 Ha). }
  destruct Hfull as [Hall|Hall]; [lia|].
  assert (Hlow : foldr (fun d acc => (if bool_decide (d ∈ blocked_set c) then 0
                                      else max_minutes_per_day c) + acc)
                       0 (seqZ 0 (Z.of_nat (length pd)))
                 <= table_total pd).
  { apply (total_above_bounds
             (fun d => if bool_decide (d ∈ blocked_set c) then 0
                       else max_minutes_per_day c)).
    intros n a Ha. rewrite Z.add_0_l. case_bool_decide as Hb.
    - destruct (Hg n a Ha) as [_ Hz]. by rewrite (Hz Hb).
    - destruct (Hall n a Ha) as [|Hf]; [done|exact Hf]. }
  lia.
Qed.

Lemma schedule_total_budget_or_capacity_witness :
  let c := default_constraints 1 in
  1 <= days_available c /\
  0 <= max_minutes_per_day c /\
  exists items,
    distribute_minutes_over_days 300 0 0 0 c None = Ok items /\
    schedule_total items
    = Z.min (300 + 0 + 0 + 0)
            (capacity (days_available c) (blocked_set c)
                      (max_minutes_per_day c)).
Proof.
  intros c.
  assert (HD : 1 <= days_available c) by (simpl; lia).
  assert (Hmax : 0 <= max_minutes_per_day c) by (simpl; lia).
  split; [exact HD|]. split; [exact Hmax|].
  apply (schedule_total_budget_or_capacity 300 0 0 0 c None HD);
    [lia|lia|lia|lia|exact Hmax|exact I].
Defined.

(** * The claims *)

(** ** C1: conservation of minutes *)

(** C1 (code defect). The claim says that every minute of the budget is
    placed, past the cap if need be. [push] never allocates past the cap,
    also on the spill-over call, so the minutes that do not fit are lost:
    with one day of 240 minutes and 300 minutes to learn, the schedule holds
    240 minutes while the plan still reports a total of 300. *)
Theorem C1_overflow_minutes_dropped :
  exists items,
    distribute_minutes_over_days 300 0 0 0 (default_constraints 1) None
      = Ok items /\
    items = [ {| day_index := 0; date := None; learn_min := 240;
                 exercises_min := 0; review_min := 0; mock_min := 0 |} ] /\
    schedule_total items = 240 /\
    schedule_total items < 300 + 0 + 0 + 0 /\
    total_minutes <$>
      (match build_study_plan 300 0 0 0 (default_constraints 1) None with
       | Ok plan => Some plan
       | Raise _ => None
       end) = Some 300.
Proof. eexists. split_and!; [by vm_compute|done..]. Qed.

(** ** C2: configuration errors *)

(** C2 (counterexample). With [min_minutes_per_day = 240] above
    [max_minutes_per_day = 60] and both days of a two-day window blocked,
    two of the three configuration errors at once, the call does not fail:
    it returns a plan whose schedule is two empty days. *)
Lemma C2_bad_configuration_accepted :
  let c := {| days_available := 2; max_minutes_per_day := 60;
              min_minutes_per_day := 240; blocked_days := Some [0; 1] |} in
  config_error c /\
  max_minutes_per_day c < min_minutes_per_day c /\
  (forall d, 0 <= d < days_available c -> d ∈ blocked_set c) /\
  exists plan,
    build_study_plan 100 50 30 0 c None = Ok plan /\
    item_buckets <$> per_day plan = [empty_day; empty_day].
Proof.
  intros c.
  assert (Hall : forall d, 0 <= d < days_available c -> d ∈ blocked_set c).
  { intros d Hd. simpl in Hd. unfold blocked_set. simpl.
    assert (d = 0 \/ d = 1) as [-> | ->] by lia; set_solver. }
  split_and!; [right; right; exact Hall|simpl; lia|exact Hall|].
  eexists. split; [by vm_compute|done].
Qed.

(** C2 (amended). No configuration check is made: with at least one day
    (and a start date whose last day exists) the call returns a schedule
    with one row per day, whatever the floor, the cap and the blocked days
    are, and [build_study_plan] wraps it with the sum of the four totals. *)
Theorem C2_no_configuration_check
    (TAI TEXO TR TEB : Z) (c : Constraints) (start_date : option Z) :
  1 <= days_available c ->
  dates_fit start_date (days_available c) ->
  exists items,
    distribute_minutes_over_days TAI TEXO TR TEB c start_date = Ok items /\
    length items = Z.to_nat (days_available c) /\
    build_study_plan TAI TEXO TR TEB c start_date
    = Ok {| total_minutes := TAI + TEXO + TR + TEB;
            per_day := items;
            breakdown := (TAI, TEXO, TR, TEB) |}.
Proof.
  intros HD Hfit.
  destruct (run_spec (days_available c) (blocked_set c)
              (max_minutes_per_day c) (min_minutes_per_day c)
              TAI TEXO TR TEB start_date HD Hfit)
    as (pd & pd' & items & _ & _ & Hrun & Hrows & _ & _ & Hlen' & _).
  exists items. split_and!; [done| |].
  - by rewrite <- Hlen', <- Hrows, length_fmap.
  - unfold build_study_plan, distribute_minutes_over_days. by rewrite Hrun.
Qed.

Lemma C2_no_configuration_check_witness :
  let c := {| days_available := 2; max_minutes_per_day := 60;
              min_minutes_per_day := 240; blocked_days := Some [0; 1] |} in
  1 <= days_available c /\
  dates_fit None (days_available c) /\
  exists items,
    distribute_minutes_over_days 100 50 30 0 c None = Ok items /\
    length items = Z.to_nat (days_available c) /\
    build_study_plan 100 50 30 0 c None
    = Ok {| total_minutes := 100 + 50 + 30 + 0;
            per_day := items;
            breakdown := (100, 50, 30, 0) |}.
Proof.
  intros c.
  assert (HD : 1 <= days_available c) by (simpl; lia).
  assert (Hfit : dates_fit None (days_available c)) by exact I.
  split; [exact HD|]. split; [exact Hfit|].
  exact (C2_no_configuration_check 100 50 30 0 c None HD Hfit).
Defined.

(** Without a day the call is not rejected as a configuration error
    either: unless day 0 is blocked, it stops in the review pass on the
    first access to the empty table. *)
Lemma distribute_without_days
    (TAI TEXO TR TEB : Z) (c : Constraints) (start_date : option Z) :
  days_available c < 1 -> 0 ∉ blocked_set c ->
  distribute_minutes_over_days TAI TEXO TR TEB c start_date = Raise IndexError.
Proof.
  intros HD Hnb. unfold distribute_minutes_over_days, run, place_all.
  assert (Hidx : days_idx (days_available c) = []).
  { unfold days_idx, py_range, seqZ. by replace (Z.to_nat _) with 0%nat by lia. }
  assert (Hexo : order_exo (days_available c) = []).
  { unfold order_exo. by rewrite bool_decide_eq_false_2 by lia. }
  rewrite Hidx, Hexo. simpl.
  assert (Hpush : forall k m, push_then_spill (blocked_set c)
            (max_minutes_per_day c) k m [] [] [] = Ok []).
  { intros k m. unfold push_then_spill. simpl. by case_bool_decide. }
  rewrite !Hpush. unfold review_pass, waves.
  rewrite !bool_decide_eq_false_2 by lia. simpl.
  change (py_get [0] 0) with (Ok 0). unfold around. simpl.
  rewrite bool_decide_eq_false_2 by set_solver.
  unfold push_then_spill. simpl.
  by rewrite bool_decide_eq_false_2 by done.
Qed.

(** ** C3: blocked days *)

(** C3. On every valid input the call returns a schedule in which each
    blocked day has its four buckets at 0: [push] skips blocked days, and
    in the rebalancing pass a blocked day is never the needy day and, being
    empty, gives nothing when it is scanned as a donor. *)
Theorem C3_blocked_days_stay_empty
    (learn_total exo_total review_total mock_total : Z)
    (c : Constraints) (start_date : option Z) :
  1 <= days_available c ->
  0 <= learn_total -> 0 <= exo_total -> 0 <= review_total -> 0 <= mock_total ->
  dates_fit start_date (days_available c) ->
  exists items,
    distribute_minutes_over_days learn_total exo_total review_total mock_total
      c start_date = Ok items /\
    length items = Z.to_nat (days_available c) /\
    forall (n : nat) it,
      Z.of_nat n ∈ blocked_set c -> items !! n = Some it ->
      day_index it = Z.of_nat n /\
      learn_min it = 0 /\ exercises_min it = 0 /\
      review_min it = 0 /\ mock_min it = 0.
Proof.
  intros HD Hl He Hr Hm Hfit.
  destruct (run_spec (days_available c) (blocked_set c)
              (max_minutes_per_day c) (min_minutes_per_day c)
              learn_total exo_total review_total mock_total start_date HD Hfit)
    as (pd & pd' & items & _ & _ & Hrun & Hrows & Hidx & _ & Hlen' & _ & Hgood).
  destruct (Hgood Hl He Hr Hm) as (_ & _ & Hgood' & _).
  exists items. split_and!; [done|by rewrite <- Hlen', <- Hrows, length_fmap|].
  intros n it Hn Hit. split; [by apply (Hidx n it Hit)|].
  assert (Hpd : pd' !! n = Some (item_buckets it)).
  { by rewrite <- Hrows, list_lookup_fmap, Hit. }
  destruct (Hgood' _ _ Hpd) as [_ Hzero].
  specialize (Hzero Hn). unfold item_buckets, empty_day in Hzero.
  injection Hzero as -> -> -> ->. by split_and!.
Qed.

Lemma C3_blocked_days_stay_empty_witness :
  let c := {| days_available := 4; max_minutes_per_day := 240;
              min_minutes_per_day := 60; blocked_days := Some [2] |} in
  1 <= days_available c /\
  dates_fit None (days_available c) /\
  exists items,
    distribute_minutes_over_days 600 300 120 135 c None = Ok items /\
    length items = Z.to_nat (days_available c) /\
    forall (n : nat) it,
      Z.of_nat n ∈ blocked_set c -> items !! n = Some it ->
      day_index it = Z.of_nat n /\
      learn_min it = 0 /\ exercises_min it = 0 /\
      review_min it = 0 /\ mock_min it = 0.
Proof.
  intros c.
  assert (HD : 1 <= days_available c) by (simpl; lia).
  assert (Hfit : dates_fit None (days_available c)) by exact I.
  split; [exact HD|]. split; [exact Hfit|].
  apply (C3_blocked_days_stay_empty 600 300 120 135 c None HD);
    [lia|lia|lia|lia|exact Hfit].
Defined.

(** ** C4: the daily cap *)

(** C4. With a floor that does not exceed a non-negative cap, no day of
    the returned schedule holds more than [max_minutes_per_day]: the table
    is under the cap after the four placement passes, and again after the
    rebalancing pass. The code has no overflow mode, so the bound holds
    without exception. *)
Theorem C4_day_total_under_cap
    (learn_total exo_total review_total mock_total : Z)
    (c : Constraints) (start_date : option Z) :
  1 <= days_available c ->
  0 <= learn_total -> 0 <= exo_total -> 0 <= review_total -> 0 <= mock_total ->
  0 <= max_minutes_per_day c ->
  min_minutes_per_day c <= max_minutes_per_day c ->
  dates_fit start_date (days_available c) ->
  exists pd pd' items,
    place_all (days_available c) (blocked_set c) (max_minutes_per_day c)
      learn_total exo_total review_total mock_total = Ok pd /\
    Forall (fun a => day_sum a <= max_minutes_per_day c) pd /\
    rebalance (days_available c) (blocked_set c) (min_minutes_per_day c) pd
      = Ok pd' /\
    Forall (fun a => day_sum a <= max_minutes_per_day c) pd' /\
    distribute_minutes_over_days learn_total exo_total review_total mock_total
      c start_date = Ok items /\
    Forall (fun it => item_total it <= max_minutes_per_day c) items.
Proof.
  intros HD Hl He Hr Hm Hmax Hmm Hfit.
  destruct (run_spec (days_available c) (blocked_set c)
              (max_minutes_per_day c) (min_minutes_per_day c)
              learn_total exo_total review_total mock_total start_date HD Hfit)
    as (pd & pd' & items & Hplace & Hreb & Hrun & Hrows & _ & _ & _ & _ & Hgood).
  destruct (Hgood Hl He Hr Hm) as (_ & _ & _ & Hcap).
  destruct (Hcap Hmax) as [Hcap1 Hcap2]. specialize (Hcap2 Hmm).
  exists pd, pd', items. split_and!; try done.
  rewrite <- Hrows, Forall_fmap in Hcap2. exact Hcap2.
Qed.

Lemma C4_day_total_under_cap_witness :
  let c := default_constraints 5 in
  1 <= days_available c /\
  0 <= max_minutes_per_day c /\
  min_minutes_per_day c <= max_minutes_per_day c /\
  exists items,
    distribute_minutes_over_days 600 300 120 0 c None = Ok items /\
    Forall (fun it => item_total it <= max_minutes_per_day c) items.
Proof.
  intros c.
  assert (HD : 1 <= days_available c) by (simpl; lia).
  assert (Hmax : 0 <= max_minutes_per_day c) by (simpl; lia).
  assert (Hmm : min_minutes_per_day c <= max_minutes_per_day c) by (simpl; lia).
  split; [exact HD|]. split; [exact Hmax|]. split; [exact Hmm|].
  destruct (C4_day_total_under_cap 600 300 120 0 c None HD)
    as (pd & pd' & items & _ & _ & _ & _ & Hrun & Hcap);
    [lia|lia|lia|lia|exact Hmax|exact Hmm|exact I|].
  exists items. split; [exact Hrun|exact Hcap].
Defined.

(** ** C5: rebalancing keeps the grand total *)

(** C5. From every state of a table with one entry per day, the
    rebalancing pass runs to the end and leaves the sum of all buckets over
    all days as it was; each single transfer between two days of the table
    already does. *)
Theorem C5_rebalance_keeps_total
    (D : Z) (blocked : gset Z) (mind : Z) (pd : list DayAllocation) :
  length pd = Z.to_nat D ->
  (exists pd',
     rebalance D blocked mind pd = Ok pd' /\
     length pd' = length pd /\
     table_total pd' = table_total pd) /\
  (forall (k : Kind) (move s d : Z),
     0 <= s < D -> 0 <= d < D ->
     exists pd1,
       transfer k move s d pd = Ok pd1 /\
       table_total pd1 = table_total pd).
Proof.
  intros Hlen. split.
  - destruct (rebalance_loop_spec D blocked 0 mind (days_idx D) pd Hlen
                (days_idx_range D)) as (pd' & Hrun & Hlen' & Htot & _).
    by exists pd'.
  - intros k move s d Hs Hd.
    destruct (transfer_total k move s d pd) as (pd1 & Hrun & _ & Htot);
      [lia|lia|]. by exists pd1.
Qed.

Lemma C5_rebalance_keeps_total_witness :
  let pd := [ {| d_learn := 240; d_exo := 0; d_review := 0; d_mock := 0 |};
              {| d_learn := 10; d_exo := 0; d_review := 0; d_mock := 0 |} ] in
  length pd = Z.to_nat 2 /\
  exists pd',
    rebalance 2 ∅ 60 pd = Ok pd' /\
    length pd' = length pd /\
    table_total pd' = table_total pd.
Proof.
  intros pd.
  assert (Hlen : length pd = Z.to_nat 2) by reflexivity.
  split; [exact Hlen|].
  exact (proj1 (C5_rebalance_keeps_total 2 ∅ 60 pd Hlen)).
Defined.

(** ** C6: the floor after rebalancing *)

Section Floor.

Context (D : Z) (blocked : gset Z) (mind : Z).

Lemma rebalance_loop_app (l1 l2 : list Z) :
  forall pd : list DayAllocation,
    rebalance_loop D blocked mind (l1 ++ l2) pd
    = let? pd1 := rebalance_loop D blocked mind l1 pd in
      rebalance_loop D blocked mind l2 pd1.
Proof.
  induction l1 as [|d l1 IH]; intros pd; simpl; [done|].
  destruct (rebalance_day D blocked mind d pd) as [pd1|e]; [apply IH|done].
Qed.

Lemma has_donor_true (d need : Z) (pd : list DayAllocation) :
  has_donor D mind d need pd = true ->
  Exists (fun s => s <> d /\
            exists a, pd !! Z.to_nat s = Some a /\
                      donor_ok mind (day_sum a) need = true)
         (reverse (days_idx D)).
Proof.
  unfold has_donor. intros Hex.
  apply Exists_exists. setoid_rewrite elem_of_reverse. apply Exists_exists.
  induction (days_idx D) as [|s l IH]; simpl in Hex; [done|].
  apply orb_true_iff in Hex as [Hs|Hl]; [left|right; by apply IH].
  apply andb_true_iff in Hs as [Hne Hok].
  apply bool_decide_eq_true in Hne. split; [done|].
  destruct (pd !! Z.to_nat s) as [a|]; [by exists a|done].
Qed.

Lemma has_donor_false (d need : Z) (pd : list DayAllocation) :
  has_donor D mind d need pd = false ->
  Forall (fun s => s <> d ->
            forall a, pd !! Z.to_nat s = Some a ->
                      donor_ok mind (day_sum a) need = false)
         (reverse (days_idx D)).
Proof.
  unfold has_donor. intros Hex. apply Forall_reverse.
  induction (days_idx D) as [|s l IH]; simpl in Hex; [constructor|].
  apply orb_false_iff in Hex as [Hs Hl]. constructor; [|by apply IH].
  intros Hne a Ha. rewrite Ha in Hs.
  by rewrite bool_decide_eq_true_2 in Hs by done.
Qed.

End Floor.

(** C6 (counterexample). One day, a cap of 240, a floor of 60 and ten
    minutes to learn: the capacity (240) covers the floor of the one
    active day, yet that day ends with a total of 10, neither zero nor at
    least 60. Rebalancing moves minutes, it cannot create any. *)
Lemma C6_day_left_below_floor :
  let c := default_constraints 1 in
  1 * min_minutes_per_day c
  <= capacity (days_available c) (blocked_set c) (max_minutes_per_day c) /\
  exists it,
    distribute_minutes_over_days 10 0 0 0 c None = Ok [it] /\
    (0 ∉ blocked_set c) /\
    item_total it <> 0 /\
    item_total it < min_minutes_per_day c.
Proof.
  intros c. split; [by vm_compute|].
  eexists. split; [by vm_compute|]. split; [set_solver|]. by vm_compute.
Qed.

(** C6 (amended). Take a table with no negative bucket and empty blocked
    days, and a non-blocked day [d] whose total is nonzero and below the
    floor when the rebalancing pass reaches it. If at that moment some
    other day passes the donor test for what [d] lacks, the pass ends with
    [d] at exactly [min_minutes_per_day]; if none does, the round for [d]
    leaves the table as it is. *)
Theorem C6_floor_reached_with_a_donor
    (D : Z) (blocked : gset Z) (mind : Z) (pd pd1 : list DayAllocation)
    (pre post : list Z) (d : Z) (a : DayAllocation) :
  length pd = Z.to_nat D ->
  good_table blocked pd ->
  days_idx D = pre ++ d :: post ->
  rebalance_loop D blocked mind pre pd = Ok pd1 ->
  d ∉ blocked ->
  pd1 !! Z.to_nat d = Some a ->
  day_sum a <> 0 -> day_sum a < mind ->
  (has_donor D mind d (mind - day_sum a) pd1 = true ->
   exists pd' b,
     rebalance D blocked mind pd = Ok pd' /\
     pd' !! Z.to_nat d = Some b /\ day_sum b = mind) /\
  (has_donor D mind d (mind - day_sum a) pd1 = false ->
   rebalance_day D blocked mind d pd1 = Ok pd1).
Proof.
  intros Hlen Hgood Hsplit Hpre Hnb Ha Hnz Hlow.
  pose proof (days_idx_range D) as Hrange. rewrite Hsplit in Hrange.
  apply Forall_app in Hrange as [Hrpre Hrpost].
  apply Forall_cons in Hrpost as [Hd Hrpost].
  destruct (rebalance_loop_spec D blocked 0 mind pre pd Hlen Hrpre)
    as (pd1' & Hpre' & Hlen1 & _ & _ & Hgood1).
  rewrite Hpre in Hpre'. injection Hpre' as <-.
  destruct (Hgood1 Hgood) as [Hg1 _].
  assert (Hlen1' : length pd1 = Z.to_nat D) by congruence.
  assert (Hday : rebalance_day D blocked mind d pd1
                 = let? (_, pd2) := pull_from mind (reverse (days_idx D)) d
                                       (mind - day_sum a) pd1 in Ok pd2).
  { unfold rebalance_day. rewrite bool_decide_eq_false_2 by done.
    rewrite (py_get_lookup pd1 d a) by (done || lia).
    rewrite bool_decide_eq_false_2 by done.
    by rewrite bool_decide_eq_true_2 by done. }
  assert (Hin : in_table pd1 (reverse (days_idx D))).
  { apply (in_table_range D); [done|apply reverse_days_idx_range]. }
  split.
  - intros Hdon. apply has_donor_true in Hdon.
    destruct (Hg1 _ _ Ha) as [Hnn _].
    destruct (pull_from_donor blocked mind d pd1 (reverse (days_idx D))
                ltac:(unfold day_nonneg, day_sum in *; lia) Hnb
                (mind - day_sum a) pd1 Hin ltac:(lia) ltac:(lia)
                (pull_inv_start blocked mind d pd1 a Hg1 Ha Hlow) Hdon)
      as (pd2 & Hpull & _ & _ & (b & Hb & Hsum) & _).
    assert (Hlen2 : length pd2 = Z.to_nat D).
    { destruct (pull_from_spec blocked mind d pd1 (reverse (days_idx D))
                  (mind - day_sum a) pd1 Hin ltac:(lia))
        as (n' & pd2' & Hpull' & Hl2 & _).
      rewrite Hpull in Hpull'. injection Hpull' as _ <-. congruence. }
    destruct (rebalance_loop_spec D blocked 0 mind post pd2 Hlen2 Hrpost)
      as (pd' & Hpost & _ & _ & Hkeep & _).
    exists pd', b. split_and!; [|apply Hkeep|lia].
    + unfold rebalance. rewrite Hsplit, rebalance_loop_app, Hpre. simpl.
      by rewrite Hday, Hpull.
    + rewrite Z2Nat.id by lia.
      pose proof (NoDup_seqZ 0 (D - 0)) as Hnd.
      change (seqZ 0 (D - 0)) with (days_idx D) in Hnd. rewrite Hsplit in Hnd.
      apply NoDup_app in Hnd as (_ & _ & Hnd).
      by apply NoDup_cons in Hnd as [Hnd _].
    + done.
    + lia.
  - intros Hdon. apply has_donor_false in Hdon.
    rewrite Hday, (pull_from_no_donor mind d (mind - day_sum a)); [done..|lia].
Qed.

Lemma C6_floor_reached_with_a_donor_witness :
  let pd := [ {| d_learn := 240; d_exo := 0; d_review := 0; d_mock := 0 |};
              {| d_learn := 10; d_exo := 0; d_review := 0; d_mock := 0 |} ] in
  let a := {| d_learn := 10; d_exo := 0; d_review := 0; d_mock := 0 |} in
  length pd = Z.to_nat 2 /\
  days_idx 2 = [0] ++ 1 :: [] /\
  rebalance_loop 2 ∅ 60 [0] pd = Ok pd /\
  pd !! Z.to_nat 1 = Some a /\
  day_sum a <> 0 /\ day_sum a < 60 /\
  has_donor 2 60 1 (60 - day_sum a) pd = true /\
  exists pd' b,
    rebalance 2 ∅ 60 pd = Ok pd' /\
    pd' !! Z.to_nat 1 = Some b /\ day_sum b = 60.
Proof.
  intros pd a.
  assert (Hlen : length pd = Z.to_nat 2) by reflexivity.
  assert (Hgood : good_table ∅ pd).
  { intros n b Hb. split; [|intros Hn; by apply not_elem_of_empty in Hn].
    destruct n as [|[|n]]; simpl in Hb; [| |discriminate Hb];
      injection Hb as <-; unfold day_nonneg; simpl; lia. }
  assert (Hsplit : days_idx 2 = [0] ++ 1 :: []) by reflexivity.
  assert (Hpre : rebalance_loop 2 ∅ 60 [0] pd = Ok pd) by (vm_compute; reflexivity).
  assert (Hnb : 1 ∉ (∅ : gset Z)) by apply not_elem_of_empty.
  assert (Ha : pd !! Z.to_nat 1 = Some a) by reflexivity.
  assert (Hnz : day_sum a <> 0) by (vm_compute; discriminate).
  assert (Hlow : day_sum a < 60) by (vm_compute; reflexivity).
  assert (Hdon : has_donor 2 60 1 (60 - day_sum a) pd = true)
    by (vm_compute; reflexivity).
  split; [exact Hlen|]. split; [exact Hsplit|]. split; [exact Hpre|].
  split; [exact Ha|]. split; [exact Hnz|]. split; [exact Hlow|].
  split; [exact Hdon|].
  exact (proj1 (C6_floor_reached_with_a_donor 2 ∅ 60 pd pd [0] [] 1 a
                  Hlen Hgood Hsplit Hpre Hnb Ha Hnz Hlow) Hdon).
Defined.

(** ** C7: the mock pass *)

Section Mock.

Lemma filter_keep_all {A : Type} (P : A -> Prop) `{!forall x, Decision (P x)}
    (l : list A) : Forall P l -> filter P l = l.
Proof.
  induction 1 as [|x l Hx _ IH]; [done|].
  by rewrite filter_cons_True, IH.
Qed.

Lemma filter_keep_none {A : Type} (P : A -> Prop) `{!forall x, Decision (P x)}
    (l : list A) : Forall (fun x => ~ P x) l -> filter P l = [].
Proof.
  induction 1 as [|x l Hx _ IH]; [done|].
  by rewrite filter_cons_False, IH.
Qed.

(** The preferred mock days are the days from [floor(0.6*D)] on. *)
Lemma order_mock_floor (D : Z) :
  1 <= D -> order_mock D = py_range (D * 6 / 10) D.
Proof.
  intros HD.
  assert (Hk : 0 <= D * 6 / 10 < D).
  { split; [apply Z.div_pos; lia|apply Z.div_lt_upper_bound; lia]. }
  set (k := D * 6 / 10) in *.
  assert (Hsplit : days_idx D = py_range 0 k ++ py_range k D).
  { unfold days_idx, py_range.
    replace (D - 0) with ((k - 0) + (D - k)) by lia.
    rewrite seqZ_app by lia. do 2 f_equal; lia. }
  assert (Hlast : forall d, d ∈ last_40 D <-> d ∈ py_range k D).
  { intros d. unfold last_40. case_bool_decide as H1.
    - unfold int_D_06. rewrite Z.quot_div_nonneg by lia. fold k.
      unfold py_slice_from. rewrite bool_decide_eq_true_2 by lia.
      rewrite Hsplit, drop_app_length'.
      + by rewrite elem_of_list_to_set.
      + unfold py_range. rewrite length_seqZ. lia.
    - assert (D = 1) as -> by lia. change (py_range k 1) with [0].
      by rewrite elem_of_singleton, list_elem_of_singleton. }
  assert (Hf : filter (fun d => d ∈ last_40 D) (days_idx D) = py_range k D).
  { rewrite Hsplit, filter_app.
    rewrite filter_keep_none, filter_keep_all; [done| |].
    - apply Forall_forall. intros d Hd. by apply Hlast.
    - apply Forall_forall. intros d Hd. rewrite Hlast.
      unfold py_range in *. rewrite elem_of_seqZ in *. lia. }
  unfold order_mock. rewrite Hf.
  destruct (py_range k D) as [|x l] eqn:Hr; [|done].
  apply (f_equal length) in Hr. unfold py_range in Hr.
  rewrite length_seqZ in Hr. simpl in Hr. lia.
Qed.

End Mock.

(** C7 (counterexample). With two days the code's preferred mock day is
    day 1, the specification's [days_idx[ceil(0.6*D):]] is empty and falls
    back to day 0: 30 mock minutes land on day 1 in the code and on day 0
    in the policy as worded. *)
Lemma C7_two_days_mock_on_last_day :
  order_mock 2 = [1] /\
  mock_days_spec 2 = [0] /\
  mock_pass 2 ∅ 240 30 [empty_day; empty_day]
  = Ok [empty_day; add_bucket mock 30 empty_day] /\
  mock_pass_spec 2 ∅ 240 30 [empty_day; empty_day]
  = Ok [add_bucket mock 30 empty_day; empty_day] /\
  mock_pass 2 ∅ 240 30 [empty_day; empty_day]
  <> mock_pass_spec 2 ∅ 240 30 [empty_day; empty_day].
Proof. split_and!; by vm_compute. Qed.

(** C7 (amended). For every [D >= 1], every non-negative mock budget and
    every table with one entry per day, the preferred mock days are the
    days [floor(0.6*D) .. D-1] (a range that is never empty), and the mock
    pass returns the table in which the mock minutes have been placed
    first fit by capacity into these days, in forward order, and what was
    left of them spilled over all days back to front. *)
Theorem C7_mock_days_from_floor
    (D : Z) (blocked : gset Z) (maxd total : Z) (pd : list DayAllocation) :
  1 <= D -> 0 <= total -> length pd = Z.to_nat D ->
  order_mock D = seqZ (D * 6 / 10) (D - D * 6 / 10) /\
  order_mock D <> [] /\
  0 <= D * 6 / 10 < D /\
  mock_pass D blocked maxd total pd
  = Ok (mock_pass_from_floor D blocked maxd total pd).
Proof.
  intros HD Htotal Hpd.
  assert (Hk : 0 <= D * 6 / 10 < D).
  { split; [apply Z.div_pos; lia|apply Z.div_lt_upper_bound; lia]. }
  pose proof (order_mock_floor D HD) as Horder. unfold py_range in Horder.
  split_and!; [done| |lia|lia|].
  - rewrite Horder. intros Hnil. apply (f_equal length) in Hnil.
    rewrite length_seqZ in Hnil. simpl in Hnil. lia.
  - unfold mock_pass, mock_pass_from_floor.
    rewrite push_then_spill_first_fit;
      [ by rewrite Horder, (days_idx_seqZ D)
      | apply (in_table_range D); [done|apply order_mock_range]
      | apply (in_table_range D); [done|apply reverse_days_idx_range]
      | done ].
Qed.

Lemma C7_mock_days_from_floor_witness :
  let pd := [ {| d_learn := 240; d_exo := 0; d_review := 0; d_mock := 0 |};
              {| d_learn := 240; d_exo := 0; d_review := 0; d_mock := 0 |};
              {| d_learn := 120; d_exo := 100; d_review := 0; d_mock := 0 |};
              {| d_learn := 0; d_exo := 200; d_review := 0; d_mock := 0 |};
              {| d_learn := 0; d_exo := 0; d_review := 60; d_mock := 0 |} ] in
  1 <= 5 /\ 0 <= 250 /\ length pd = Z.to_nat 5 /\
  order_mock 5 = [3; 4] /\
  mock_pass_from_floor 5 ∅ 240 250 pd
  = [ {| d_learn := 240; d_exo := 0; d_review := 0; d_mock := 0 |};
      {| d_learn := 240; d_exo := 0; d_review := 0; d_mock := 0 |};
      {| d_learn := 120; d_exo := 100; d_review := 0; d_mock := 20 |};
      {| d_learn := 0; d_exo := 200; d_review := 0; d_mock := 40 |};
      {| d_learn := 0; d_exo := 0; d_review := 60; d_mock := 180 |} ] /\
  mock_pass 5 ∅ 240 250 pd = Ok (mock_pass_from_floor 5 ∅ 240 250 pd).
Proof.
  intros pd.
  assert (HD : 1 <= 5) by lia.
  assert (Htotal : 0 <= 250) by lia.
  assert (Hpd : length pd = Z.to_nat 5) by reflexivity.
  split; [exact HD|]. split; [exact Htotal|]. split; [exact Hpd|].
  destruct (C7_mock_days_from_floor 5 ∅ 240 250 pd HD Htotal Hpd)
    as (Horder & _ & _ & Hpass).
  split; [exact Horder|]. split; [by vm_compute|exact Hpass].
Defined.

(** ** C8: the review pass *)

Section Review.

Context (D : Z) (blocked : gset Z) (maxd : Z).






End Review.



(** ** C9: the five-day scenario *)

(** C9 (counterexample). In the five-day scenario day 4 receives no
    exercise minutes: the exercise budget of 300 is used up on days 2 and
    3, and day 4 only holds 60 minutes of review. *)
Lemma C9_day_4_without_exercises :
  exists items,
    distribute_minutes_over_days 600 300 120 0 (default_constraints 5) None
      = Ok items /\
    exercises_min <$> items !! 4%nat = Some 0.
Proof. eexists. split; [by vm_compute|done]. Qed.

(** C9 (amended). In the five-day scenario every day total is at most
    240, the buckets add up to 1020, day 0 holds 240 minutes of learning
    and nothing else, and the exercises sit on days 2 and 3 (120 and 180
    minutes); day 4 has none. *)
Theorem C9_five_day_scenario :
  exists items,
    distribute_minutes_over_days 600 300 120 0 (default_constraints 5) None
      = Ok items /\
    Forall (fun it => item_total it <= 240) items /\
    schedule_total items = 1020 /\
    item_buckets <$> items
    = [ {| d_learn := 240; d_exo := 0; d_review := 0; d_mock := 0 |};
        {| d_learn := 240; d_exo := 0; d_review := 0; d_mock := 0 |};
        {| d_learn := 120; d_exo := 120; d_review := 0; d_mock := 0 |};
        {| d_learn := 0; d_exo := 180; d_review := 60; d_mock := 0 |};
        {| d_learn := 0; d_exo := 0; d_review := 60; d_mock := 0 |} ] /\
    day_index <$> items = [0; 1; 2; 3; 4].
Proof.
  eexists. split; [by vm_compute|].
  split_and!; [|done..].
  repeat constructor; by vm_compute.
Qed.

(** ** C10: no negative bucket *)

(** C10. On every valid input no bucket is negative: not in the table the
    placement passes leave, not in the table the rebalancing pass leaves,
    and not in the returned rows. *)
Theorem C10_buckets_never_negative
    (learn_total exo_total review_total mock_total : Z)
    (c : Constraints) (start_date : option Z) :
  1 <= days_available c ->
  0 <= learn_total -> 0 <= exo_total -> 0 <= review_total -> 0 <= mock_total ->
  dates_fit start_date (days_available c) ->
  exists pd pd' items,
    place_all (days_available c) (blocked_set c) (max_minutes_per_day c)
      learn_total exo_total review_total mock_total = Ok pd /\
    Forall day_nonneg pd /\
    rebalance (days_available c) (blocked_set c) (min_minutes_per_day c) pd
      = Ok pd' /\
    Forall day_nonneg pd' /\
    distribute_minutes_over_days learn_total exo_total review_total mock_total
      c start_date = Ok items /\
    Forall (fun it => 0 <= learn_min it /\ 0 <= exercises_min it /\
                      0 <= review_min it /\ 0 <= mock_min it) items.
Proof.
  intros HD Hl He Hr Hm Hfit.
  destruct (run_spec (days_available c) (blocked_set c)
              (max_minutes_per_day c) (min_minutes_per_day c)
              learn_total exo_total review_total mock_total start_date HD Hfit)
    as (pd & pd' & items & Hplace & Hreb & Hrun & Hrows & _ & _ & _ & _ & Hgood).
  destruct (Hgood Hl He Hr Hm) as (_ & Hg & Hg' & _).
  assert (Hnn : forall t, good_table (blocked_set c) t -> Forall day_nonneg t).
  { intros t Ht. apply Forall_lookup. intros n a Ha. by apply (Ht n a Ha). }
  exists pd, pd', items. split_and!; try done; [by apply Hnn..|].
  pose proof (Hnn _ Hg') as Hall. rewrite <- Hrows, Forall_fmap in Hall.
  exact Hall.
Qed.

Lemma C10_buckets_never_negative_witness :
  let c := default_constraints 5 in
  1 <= days_available c /\
  exists items,
    distribute_minutes_over_days 600 300 120 0 c None = Ok items /\
    Forall (fun it => 0 <= learn_min it /\ 0 <= exercises_min it /\
                      0 <= review_min it /\ 0 <= mock_min it) items.
Proof.
  intros c.
  assert (HD : 1 <= days_available c) by (simpl; lia).
  split; [exact HD|].
  destruct (C10_buckets_never_negative 600 300 120 0 c None HD)
    as (pd & pd' & items & _ & _ & _ & _ & Hrun & Hall);
    [lia|lia|lia|lia|exact I|].
  exists items. split; [exact Hrun|exact Hall].
Defined.

(** * Further properties of the engine *)

(** ** What a pass may touch *)

Section Frames.

Context (blocked : gset Z) (maxd : Z).

Lemma only_kind_refl (kind : Kind) (pd : list DayAllocation) :
  only_kind kind pd pd.
Proof. intros n a Ha. by exists a. Qed.

Lemma only_kind_trans (kind : Kind) (pd1 pd2 pd3 : list DayAllocation) :
  only_kind kind pd1 pd2 -> only_kind kind pd2 pd3 -> only_kind kind pd1 pd3.
Proof.
  intros H12 H23 n a Ha.
  destruct (H12 n a Ha) as (b & Hb & Hab).
  destruct (H23 n b Hb) as (c & Hc & Hbc).
  exists c. split; [done|]. intros k Hk. by rewrite Hbc, Hab.
Qed.

Lemma only_kind_insert (kind : Kind) (m : Z) (pd : list DayAllocation)
    (n : nat) (a : DayAllocation) :
  pd !! n = Some a -> only_kind kind pd (<[n := add_bucket kind m a]> pd).
Proof.
  intros Ha i b Hb. destruct (decide (n = i)) as [->|Hne].
  - simplify_eq. exists (add_bucket kind m a). split.
    + apply list_lookup_insert_eq. by eapply lookup_lt_Some.
    + intros k Hk. by apply bucket_add_bucket_ne.
  - exists b. by rewrite list_lookup_insert_ne.
Qed.

Lemma outside_kept_refl (order : list Z) (pd : list DayAllocation) :
  outside_kept order pd pd.
Proof. by intros n Hn. Qed.

(** [push] writes only bucket [kind], and only on days of its order. *)
Lemma push_frame (kind : Kind) (order : list Z) :
  forall (rem : Z) (pd : list DayAllocation) (rem' : Z)
         (pd' : list DayAllocation),
    in_table pd order ->
    push blocked maxd kind rem order pd = Ok (rem', pd') ->
    only_kind kind pd pd' /\ outside_kept order pd pd'.
Proof.
  induction order as [|d order IH]; intros rem pd rem' pd' Hin Hrun;
    simpl in Hrun.
  - simplify_eq. split; [apply only_kind_refl|apply outside_kept_refl].
  - apply Forall_cons in Hin as [Hd Hin].
    assert (Hrest : forall r pd1,
      length pd1 = length pd ->
      push blocked maxd kind r order pd1 = Ok (rem', pd') ->
      only_kind kind pd pd1 ->
      (forall n : nat, Z.of_nat n <> d -> pd1 !! n = pd !! n) ->
      only_kind kind pd pd' /\ outside_kept (d :: order) pd pd').
    { intros r pd1 Hlen1 Hrun1 Hk1 Hout1.
      destruct (IH r pd1 rem' pd') as [Hk Hout]; [|done|].
      { unfold in_table. by rewrite Hlen1. }
      split; [by eapply only_kind_trans|].
      intros n Hn. apply not_elem_of_cons in Hn as [Hnd Hn].
      rewrite Hout by done. by apply Hout1. }
    case_bool_decide as Hblocked.
    { by apply (Hrest rem pd); [done|done|apply only_kind_refl|]. }
    destruct (py_get_in_range pd d Hd) as (a & Ha & Hget).
    rewrite Hget in Hrun.
    case_bool_decide as Hcap.
    { by apply (Hrest rem pd); [done|done|apply only_kind_refl|]. }
    rewrite py_set_in_range in Hrun by done.
    set (alloc := Z.min (maxd - day_sum a) rem) in *.
    set (pd1 := <[Z.to_nat d := add_bucket kind alloc a]> pd) in *.
    assert (Hk1 : only_kind kind pd pd1) by by apply only_kind_insert.
    assert (Hout1 : forall n : nat, Z.of_nat n <> d -> pd1 !! n = pd !! n).
    { intros n Hn. apply list_lookup_insert_ne. lia. }
    case_bool_decide as Hdone.
    + simplify_eq. split; [done|].
      intros n Hn. apply not_elem_of_cons in Hn as [Hnd _]. by apply Hout1.
    + apply (Hrest (rem - alloc) pd1); [apply length_insert|done..].
Qed.

(** A pass writes only its own bucket. *)
Lemma push_then_spill_only_kind (kind : Kind) (minutes : Z)
    (order spill_order : list Z) (pd pd' : list DayAllocation) :
  in_table pd order -> in_table pd spill_order ->
  push_then_spill blocked maxd kind minutes order spill_order pd = Ok pd' ->
  only_kind kind pd pd'.
Proof.
  intros Hin Hspill Hrun. unfold push_then_spill in Hrun.
  destruct (push_spec blocked maxd kind order minutes pd Hin)
    as (rem & pd1 & Hpush & Hlen1 & _).
  rewrite Hpush in Hrun.
  destruct (push_frame kind order minutes pd rem pd1 Hin Hpush) as [Hk1 _].
  case_bool_decide; [|by simplify_eq].
  assert (Hspill1 : in_table pd1 spill_order).
  { unfold in_table. by rewrite Hlen1. }
  destruct (push_spec blocked maxd kind spill_order rem pd1 Hspill1)
    as (rem2 & pd2 & Hpush2 & _).
  rewrite Hpush2 in Hrun. simplify_eq.
  destruct (push_frame kind spill_order rem pd1 rem2 pd' Hspill1 Hpush2)
    as [Hk2 _].
  by eapply only_kind_trans.
Qed.

End Frames.

(** ** Totals by category *)

Section Categories.

Context (D : Z) (blocked : gset Z) (maxd : Z).

Lemma kind_total_cons (k : Kind) (a : DayAllocation) (pd : list DayAllocation) :
  kind_total k (a :: pd) = bucket k a + kind_total k pd.
Proof. done. Qed.

Lemma table_total_kinds (pd : list DayAllocation) :
  table_total pd
  = kind_total learn pd + kind_total exo pd
    + kind_total review pd + kind_total mock pd.
Proof.
  induction pd as [|a pd IH]; [done|].
  change (table_total (a :: pd)) with (day_sum a + table_total pd).
  rewrite !kind_total_cons, IH. unfold day_sum. simpl. lia.
Qed.

Lemma only_kind_total (kind k : Kind) (pd : list DayAllocation) :
  forall pd' : list DayAllocation,
    length pd' = length pd -> only_kind kind pd pd' -> k <> kind ->
    kind_total k pd' = kind_total k pd.
Proof.
  induction pd as [|a pd IH]; intros [|a' pd'] Hlen Hk Hne;
    try discriminate Hlen; [done|].
  injection Hlen as Hlen.
  destruct (Hk 0%nat a eq_refl) as (b & Hb & Hsame).
  injection Hb as <-.
  rewrite !kind_total_cons, (Hsame k Hne).
  f_equal. apply IH; [done| |done].
  intros n c Hc. apply (Hk (S n) c Hc).
Qed.

Lemma total_le_capacity (pd : list DayAllocation) :
  length pd = Z.to_nat D -> 0 <= D ->
  good_table blocked pd -> under_cap maxd pd ->
  table_total pd <= capacity D blocked maxd.
Proof.
  intros Hlen HD Hgood Hcap. rewrite capacity_unfold.
  replace D with (Z.of_nat (length pd)) by lia.
  apply (total_below_bounds
           (fun d => if bool_decide (d ∈ blocked) then 0 else maxd)).
  intros n a Ha. rewrite Z.add_0_l. case_bool_decide as Hb.
  - destruct (Hgood n a Ha) as [_ Hz]. by rewrite (Hz Hb).
  - by apply (Forall_lookup_1 _ _ _ _ Hcap Ha).
Qed.

Lemma capacity_le_total (pd : list DayAllocation) :
  length pd = Z.to_nat D -> 0 <= D ->
  good_table blocked pd -> all_full blocked maxd pd ->
  capacity D blocked maxd <= table_total pd.
Proof.
  intros Hlen HD Hgood Hfull. rewrite capacity_unfold.
  replace D with (Z.of_nat (length pd)) by lia.
  apply (total_above_bounds
           (fun d => if bool_decide (d ∈ blocked) then 0 else maxd)).
  intros n a Ha. rewrite Z.add_0_l. case_bool_decide as Hb.
  - destruct (Hgood n a Ha) as [_ Hz]. by rewrite (Hz Hb).
  - destruct (Hfull n a Ha) as [|Hf]; [done|exact Hf].
Qed.

Lemma placed_good (m : Z) (pd pd' : list DayAllocation) :
  length pd' = length pd -> placed blocked maxd m pd pd' ->
  good_table blocked pd -> good_table blocked pd'.
Proof.
  intros Hlen (Hkept & Hgrown & _) Hgood n a' Ha'.
  destruct (lookup_lt_is_Some_2 pd n) as [a Ha].
  { apply lookup_lt_Some in Ha'. lia. }
  destruct (Hgood n a Ha) as [Hnn Hz].
  destruct (Hgrown n a Ha) as (b & Hb & Hle & _). simplify_eq. split.
  - by eapply day_le_nonneg.
  - intros Hbl. rewrite (Hkept n Hbl), Ha in Ha'. simplify_eq. by apply Hz.
Qed.

(** One pass on a good table under the cap: it places its budget or
    fills the capacity, and what it adds is in its own bucket. *)
Lemma pass_step (kind : Kind) (m : Z) (pd pd' : list DayAllocation) :
  length pd = Z.to_nat D -> 0 <= D -> length pd' = length pd ->
  good_table blocked pd -> under_cap maxd pd ->
  placed blocked maxd m pd pd' -> only_kind kind pd pd' ->
  good_table blocked pd' /\ under_cap maxd pd' /\
  table_total pd' = Z.min (table_total pd + m) (capacity D blocked maxd) /\
  kind_total kind pd'
  = kind_total kind pd + (table_total pd' - table_total pd) /\
  (forall k, k <> kind -> kind_total k pd' = kind_total k pd).
Proof.
  intros Hlen HD Hlen' Hgood Hcap Hplaced Hkind.
  pose proof (placed_good m pd pd' Hlen' Hplaced Hgood) as Hgood'.
  destruct Hplaced as (Hkept & Hgrown & Hbound & Hfull).
  assert (Hcap' : under_cap maxd pd') by (by eapply grown_under_cap).
  assert (Hup : table_total pd' <= capacity D blocked maxd).
  { apply total_le_capacity; [congruence|done..]. }
  assert (Hother : forall k, k <> kind -> kind_total k pd' = kind_total k pd).
  { intros k Hk. by eapply only_kind_total. }
  split_and!; [done|done| | |done].
  - destruct Hfull as [Heq|Hall]; [lia|].
    assert (capacity D blocked maxd <= table_total pd'); [|lia].
    apply capacity_le_total; [congruence|done..].
  - rewrite (table_total_kinds pd'), (table_total_kinds pd).
    destruct kind;
      rewrite ?(Hother learn), ?(Hother exo), ?(Hother review),
              ?(Hother mock) by done; lia.
Qed.

Lemma review_loop_only_kind (share spill : Z) (ws : list (list Z)) :
  forall (i : Z) (pd pd' : list DayAllocation),
    length pd = Z.to_nat D ->
    Forall (fun w => exists t, w = [t] /\ 0 <= t < D) ws ->
    review_loop D blocked maxd i ws share spill pd = Ok pd' ->
    only_kind review pd pd'.
Proof.
  induction ws as [|w ws IH]; intros i pd pd' Hlen Hws Hrun;
    cbn [review_loop] in Hrun; cbv zeta in Hrun.
  - simplify_eq. apply only_kind_refl.
  - apply Forall_cons in Hws as [(t & -> & Ht) Hws].
    change (py_get [t] 0) with (Ok t) in Hrun.
    assert (Hin1 : in_table pd (around D t)).
    { apply (in_table_range D); [done|by apply around_range]. }
    assert (Hin2 : in_table pd (days_idx D)).
    { apply (in_table_range D); [done|apply days_idx_range]. }
    destruct (push_then_spill_spec blocked maxd D review
                (wave_minutes share spill i) (around D t) (days_idx D) pd
                Hlen Hin1 Hin2 ltac:(by left))
      as (pd1 & Hrun1 & Hlen1 & _).
    cbv beta iota in Hrun. rewrite Hrun1 in Hrun.
    eapply only_kind_trans.
    + exact (push_then_spill_only_kind blocked maxd _ _ _ _ _ _
               Hin1 Hin2 Hrun1).
    + eapply IH; [congruence|done|done].
Qed.

Lemma empty_table_kind_total (k : Kind) :
  kind_total k ((fun _ => empty_day) <$> days_idx D) = 0.
Proof.
  induction (days_idx D) as [|d l IH]; [done|].
  cbn [fmap list_fmap]. rewrite kind_total_cons.
  change (list_fmap Z DayAllocation (fun _ => empty_day) l)
    with ((fun _ : Z => empty_day) <$> l).
  rewrite IH. by destruct k.
Qed.

Lemma empty_table_good :
  good_table blocked ((fun _ => empty_day) <$> days_idx D).
Proof.
  intros n a Ha. apply empty_table_lookup in Ha as ->.
  split; [|done]. unfold day_nonneg. simpl. lia.
Qed.

Lemma empty_table_under_cap :
  0 <= maxd -> under_cap maxd ((fun _ => empty_day) <$> days_idx D).
Proof.
  intros Hmax. apply Forall_lookup. intros n a Ha.
  apply empty_table_lookup in Ha as ->. by unfold day_sum.
Qed.

(** The four passes one after the other, with the table each one leaves:
    every pass succeeds, writes its own bucket only, and is a placement of
    its budget. *)
Lemma place_all_trace (learn_total exo_total review_total mock_total : Z) :
  1 <= D ->
  let pd0 := (fun _ => empty_day) <$> days_idx D in
  exists pd1 pd2 pd3 pd4,
    push_then_spill blocked maxd learn learn_total (days_idx D)
      (reverse (days_idx D)) pd0 = Ok pd1 /\
    push_then_spill blocked maxd exo exo_total (order_exo D)
      (reverse (days_idx D)) pd1 = Ok pd2 /\
    review_pass D blocked maxd review_total pd2 = Ok pd3 /\
    mock_pass D blocked maxd mock_total pd3 = Ok pd4 /\
    place_all D blocked maxd learn_total exo_total review_total mock_total
      = Ok pd4 /\
    (length pd0 = Z.to_nat D /\ length pd1 = Z.to_nat D /\
     length pd2 = Z.to_nat D /\ length pd3 = Z.to_nat D /\
     length pd4 = Z.to_nat D) /\
    (only_kind learn pd0 pd1 /\ only_kind exo pd1 pd2 /\
     only_kind review pd2 pd3 /\ only_kind mock pd3 pd4) /\
    (0 <= learn_total -> placed blocked maxd learn_total pd0 pd1) /\
    (0 <= exo_total -> placed blocked maxd exo_total pd1 pd2) /\
    (0 <= review_total -> placed blocked maxd review_total pd2 pd3) /\
    (0 <= mock_total -> placed blocked maxd mock_total pd3 pd4).
Proof.
  intros HD pd0. unfold place_all.
  change (map (fun _ => empty_day) (days_idx D)) with pd0.
  assert (Hlen0 : length pd0 = Z.to_nat D).
  { unfold pd0. rewrite length_fmap. apply length_days_idx. }
  assert (Hidx : forall pd, length pd = Z.to_nat D -> in_table pd (days_idx D)).
  { intros pd Hlen. apply (in_table_range D); [done|apply days_idx_range]. }
  assert (Hrev : forall pd, length pd = Z.to_nat D ->
                            in_table pd (reverse (days_idx D))).
  { intros pd Hlen. apply (in_table_range D);
      [done|apply reverse_days_idx_range]. }
  destruct (push_then_spill_spec blocked maxd D learn learn_total
              (days_idx D) (reverse (days_idx D)) pd0 Hlen0
              (Hidx _ Hlen0) (Hrev _ Hlen0) ltac:(by right))
    as (pd1 & Hrun1 & Hlen1 & Hp1).
  pose proof (push_then_spill_only_kind blocked maxd _ _ _ _ _ _
                (Hidx _ Hlen0) (Hrev _ Hlen0) Hrun1) as Hk1.
  assert (Hlen1' : length pd1 = Z.to_nat D) by congruence.
  assert (Hexo : in_table pd1 (order_exo D)).
  { apply (in_table_range D); [done|apply order_exo_range]. }
  destruct (push_then_spill_spec blocked maxd D exo exo_total
              (order_exo D) (reverse (days_idx D)) pd1 Hlen1'
              Hexo (Hrev _ Hlen1') ltac:(by right))
    as (pd2 & Hrun2 & Hlen2 & Hp2).
  pose proof (push_then_spill_only_kind blocked maxd _ _ _ _ _ _
                Hexo (Hrev _ Hlen1') Hrun2) as Hk2.
  assert (Hlen2' : length pd2 = Z.to_nat D) by congruence.
  destruct (review_pass_spec_placed D blocked maxd review_total pd2 HD Hlen2')
    as (pd3 & Hrun3 & Hlen3 & Hp3).
  pose proof (review_loop_only_kind _ _ _ _ _ _ Hlen2' (waves_targets D HD) Hrun3)
    as Hk3.
  assert (Hlen3' : length pd3 = Z.to_nat D) by congruence.
  destruct (mock_pass_placed D blocked maxd mock_total pd3 Hlen3')
    as (pd4 & Hrun4 & Hlen4 & Hp4).
  assert (Hk4 : only_kind mock pd3 pd4).
  { eapply (push_then_spill_only_kind blocked maxd); [| |exact Hrun4].
    - apply (in_table_range D); [done|apply order_mock_range].
    - by apply Hrev. }
  exists pd1, pd2, pd3, pd4. rewrite Hrun1, Hrun2, Hrun3.
  split_and!; try done; congruence.
Qed.

(** The four passes, category by category: each takes what is left of
    the capacity after the categories before it. *)
Lemma place_all_by_kind (learn_total exo_total review_total mock_total : Z) :
  1 <= D -> 0 <= maxd ->
  0 <= learn_total -> 0 <= exo_total -> 0 <= review_total ->
  0 <= mock_total ->
  let C := capacity D blocked maxd in
  let l := Z.min learn_total C in
  let e := Z.min exo_total (C - l) in
  let r := Z.min review_total (C - l - e) in
  let m := Z.min mock_total (C - l - e - r) in
  exists pd,
    place_all D blocked maxd learn_total exo_total review_total mock_total
      = Ok pd /\
    length pd = Z.to_nat D /\
    good_table blocked pd /\ under_cap maxd pd /\
    kind_total learn pd = l /\ kind_total exo pd = e /\
    kind_total review pd = r /\ kind_total mock pd = m.
Proof.
  intros HD Hmax Hl He Hr Hm C l e r m.
  destruct (place_all_trace learn_total exo_total review_total mock_total HD)
    as (pd1 & pd2 & pd3 & pd4 & _ & _ & _ & _ & Hrun
        & (Hlen0 & Hlen1 & Hlen2 & Hlen3 & Hlen4)
        & (Hk1 & Hk2 & Hk3 & Hk4) & Hp1 & Hp2 & Hp3 & Hp4).
  destruct (pass_step learn learn_total _ pd1 Hlen0 ltac:(lia)
              ltac:(congruence) empty_table_good
              (empty_table_under_cap Hmax) (Hp1 Hl) Hk1)
    as (Hg1 & Hc1 & Ht1 & Hkt1 & Ho1).
  destruct (pass_step exo exo_total pd1 pd2 Hlen1 ltac:(lia)
              ltac:(congruence) Hg1 Hc1 (Hp2 He) Hk2)
    as (Hg2 & Hc2 & Ht2 & Hkt2 & Ho2).
  destruct (pass_step review review_total pd2 pd3 Hlen2 ltac:(lia)
              ltac:(congruence) Hg2 Hc2 (Hp3 Hr) Hk3)
    as (Hg3 & Hc3 & Ht3 & Hkt3 & Ho3).
  destruct (pass_step mock mock_total pd3 pd4 Hlen3 ltac:(lia)
              ltac:(congruence) Hg3 Hc3 (Hp4 Hm) Hk4)
    as (Hg4 & Hc4 & Ht4 & Hkt4 & Ho4).
  rewrite empty_table_total in Ht1, Hkt1.
  rewrite empty_table_kind_total in Hkt1.
  pose proof (Ho1 exo ltac:(done)) as H1e.
  pose proof (Ho1 review ltac:(done)) as H1r.
  pose proof (Ho1 mock ltac:(done)) as H1m.
  rewrite empty_table_kind_total in H1e, H1r, H1m.
  pose proof (Ho2 review ltac:(done)) as H2r.
  pose proof (Ho2 mock ltac:(done)) as H2m.
  pose proof (Ho3 mock ltac:(done)) as H3m.
  exists pd4. split_and!; [done|done|done|done|..].
  - rewrite (Ho4 learn), (Ho3 learn), (Ho2 learn) by done. unfold l, C. lia.
  - rewrite (Ho4 exo), (Ho3 exo) by done. unfold e, l, C. lia.
  - rewrite (Ho4 review) by done. unfold r, e, l, C. lia.
  - unfold m, r, e, l, C. lia.
Qed.

End Categories.

(** ** Rebalancing, category by category *)

Section RebalanceKinds.

Context (D : Z) (blocked : gset Z) (mind : Z).

Lemma kind_total_insert (k : Kind) (pd : list DayAllocation) (n : nat)
    (a x : DayAllocation) :
  pd !! n = Some a ->
  kind_total k (<[n := x]> pd) = kind_total k pd - bucket k a + bucket k x.
Proof.
  revert n. induction pd as [|b pd IH]; intros [|n] H; try discriminate H.
  - injection H as ->.
    change (<[0%nat := x]> (a :: pd)) with (x :: pd).
    rewrite !kind_total_cons. lia.
  - change (<[S n := x]> (b :: pd)) with (b :: <[n := x]> pd).
    rewrite !kind_total_cons, (IH n H). lia.
Qed.

(** A transfer stays inside its category. *)
Lemma transfer_kind_total (k k' : Kind) (move s d : Z)
    (pd pd' : list DayAllocation) :
  0 <= s < Z.of_nat (length pd) -> 0 <= d < Z.of_nat (length pd) ->
  transfer k move s d pd = Ok pd' ->
  length pd' = length pd /\ kind_total k' pd' = kind_total k' pd.
Proof.
  intros Hs Hd Hrun.
  destruct (transfer_spec k move s d pd Hs Hd) as (a & b & Ha & Hb & Heq).
  rewrite Heq in Hrun. injection Hrun as <-.
  split; [by rewrite !length_insert|].
  rewrite (kind_total_insert _ _ _ b) by done.
  rewrite (kind_total_insert _ _ _ a) by done.
  destruct k, k'; simpl; lia.
Qed.

Lemma move_kinds_kind_total (k' : Kind) (s d : Z) (ks : list Kind) :
  forall (need : Z) (pd : list DayAllocation) (need' : Z)
         (pd' : list DayAllocation),
    0 <= s < Z.of_nat (length pd) -> 0 <= d < Z.of_nat (length pd) ->
    move_kinds ks s d need pd = Ok (need', pd') ->
    length pd' = length pd /\ kind_total k' pd' = kind_total k' pd.
Proof.
  induction ks as [|k ks IH]; intros need pd need' pd' Hs Hd Hrun;
    cbn [move_kinds] in Hrun.
  - by simplify_eq.
  - destruct (py_get_in_range pd s Hs) as (a & Ha & Hget).
    rewrite Hget in Hrun. cbv zeta in Hrun.
    destruct (transfer k (Z.min (bucket k a) need) s d pd) as [pd1|e] eqn:Htr;
      [|discriminate Hrun].
    destruct (transfer_kind_total k k' _ s d pd pd1 Hs Hd Htr) as [Hlen1 Htot1].
    case_bool_decide.
    + simplify_eq. done.
    + destruct (IH _ pd1 need' pd' ltac:(by rewrite Hlen1)
                  ltac:(by rewrite Hlen1) Hrun) as [Hlen Htot].
      split; congruence.
Qed.

Lemma pull_from_kind_total (k' : Kind) (d : Z) (donors : list Z) :
  forall (need : Z) (pd : list DayAllocation) (need' : Z)
         (pd' : list DayAllocation),
    in_table pd donors -> 0 <= d < Z.of_nat (length pd) ->
    pull_from mind donors d need pd = Ok (need', pd') ->
    length pd' = length pd /\ kind_total k' pd' = kind_total k' pd.
Proof.
  induction donors as [|s donors IH]; intros need pd need' pd' Hin Hd Hrun;
    cbn [pull_from] in Hrun.
  - by simplify_eq.
  - apply Forall_cons in Hin as [Hs Hin].
    case_bool_decide; [by eapply IH|].
    destruct (py_get_in_range pd s Hs) as (a & Ha & Hget).
    rewrite Hget in Hrun.
    destruct (donor_ok mind (day_sum a) need).
    + destruct (move_kinds [review; exo; learn; mock] s d need pd)
        as [[need1 pd1]|e] eqn:Hmv; [|discriminate Hrun].
      destruct (move_kinds_kind_total k' s d _ need pd need1 pd1 Hs Hd Hmv)
        as [Hlen1 Htot1].
      case_bool_decide; [by simplify_eq|].
      destruct (IH need1 pd1 need' pd') as [Hlen Htot]; [| |done|].
      { unfold in_table. by rewrite Hlen1. }
      { by rewrite Hlen1. }
      split; congruence.
    + case_bool_decide; [by simplify_eq|]. by eapply IH.
Qed.

Lemma rebalance_loop_kind_total (k' : Kind) (ds : list Z) :
  forall pd pd' : list DayAllocation,
    length pd = Z.to_nat D -> Forall (fun d => 0 <= d < D) ds ->
    rebalance_loop D blocked mind ds pd = Ok pd' ->
    kind_total k' pd' = kind_total k' pd.
Proof.
  induction ds as [|d ds IH]; intros pd pd' Hlen Hds Hrun;
    cbn [rebalance_loop] in Hrun.
  - by simplify_eq.
  - apply Forall_cons in Hds as [Hd Hds].
    destruct (rebalance_day D blocked mind d pd) as [pd1|e] eqn:Hday;
      [|discriminate Hrun].
    assert (length pd1 = length pd /\ kind_total k' pd1 = kind_total k' pd)
      as [Hlen1 Htot1].
    { unfold rebalance_day in Hday.
      case_bool_decide; [by simplify_eq|].
      destruct (py_get_in_range pd d) as (a & Ha & Hget); [lia|].
      rewrite Hget in Hday.
      case_bool_decide; [by simplify_eq|].
      case_bool_decide; [|by simplify_eq].
      destruct (pull_from mind (reverse (days_idx D)) d (mind - day_sum a) pd)
        as [[need1 pd2]|e] eqn:Hpull; [|discriminate Hday].
      injection Hday as <-.
      eapply pull_from_kind_total; [| |exact Hpull].
      - apply (in_table_range D); [done|apply reverse_days_idx_range].
      - lia. }
    rewrite <- Htot1. apply IH; [congruence|done|done].
Qed.

End RebalanceKinds.

(** ** The returned rows *)

(** X2. With at least one day and dates that exist, the call returns
    exactly one row per day, in day order: row [n] carries day index [n]
    and, when a start date is given, the date [n] days after it (no date
    otherwise). *)
Theorem rows_numbered_and_dated
    (learn_total exo_total review_total mock_total : Z)
    (c : Constraints) (start_date : option Z) :
  1 <= days_available c ->
  dates_fit start_date (days_available c) ->
  exists items,
    distribute_minutes_over_days learn_total exo_total review_total mock_total
      c start_date = Ok items /\
    length items = Z.to_nat (days_available c) /\
    day_index <$> items = days_idx (days_available c) /\
    date <$> items
    = (fun d => (fun s => s + d) <$> start_date) <$> days_idx (days_available c).
Proof.
  intros HD Hfit.
  destruct (run_spec (days_available c) (blocked_set c)
              (max_minutes_per_day c) (min_minutes_per_day c)
              learn_total exo_total review_total mock_total start_date HD Hfit)
    as (pd & pd' & items & _ & _ & Hrun & Hrows & Hidx & _ & Hlen' & _).
  assert (Hlen : length items = Z.to_nat (days_available c)).
  { by rewrite <- Hlen', <- Hrows, length_fmap. }
  assert (Hday : forall n : nat, (n < length items)%nat ->
                   days_idx (days_available c) !! n = Some (Z.of_nat n)).
  { intros n Hn. unfold days_idx, py_range.
    rewrite lookup_seqZ_lt by lia. f_equal; lia. }
  exists items. split_and!; [done|done| |].
  - apply list_eq. intros n. rewrite list_lookup_fmap.
    destruct (items !! n) as [it|] eqn:Hit; simpl.
    + rewrite Hday by (by eapply lookup_lt_Some).
      f_equal. by apply (Hidx n it Hit).
    + symmetry. apply lookup_ge_None. rewrite length_days_idx.
      apply lookup_ge_None in Hit. lia.
  - apply list_eq. intros n. rewrite !list_lookup_fmap.
    destruct (items !! n) as [it|] eqn:Hit; simpl.
    + rewrite Hday by (by eapply lookup_lt_Some). simpl.
      f_equal. by apply (Hidx n it Hit).
    + assert (days_idx (days_available c) !! n = None) as ->; [|done].
      apply lookup_ge_None. rewrite length_days_idx.
      apply lookup_ge_None in Hit. lia.
Qed.

Lemma rows_numbered_and_dated_witness :
  let c := default_constraints 3 in
  1 <= days_available c /\
  dates_fit (Some 739000) (days_available c) /\
  exists items,
    distribute_minutes_over_days 100 50 30 0 c (Some 739000) = Ok items /\
    length items = Z.to_nat (days_available c) /\
    day_index <$> items = days_idx (days_available c) /\
    date <$> items
    = (fun d => (fun s => s + d) <$> Some 739000)
        <$> days_idx (days_available c).
Proof.
  intros c.
  assert (HD : 1 <= days_available c) by (simpl; lia).
  assert (Hfit : dates_fit (Some 739000) (days_available c)).
  { unfold dates_fit, max_ordinal. simpl. lia. }
  split; [exact HD|]. split; [exact Hfit|].
  exact (rows_numbered_and_dated 100 50 30 0 c (Some 739000) HD Hfit).
Defined.

(** ** Priority between the categories *)

(** X3. On a non-negative budget and cap the categories are served in
    the order learn, exercises, review, mock: the returned rows hold, per
    category, the budget of that category or, if smaller, what is left of
    the capacity of the non-blocked days after the categories before it. *)
Theorem categories_served_in_order
    (learn_total exo_total review_total mock_total : Z)
    (c : Constraints) (start_date : option Z) :
  1 <= days_available c ->
  0 <= learn_total -> 0 <= exo_total -> 0 <= review_total -> 0 <= mock_total ->
  0 <= max_minutes_per_day c ->
  dates_fit start_date (days_available c) ->
  let C := capacity (days_available c) (blocked_set c)
                    (max_minutes_per_day c) in
  let l := Z.min learn_total C in
  let e := Z.min exo_total (C - l) in
  let r := Z.min review_total (C - l - e) in
  let m := Z.min mock_total (C - l - e - r) in
  exists items,
    distribute_minutes_over_days learn_total exo_total review_total mock_total
      c start_date = Ok items /\
    kind_total learn (item_buckets <$> items) = l /\
    kind_total exo (item_buckets <$> items) = e /\
    kind_total review (item_buckets <$> items) = r /\
    kind_total mock (item_buckets <$> items) = m.
Proof.
  intros HD Hl He Hr Hm Hmax Hfit C l e r m.
  destruct (run_spec (days_available c) (blocked_set c)
              (max_minutes_per_day c) (min_minutes_per_day c)
              learn_total exo_total review_total mock_total start_date HD Hfit)
    as (pd & pd' & items & Hplace & Hreb & Hrun & Hrows & _ & Hlen & _).
  destruct (place_all_by_kind (days_available c) (blocked_set c)
              (max_minutes_per_day c) learn_total exo_total review_total
              mock_total HD Hmax Hl He Hr Hm)
    as (pd2 & Hplace2 & _ & _ & _ & Hkl & Hke & Hkr & Hkm).
  rewrite Hplace in Hplace2. injection Hplace2 as <-.
  assert (Hkeep : forall k, kind_total k pd' = kind_total k pd).
  { intros k. eapply rebalance_loop_kind_total;
      [exact Hlen|apply days_idx_range|exact Hreb]. }
  exists items. rewrite Hrows, !Hkeep. by split_and!.
Qed.

Lemma categories_served_in_order_witness :
  let c := default_constraints 2 in
  1 <= days_available c /\
  0 <= max_minutes_per_day c /\
  exists items,
    distribute_minutes_over_days 300 150 100 90 c None = Ok items /\
    kind_total learn (item_buckets <$> items) = 300 /\
    kind_total exo (item_buckets <$> items) = 150 /\
    kind_total review (item_buckets <$> items) = 30 /\
    kind_total mock (item_buckets <$> items) = 0.
Proof.
  intros c.
  assert (HD : 1 <= days_available c) by (simpl; lia).
  assert (Hmax : 0 <= max_minutes_per_day c) by (simpl; lia).
  split; [exact HD|]. split; [exact Hmax|].
  exact (categories_served_in_order 300 150 100 90 c None HD
           ltac:(lia) ltac:(lia) ltac:(lia) ltac:(lia) Hmax I).
Defined.

(** X4. From every table with one entry per day the rebalancing pass
    keeps each category total: minutes move between days, never between
    categories. *)
Theorem rebalance_keeps_categories
    (D : Z) (blocked : gset Z) (mind : Z) (pd : list DayAllocation) :
  length pd = Z.to_nat D ->
  exists pd',
    rebalance D blocked mind pd = Ok pd' /\
    forall k, kind_total k pd' = kind_total k pd.
Proof.
  intros Hlen.
  destruct (rebalance_loop_spec D blocked 0 mind (days_idx D) pd Hlen
              (days_idx_range D)) as (pd' & Hrun & _).
  exists pd'. split; [done|]. intros k.
  eapply rebalance_loop_kind_total; [exact Hlen|apply days_idx_range|exact Hrun].
Qed.

Lemma rebalance_keeps_categories_witness :
  let pd := [ {| d_learn := 200; d_exo := 0; d_review := 40; d_mock := 0 |};
              {| d_learn := 0; d_exo := 10; d_review := 0; d_mock := 0 |} ] in
  length pd = Z.to_nat 2 /\
  exists pd',
    rebalance 2 ∅ 60 pd = Ok pd' /\
    forall k, kind_total k pd' = kind_total k pd.
Proof.
  intros pd.
  assert (Hlen : length pd = Z.to_nat 2) by reflexivity.
  split; [exact Hlen|].
  exact (rebalance_keeps_categories 2 ∅ 60 pd Hlen).
Defined.

(** ** The plan and its schedule *)

(** X5. The plan built on a non-negative budget and cap never schedules more
    than the total it reports, and schedules exactly that total if and
    only if the budget fits in the capacity of the non-blocked days. *)
Theorem plan_total_and_schedule
    (TAI TEXO TR TEB : Z) (c : Constraints) (start_date : option Z) :
  1 <= days_available c ->
  0 <= TAI -> 0 <= TEXO -> 0 <= TR -> 0 <= TEB ->
  0 <= max_minutes_per_day c ->
  dates_fit start_date (days_available c) ->
  exists plan,
    build_study_plan TAI TEXO TR TEB c start_date = Ok plan /\
    total_minutes plan = TAI + TEXO + TR + TEB /\
    breakdown plan = (TAI, TEXO, TR, TEB) /\
    schedule_total (per_day plan) <= total_minutes plan /\
    (schedule_total (per_day plan) = total_minutes plan <->
     TAI + TEXO + TR + TEB
     <= capacity (days_available c) (blocked_set c) (max_minutes_per_day c)).
Proof.
  intros HD Hl He Hr Hm Hmax Hfit.
  destruct (run_spec (days_available c) (blocked_set c)
              (max_minutes_per_day c) (min_minutes_per_day c)
              TAI TEXO TR TEB start_date HD Hfit)
    as (pd & pd' & items & Hplace & _ & Hrun & Hrows & _ & _ & _ & Htot & _).
  destruct (place_all_by_kind (days_available c) (blocked_set c)
              (max_minutes_per_day c) TAI TEXO TR TEB HD Hmax Hl He Hr Hm)
    as (pd2 & Hplace2 & _ & _ & _ & Hkl & Hke & Hkr & Hkm).
  rewrite Hplace in Hplace2. injection Hplace2 as <-.
  unfold build_study_plan, distribute_minutes_over_days. rewrite Hrun.
  eexists. split; [done|]. cbn [total_minutes breakdown per_day].
  unfold schedule_total.
  rewrite Hrows, Htot, (table_total_kinds pd), Hkl, Hke, Hkr, Hkm.
  split_and!; [done|done|lia|lia].
Qed.

Lemma plan_total_and_schedule_witness :
  let c := default_constraints 1 in
  1 <= days_available c /\
  0 <= max_minutes_per_day c /\
  exists plan,
    build_study_plan 300 0 0 0 c None = Ok plan /\
    total_minutes plan = 300 + 0 + 0 + 0 /\
    breakdown plan = (300, 0, 0, 0) /\
    schedule_total (per_day plan) <= total_minutes plan /\
    (schedule_total (per_day plan) = total_minutes plan <->
     300 + 0 + 0 + 0
     <= capacity (days_available c) (blocked_set c) (max_minutes_per_day c)).
Proof.
  intros c.
  assert (HD : 1 <= days_available c) by (simpl; lia).
  assert (Hmax : 0 <= max_minutes_per_day c) by (simpl; lia).
  split; [exact HD|]. split; [exact Hmax|].
  exact (plan_total_and_schedule 300 0 0 0 c None HD
           ltac:(lia) ltac:(lia) ltac:(lia) ltac:(lia) Hmax I).
Defined.

(** ** An empty budget *)

Lemma nonneg_table_total (pd : list DayAllocation) :
  Forall day_nonneg pd -> 0 <= table_total pd.
Proof.
  induction 1 as [|a pd Ha _ IH]; [done|].
  change (table_total (a :: pd)) with (day_sum a + table_total pd).
  unfold day_nonneg, day_sum in *. lia.
Qed.

Lemma nonneg_table_empty (pd : list DayAllocation) :
  Forall day_nonneg pd -> table_total pd <= 0 ->
  Forall (fun a => a = empty_day) pd.
Proof.
  induction 1 as [|a pd Ha Hpd IH]; intros Htot; [constructor|].
  change (table_total (a :: pd)) with (day_sum a + table_total pd) in Htot.
  pose proof (nonneg_table_total pd Hpd) as Hrest.
  constructor.
  - destruct a. unfold day_nonneg, day_sum, empty_day in *. simpl in *.
    f_equal; lia.
  - apply IH. unfold day_nonneg, day_sum in *. lia.
Qed.

(** X6. With nothing to place, every row of the returned schedule is empty,
    whatever the constraints. *)
Theorem empty_budget_empty_schedule
    (c : Constraints) (start_date : option Z) :
  1 <= days_available c ->
  dates_fit start_date (days_available c) ->
  exists items,
    distribute_minutes_over_days 0 0 0 0 c start_date = Ok items /\
    length items = Z.to_nat (days_available c) /\
    Forall (fun it => learn_min it = 0 /\ exercises_min it = 0 /\
                      review_min it = 0 /\ mock_min it = 0) items.
Proof.
  intros HD Hfit.
  destruct (run_spec (days_available c) (blocked_set c)
              (max_minutes_per_day c) (min_minutes_per_day c)
              0 0 0 0 start_date HD Hfit)
    as (pd & pd' & items & _ & _ & Hrun & Hrows & _ & _ & Hlen' & Htot & Hgood).
  destruct Hgood as ((_ & _ & Hbound & _) & _ & Hg' & _); [lia..|].
  rewrite empty_table_total in Hbound.
  exists items. split_and!; [done|by rewrite <- Hlen', <- Hrows, length_fmap|].
  assert (Hall : Forall (fun a => a = empty_day) pd').
  { apply nonneg_table_empty; [|lia].
    apply Forall_lookup. intros n a Ha. by apply (Hg' n a Ha). }
  rewrite <- Hrows, Forall_fmap in Hall.
  eapply Forall_impl; [exact Hall|]. intros it Hit. simpl in Hit.
  unfold item_buckets, empty_day in Hit. by injection Hit as -> -> -> ->.
Qed.

Lemma empty_budget_empty_schedule_witness :
  let c := {| days_available := 3; max_minutes_per_day := 240;
              min_minutes_per_day := 60; blocked_days := Some [1] |} in
  1 <= days_available c /\
  dates_fit None (days_available c) /\
  exists items,
    distribute_minutes_over_days 0 0 0 0 c None = Ok items /\
    length items = Z.to_nat (days_available c) /\
    Forall (fun it => learn_min it = 0 /\ exercises_min it = 0 /\
                      review_min it = 0 /\ mock_min it = 0) items.
Proof.
  intros c.
  assert (HD : 1 <= days_available c) by (simpl; lia).
  assert (Hfit : dates_fit None (days_available c)) by exact I.
  split; [exact HD|]. split; [exact Hfit|].
  exact (empty_budget_empty_schedule c None HD Hfit).
Defined.

(** ** Rebalancing with no needy day *)

(** X7. When every day of the table is blocked, empty or at least at the
    floor, the rebalancing pass returns the table as it is; this is the
    case of every table without negative buckets when the floor is 0 or
    less. *)
Theorem rebalance_without_needy_day
    (D : Z) (blocked : gset Z) (mind : Z) (pd : list DayAllocation) :
  length pd = Z.to_nat D ->
  (forall (n : nat) a, pd !! n = Some a ->
     Z.of_nat n ∈ blocked \/ day_sum a = 0 \/ mind <= day_sum a) ->
  rebalance D blocked mind pd = Ok pd.
Proof.
  intros Hlen Hall. unfold rebalance.
  pose proof (days_idx_range D) as Hds.
  induction (days_idx D) as [|d ds IH]; [done|].
  apply Forall_cons in Hds as [Hd Hds]. cbn [rebalance_loop].
  assert (Hday : rebalance_day D blocked mind d pd = Ok pd).
  { unfold rebalance_day. case_bool_decide as Hb; [done|].
    destruct (py_get_in_range pd d) as (a & Ha & ->); [lia|].
    case_bool_decide as Hz; [done|].
    case_bool_decide as Hlow; [|done].
    destruct (Hall _ _ Ha) as [Hin|[?|?]]; [|done|lia].
    rewrite Z2Nat.id in Hin by lia. done. }
  rewrite Hday. by apply IH.
Qed.

Lemma rebalance_without_needy_day_witness :
  let pd := [ {| d_learn := 240; d_exo := 0; d_review := 0; d_mock := 0 |};
              {| d_learn := 10; d_exo := 0; d_review := 0; d_mock := 0 |};
              {| d_learn := 0; d_exo := 0; d_review := 0; d_mock := 0 |} ] in
  length pd = Z.to_nat 3 /\
  rebalance 3 ∅ 0 pd = Ok pd.
Proof.
  intros pd.
  assert (Hlen : length pd = Z.to_nat 3) by reflexivity.
  split; [exact Hlen|].
  apply (rebalance_without_needy_day 3 ∅ 0 pd Hlen).
  intros n a Ha. right.
  destruct n as [|[|[|n]]]; simpl in Ha; [| | |discriminate Ha];
    injection Ha as <-; unfold day_sum; simpl; lia.
Defined.

(** ** The window of a wave *)

Ltac membership :=
  repeat match goal with
  | H : context [_ ∈ _ ∪ _] |- _ => rewrite elem_of_union in H
  | H : context [_ ∈ {[ _ ]}] |- _ => rewrite elem_of_singleton in H
  | H : context [_ ∈ ∅] |- _ => rewrite elem_of_empty in H
  end.

(** X8. For a day of the window [[0, D-1]], [around] returns the day before
    it if there is one, the day itself, and the day after it if there is
    one, in this order and without repetition. *)
Theorem around_neighbours (D day : Z) :
  0 <= day <= D - 1 ->
  around D day
  = (if bool_decide (0 < day) then [day - 1] else [])
    ++ day :: (if bool_decide (day < D - 1) then [day + 1] else []).
Proof.
  intros Hday. unfold around. cbn [unique_in_order].
  repeat case_bool_decide; membership; try lia; cbn [app]; repeat f_equal; lia.
Qed.

Lemma around_neighbours_witness :
  0 <= 0 <= 5 - 1 /\ 0 <= 3 <= 5 - 1 /\ 0 <= 4 <= 5 - 1 /\
  around 5 0 = [0; 1] /\ around 5 3 = [2; 3; 4] /\ around 5 4 = [3; 4].
Proof.
  assert (H0 : 0 <= 0 <= 5 - 1) by lia.
  assert (H3 : 0 <= 3 <= 5 - 1) by lia.
  assert (H4 : 0 <= 4 <= 5 - 1) by lia.
  split; [exact H0|]. split; [exact H3|]. split; [exact H4|].
  split; [exact (around_neighbours 5 0 H0)|].
  split; [exact (around_neighbours 5 3 H3)|exact (around_neighbours 5 4 H4)].
Defined.

(** ** Calls that fail *)

Lemma around_no_days (D : Z) : D < 1 -> around D 0 = [0; D - 1].
Proof.
  intros HD. unfold around. cbn [unique_in_order].
  repeat case_bool_decide; membership; try lia; repeat f_equal; lia.
Qed.

Lemma py_get_nil {A : Type} (i : Z) : py_get (@nil A) i = Raise IndexError.
Proof.
  unfold py_get, py_index. simpl.
  repeat case_bool_decide; try lia; done.
Qed.

Lemma push_then_spill_no_table (blocked : gset Z) (maxd : Z) (kind : Kind)
    (minutes D : Z) :
  push_then_spill blocked maxd kind minutes [0; D - 1] [] []
  = if bool_decide (0 ∈ blocked /\ D - 1 ∈ blocked)
    then Ok [] else Raise IndexError.
Proof.
  unfold push_then_spill. cbn [push].
  repeat case_bool_decide; rewrite ?py_get_nil; try done; tauto.
Qed.

(** X9. Without a single day the call either fails or returns no row: the
    review pass looks at days 0 and [D-1] of the empty table, so the call
    raises [IndexError] unless both indices are blocked, in which case it
    returns the empty schedule. *)
Theorem distribute_without_days_cases
    (learn_total exo_total review_total mock_total : Z)
    (c : Constraints) (start_date : option Z) :
  days_available c < 1 ->
  distribute_minutes_over_days learn_total exo_total review_total mock_total
    c start_date
  = if bool_decide (0 ∈ blocked_set c /\ days_available c - 1 ∈ blocked_set c)
    then Ok [] else Raise IndexError.
Proof.
  intros HD. unfold distribute_minutes_over_days, run, place_all.
  assert (Hidx : days_idx (days_available c) = []).
  { unfold days_idx, py_range, seqZ. by replace (Z.to_nat _) with 0%nat by lia. }
  assert (Hexo : order_exo (days_available c) = []).
  { unfold order_exo. by rewrite bool_decide_eq_false_2 by lia. }
  assert (Hmock : order_mock (days_available c) = []).
  { unfold order_mock. by rewrite Hidx. }
  assert (Hpush : forall k m, push_then_spill (blocked_set c)
            (max_minutes_per_day c) k m [] [] [] = Ok []).
  { intros k m. unfold push_then_spill. simpl. by case_bool_decide. }
  assert (Hwaves : waves (days_available c) = [[0]]).
  { unfold waves. by rewrite !bool_decide_eq_false_2 by lia. }
  unfold mock_pass, rebalance, review_pass.
  rewrite Hidx, Hexo, Hmock, Hwaves.
  cbn [map reverse rev_append]. change (reverse []) with (@nil Z).
  rewrite !Hpush. cbn [review_loop]. change (py_get [0] 0) with (Ok 0).
  cbv beta iota zeta. rewrite around_no_days, Hidx by done.
  rewrite push_then_spill_no_table.
  case_bool_decide; [|done]. by rewrite Hpush.
Qed.

Lemma distribute_without_days_cases_witness :
  let c := {| days_available := 0; max_minutes_per_day := 240;
              min_minutes_per_day := 60; blocked_days := Some [0; -1] |} in
  days_available c < 1 /\
  days_available (default_constraints 0) < 1 /\
  distribute_minutes_over_days 10 0 0 0 c None = Ok [] /\
  distribute_minutes_over_days 10 0 0 0 (default_constraints 0) None
  = Raise IndexError.
Proof.
  intros c.
  assert (HD : days_available c < 1) by (simpl; lia).
  assert (HD' : days_available (default_constraints 0) < 1) by (simpl; lia).
  split; [exact HD|]. split; [exact HD'|]. split.
  - rewrite (distribute_without_days_cases 10 0 0 0 c None HD). reflexivity.
  - rewrite (distribute_without_days_cases 10 0 0 0 (default_constraints 0)
               None HD'). reflexivity.
Defined.

(** ** A start date too close to the last date *)

Lemma build_items_overflow (D : Z) (pd : list DayAllocation) (s : Z)
    (ds : list Z) :
  length pd = Z.to_nat D -> 1 <= s ->
  Forall (fun d => 0 <= d < D) ds ->
  Exists (fun d => max_ordinal < s + d) ds ->
  build_items ds pd (Some s) = Raise OverflowError.
Proof.
  intros Hlen Hs Hds Hex.
  induction ds as [|d ds IH]; [by apply Exists_nil in Hex|].
  apply Forall_cons in Hds as [Hd Hds]. cbn [build_items].
  unfold date_plus_days. case_bool_decide as Hfit; [|done].
  destruct (py_get_in_range pd d) as (a & Ha & ->); [lia|].
  rewrite IH; [done|done|].
  apply Exists_cons in Hex as [Hex|Hex]; [lia|done].
Qed.

(** X10. When the start date is a date but the date of the last day would lie
    after the last date of the calendar, the call raises [OverflowError]
    while it builds the rows, after all the allocation. *)
Theorem distribute_date_overflow
    (learn_total exo_total review_total mock_total : Z)
    (c : Constraints) (s : Z) :
  1 <= days_available c ->
  1 <= s <= max_ordinal ->
  max_ordinal < s + (days_available c - 1) ->
  (exists pd pd',
     place_all (days_available c) (blocked_set c) (max_minutes_per_day c)
       learn_total exo_total review_total mock_total = Ok pd /\
     rebalance (days_available c) (blocked_set c) (min_minutes_per_day c) pd
       = Ok pd') /\
  distribute_minutes_over_days learn_total exo_total review_total mock_total
    c (Some s) = Raise OverflowError.
Proof.
  intros HD Hs Hlast.
  destruct (place_all_spec (days_available c) (blocked_set c)
              (max_minutes_per_day c) learn_total exo_total review_total
              mock_total HD) as (pd & Hplace & Hlen & _).
  destruct (rebalance_loop_spec (days_available c) (blocked_set c) 0
              (min_minutes_per_day c) (days_idx (days_available c)) pd Hlen
              (days_idx_range _)) as (pd' & Hreb & Hlen' & _).
  split; [by exists pd, pd'|].
  unfold distribute_minutes_over_days, run, rebalance.
  rewrite Hplace, Hreb.
  apply (build_items_overflow (days_available c)); [congruence|lia| |].
  - apply days_idx_range.
  - apply Exists_exists. exists (days_available c - 1). split; [|lia].
    apply elem_of_days_idx. lia.
Qed.

Lemma distribute_date_overflow_witness :
  let c := default_constraints 3 in
  1 <= days_available c /\
  1 <= 3652058 <= max_ordinal /\
  max_ordinal < 3652058 + (days_available c - 1) /\
  distribute_minutes_over_days 100 50 30 0 c (Some 3652058)
  = Raise OverflowError.
Proof.
  intros c.
  assert (HD : 1 <= days_available c) by (simpl; lia).
  assert (Hs : 1 <= 3652058 <= max_ordinal) by (unfold max_ordinal; lia).
  assert (Hlast : max_ordinal < 3652058 + (days_available c - 1)).
  { unfold max_ordinal. simpl. lia. }
  split; [exact HD|]. split; [exact Hs|]. split; [exact Hlast|].
  exact (proj2 (distribute_date_overflow 100 50 30 0 c 3652058 HD Hs Hlast)).
Defined.

(** ** What [push] returns *)

Section PushReturn.

Context (blocked : gset Z) (maxd : Z).

Lemma free_capacity_nonneg (order : list Z) (pd : list DayAllocation) :
  0 <= free_capacity blocked maxd order pd.
Proof.
  induction order as [|d order IH]; [done|].
  unfold free_capacity in *. cbn [foldr].
  case_bool_decide; [lia|]. destruct (pd !! Z.to_nat d); lia.
Qed.

Lemma free_capacity_insert (order : list Z) (pd : list DayAllocation)
    (d : Z) (x : DayAllocation) :
  0 <= d -> Forall (fun e => 0 <= e) order -> d ∉ order ->
  free_capacity blocked maxd order (<[Z.to_nat d := x]> pd)
  = free_capacity blocked maxd order pd.
Proof.
  intros Hd Hpos Hnot. induction order as [|e order IH]; [done|].
  apply Forall_cons in Hpos as [He Hpos].
  apply not_elem_of_cons in Hnot as [Hne Hnot].
  unfold free_capacity in *. cbn [foldr]. rewrite IH by done.
  rewrite list_lookup_insert_ne by lia. done.
Qed.

(** X11. Given a non-negative amount and an order without repetition, [push]
    returns exactly the minutes that do not fit in the room left under the
    cap on the non-blocked days of the order, and adds the others to the
    table. *)
Theorem push_returns_what_does_not_fit (kind : Kind) (order : list Z) :
  forall (rem : Z) (pd : list DayAllocation),
    NoDup order -> in_table pd order -> 0 <= rem ->
    exists pd',
      push blocked maxd kind rem order pd
      = Ok (Z.max 0 (rem - free_capacity blocked maxd order pd), pd') /\
      table_total pd'
      = table_total pd + Z.min rem (free_capacity blocked maxd order pd).
Proof.
  induction order as [|d order IH]; intros rem pd Hnd Hin Hrem.
  - exists pd. unfold free_capacity. simpl. split; [f_equal; f_equal; lia|lia].
  - apply NoDup_cons in Hnd as [Hd Hnd].
    apply Forall_cons in Hin as [Hdr Hin].
    pose proof (free_capacity_nonneg order pd) as Hfree.
    cbn [push]. unfold free_capacity at 1 2. cbn [foldr].
    fold (free_capacity blocked maxd order pd).
    case_bool_decide as Hb.
    { rewrite Z.add_0_l. by apply IH. }
    destruct (py_get_in_range pd d Hdr) as (a & Ha & ->). rewrite Ha.
    case_bool_decide as Hcap.
    { replace (Z.max 0 (maxd - day_sum a)) with 0 by lia.
      rewrite Z.add_0_l. by apply IH. }
    rewrite py_set_in_range by done.
    set (cap := maxd - day_sum a) in *.
    replace (Z.max 0 cap) with cap by lia.
    set (pd1 := <[Z.to_nat d := add_bucket kind (Z.min cap rem) a]> pd).
    assert (Htot1 : table_total pd1 = table_total pd + Z.min cap rem).
    { unfold pd1. rewrite (table_total_insert _ _ a) by done.
      rewrite day_sum_add_bucket. lia. }
    case_bool_decide as Hdone.
    + exists pd1. split; [f_equal; f_equal; lia|lia].
    + destruct (IH (rem - Z.min cap rem) pd1) as (pd' & Hrun & Htot);
        [done| |lia|].
      { unfold in_table, pd1. by rewrite length_insert. }
      assert (Hsame : free_capacity blocked maxd order pd1
                      = free_capacity blocked maxd order pd).
      { apply free_capacity_insert; [lia| |done].
        eapply Forall_impl; [exact Hin|]. intros e He. simpl in He. lia. }
      rewrite Hsame in Hrun, Htot.
      exists pd'. rewrite Hrun. split; [f_equal; f_equal; lia|lia].
Qed.

End PushReturn.

Lemma push_returns_what_does_not_fit_witness :
  let pd := [ {| d_learn := 200; d_exo := 0; d_review := 0; d_mock := 0 |};
              empty_day; empty_day ] in
  NoDup [0; 1; 2] /\ in_table pd [0; 1; 2] /\ 0 <= 400 /\
  free_capacity {[ 1 ]} 240 [0; 1; 2] pd = 280 /\
  exists pd',
    push {[ 1 ]} 240 exo 400 [0; 1; 2] pd = Ok (120, pd') /\
    table_total pd' = table_total pd + 280.
Proof.
  intros pd.
  assert (Hnd : NoDup [0; 1; 2]).
  { apply (bool_decide_unpack _). vm_compute. exact I. }
  assert (Hin : in_table pd [0; 1; 2]).
  { unfold in_table. repeat constructor; simpl; lia. }
  assert (Hrem : 0 <= 400) by lia.
  split; [exact Hnd|]. split; [exact Hin|]. split; [exact Hrem|].
  split; [reflexivity|].
  exact (push_returns_what_does_not_fit {[ 1 ]} 240 exo [0; 1; 2] 400 pd
           Hnd Hin Hrem).
Defined.

(** ** Where the learning minutes go *)

Section Learning.

Context (maxd : Z).

Lemma push_full_noop (blocked : gset Z) (kind : Kind) (order : list Z) :
  forall (rem : Z) (pd : list DayAllocation),
    in_table pd order -> order_full blocked maxd order pd ->
    push blocked maxd kind rem order pd = Ok (rem, pd).
Proof.
  induction order as [|d order IH]; intros rem pd Hin Hfull; [done|].
  apply Forall_cons in Hin as [Hd Hin].
  apply Forall_cons in Hfull as [Hfd Hfull]. cbn [push].
  case_bool_decide as Hb; [by apply IH|].
  destruct (py_get_in_range pd d Hd) as (a & Ha & ->).
  destruct Hfd as [|(b & Hb' & Hf)]; [done|]. simplify_eq.
  unfold day_full in Hf. rewrite bool_decide_eq_true_2 by lia. by apply IH.
Qed.

(** [push] over consecutive empty days, none of them blocked: day after
    day receives the cap until the amount is used up. *)
Lemma push_fill (kind : Kind) (n : nat) :
  forall (i : nat) (rem : Z) (pd : list DayAllocation),
    0 <= rem -> 0 <= maxd -> (i + n <= length pd)%nat ->
    (forall j : nat, (j < n)%nat -> pd !! (i + j)%nat = Some empty_day) ->
    exists pd',
      push ∅ maxd kind rem (seqZ (Z.of_nat i) (Z.of_nat n)) pd
      = Ok (Z.max 0 (rem - Z.of_nat n * maxd), pd') /\
      length pd' = length pd /\
      (forall j : nat, (j < n)%nat ->
         pd' !! (i + j)%nat
         = Some (add_bucket kind
                   (Z.min maxd (Z.max 0 (rem - Z.of_nat j * maxd)))
                   empty_day)) /\
      (forall m : nat, (m < i)%nat -> pd' !! m = pd !! m).
Proof.
  induction n as [|n IH]; intros i rem pd Hrem Hmax Hlen Hempty.
  - exists pd. split_and!; [|done| |done].
    + simpl. f_equal. f_equal. lia.
    + intros j Hj. lia.
  - rewrite seqZ_cons by lia. cbn [push].
    rewrite bool_decide_eq_false_2 by apply not_elem_of_empty.
    pose proof (Hempty 0%nat ltac:(lia)) as H0. rewrite Nat.add_0_r in H0.
    rewrite (py_get_lookup pd (Z.of_nat i) empty_day)
      by (lia || by rewrite Nat2Z.id).
    change (day_sum empty_day) with 0. rewrite Z.sub_0_r.
    replace (Z.pred (Z.of_nat (S n))) with (Z.of_nat n) by lia.
    replace (Z.succ (Z.of_nat i)) with (Z.of_nat (S i)) by lia.
    case_bool_decide as Hcap.
    { assert (maxd = 0) as Hz by lia.
      destruct (IH (S i) rem pd Hrem Hmax ltac:(lia)) as (pd' & Hrun & Hl & Hf & Hk).
      { intros j Hj. replace (S i + j)%nat with (i + S j)%nat by lia.
        apply Hempty. lia. }
      exists pd'. rewrite Hrun. split_and!; [|done| |].
      - f_equal. f_equal. rewrite Hz. lia.
      - intros [|j] Hj.
        + rewrite Nat.add_0_r, Hk, H0 by lia.
          match goal with
          | |- context [add_bucket kind ?x empty_day] =>
              replace x with 0 by lia
          end.
          by rewrite add_bucket_0.
        + replace (i + S j)%nat with (S i + j)%nat by lia.
          rewrite Hf by lia. do 2 f_equal. rewrite Hz. lia.
      - intros m Hm. apply Hk. lia. }
    rewrite py_set_in_range by (apply lookup_lt_Some in H0; lia).
    rewrite Nat2Z.id.
    set (pd1 := <[i := add_bucket kind (Z.min maxd rem) empty_day]> pd).
    case_bool_decide as Hdone.
    + exists pd1. split_and!.
      * f_equal. f_equal. nia.
      * apply length_insert.
      * intros [|j] Hj.
        -- rewrite Nat.add_0_r. unfold pd1.
           rewrite list_lookup_insert_eq by (apply lookup_lt_Some in H0; lia).
           do 2 f_equal. lia.
        -- unfold pd1. rewrite list_lookup_insert_ne by lia.
           rewrite Hempty by lia.
           replace (Z.min maxd (Z.max 0 (rem - Z.of_nat (S j) * maxd)))
             with 0 by nia.
           by rewrite add_bucket_0.
      * intros m Hm. unfold pd1. by rewrite list_lookup_insert_ne by lia.
    + destruct (IH (S i) (rem - Z.min maxd rem) pd1 ltac:(lia) Hmax)
        as (pd' & Hrun & Hl & Hf & Hk).
      { unfold pd1. rewrite length_insert. lia. }
      { intros j Hj. unfold pd1. rewrite list_lookup_insert_ne by lia.
        replace (S i + j)%nat with (i + S j)%nat by lia. apply Hempty. lia. }
      exists pd'. rewrite Hrun. split_and!.
      * f_equal. f_equal. nia.
      * rewrite Hl. apply length_insert.
      * intros [|j] Hj.
        -- rewrite Nat.add_0_r, Hk by lia. unfold pd1.
           rewrite list_lookup_insert_eq by (apply lookup_lt_Some in H0; lia).
           do 2 f_equal. lia.
        -- replace (i + S j)%nat with (S i + j)%nat by lia.
           rewrite Hf by lia. do 3 f_equal. nia.
      * intros m Hm. rewrite Hk by lia. unfold pd1.
        by rewrite list_lookup_insert_ne by lia.
Qed.

End Learning.

(** X12. With no blocked day and a non-negative cap, the table the four passes
    leave has the learning minutes on the first days: day [n] holds the cap
    as long as the learning budget lasts, then what is left of it, then
    nothing, that is [min(max, max(0, learn - n * max))]. *)
Theorem learning_fills_first_days
    (D maxd learn_total exo_total review_total mock_total : Z) :
  1 <= D -> 0 <= maxd -> 0 <= learn_total ->
  exists pd,
    place_all D ∅ maxd learn_total exo_total review_total mock_total = Ok pd /\
    length pd = Z.to_nat D /\
    forall (n : nat) a, pd !! n = Some a ->
      d_learn a = Z.min maxd (Z.max 0 (learn_total - Z.of_nat n * maxd)).
Proof.
  intros HD Hmax Hl.
  destruct (place_all_trace D ∅ maxd learn_total exo_total review_total
              mock_total HD)
    as (pd1 & pd2 & pd3 & pd4 & Hrun1 & _ & _ & _ & Hrun
        & (Hlen0 & Hlen1 & Hlen2 & Hlen3 & Hlen4)
        & (_ & Hk2 & Hk3 & Hk4) & _).
  exists pd4. split_and!; [done|done|].
  set (pd0 := (fun _ : Z => empty_day) <$> days_idx D) in *.
  assert (Hin0 : in_table pd0 (days_idx D)).
  { apply (in_table_range D); [done|apply days_idx_range]. }
  destruct (push_fill maxd learn (Z.to_nat D) 0 learn_total pd0 Hl Hmax
              ltac:(lia)) as (pdA & HrunA & HlenA & Hfill & _).
  { intros j Hj. destruct (lookup_lt_is_Some_2 pd0 j) as [a Ha]; [lia|].
    simpl. rewrite Ha. f_equal. by apply (empty_table_lookup D j a). }
  change (Z.of_nat 0) with 0 in HrunA. rewrite Z2Nat.id in HrunA by lia.
  assert (Hpd1 : pd1 = pdA).
  { assert (Hd : seqZ 0 D = days_idx D).
    { unfold days_idx, py_range. by rewrite Z.sub_0_r. }
    rewrite Hd in HrunA.
    unfold push_then_spill in Hrun1. rewrite HrunA in Hrun1.
    case_bool_decide as Hleft; [|by simplify_eq].
    destruct (push_spec ∅ maxd learn (days_idx D) learn_total pd0 Hin0)
      as (rem & pd' & Hrun' & _ & _ & _ & Hpos).
    rewrite HrunA in Hrun'. injection Hrun' as <- <-.
    destruct (Hpos Hl) as (_ & _ & [Hzero|Hfull]); [lia|].
    rewrite push_full_noop in Hrun1; [by simplify_eq| |].
    - apply (in_table_range D); [congruence|apply reverse_days_idx_range].
    - unfold order_full in *. by apply Forall_reverse. }
  subst pdA.
  intros n a Ha.
  pose proof (lookup_lt_Some _ _ _ Ha) as Hn.
  pose proof (Hfill n ltac:(lia)) as H1. simpl in H1.
  destruct (Hk2 n _ H1) as (a2 & Ha2 & Hs2).
  destruct (Hk3 n _ Ha2) as (a3 & Ha3 & Hs3).
  destruct (Hk4 n _ Ha3) as (a4 & Ha4 & Hs4).
  simplify_eq.
  change (d_learn a) with (bucket learn a).
  rewrite (Hs4 learn), (Hs3 learn), (Hs2 learn) by done.
  simpl. lia.
Qed.

Lemma learning_fills_first_days_witness :
  1 <= 5 /\ 0 <= 240 /\ 0 <= 600 /\
  exists pd,
    place_all 5 ∅ 240 600 300 120 0 = Ok pd /\
    length pd = Z.to_nat 5 /\
    d_learn <$> pd = [240; 240; 120; 0; 0].
Proof.
  assert (HD : 1 <= 5) by lia.
  assert (Hmax : 0 <= 240) by lia.
  assert (Hl : 0 <= 600) by lia.
  split; [exact HD|]. split; [exact Hmax|]. split; [exact Hl|].
  destruct (learning_fills_first_days 5 240 600 300 120 0 HD Hmax Hl)
    as (pd & Hrun & Hlen & Hlearn).
  exists pd. split; [exact Hrun|]. split; [exact Hlen|].
  destruct pd as [|a0 [|a1 [|a2 [|a3 [|a4 [|a5 pd]]]]]]; try discriminate Hlen.
  cbn [fmap list_fmap].
  rewrite (Hlearn 0%nat a0 eq_refl), (Hlearn 1%nat a1 eq_refl),
    (Hlearn 2%nat a2 eq_refl), (Hlearn 3%nat a3 eq_refl),
    (Hlearn 4%nat a4 eq_refl).
  reflexivity.
Defined.

(** ** Preferred days and spill-over *)

Section Preference.

Context (D : Z) (blocked : gset Z) (maxd : Z).

(** A pass leaves the days outside its preferred order alone, unless
    every non-blocked day of that order ends full. *)
Lemma push_then_spill_preference (kind : Kind) (minutes : Z)
    (order spill_order : list Z) (pd pd' : list DayAllocation) :
  in_table pd order -> in_table pd spill_order -> 0 <= minutes ->
  push_then_spill blocked maxd kind minutes order spill_order pd = Ok pd' ->
  outside_kept order pd pd' \/ order_full blocked maxd order pd'.
Proof.
  intros Hin Hspill Hmin Hrun. unfold push_then_spill in Hrun.
  destruct (push_spec blocked maxd kind order minutes pd Hin)
    as (rem & pd1 & Hpush & Hlen1 & _ & _ & Hpos).
  rewrite Hpush in Hrun. destruct (Hpos Hmin) as (Hrem & _ & Hfull).
  case_bool_decide as Hleft.
  - right. destruct Hfull as [|Hfull]; [lia|].
    assert (Hspill1 : in_table pd1 spill_order).
    { unfold in_table. by rewrite Hlen1. }
    destruct (push_spec blocked maxd kind spill_order rem pd1 Hspill1)
      as (rem2 & pd2 & Hpush2 & _ & _ & _ & Hpos2).
    rewrite Hpush2 in Hrun. simplify_eq.
    destruct (Hpos2 Hrem) as (_ & Hg & _). by eapply order_full_grown.
  - left. simplify_eq.
    by destruct (push_frame blocked maxd kind order minutes pd rem pd' Hin Hpush).
Qed.

Lemma order_full_from (i : Z) (pd : list DayAllocation) (m : nat)
    (b : DayAllocation) :
  order_full blocked maxd (py_range i D) pd ->
  i <= Z.of_nat m -> pd !! m = Some b -> length pd = Z.to_nat D ->
  Z.of_nat m ∈ blocked \/ maxd <= day_sum b.
Proof.
  intros Hfull Hm Hb Hlen. unfold order_full in Hfull.
  rewrite Forall_forall in Hfull.
  destruct (Hfull (Z.of_nat m)) as [|(b' & Hb' & Hf)]; [|by left|].
  - unfold py_range. apply elem_of_seqZ. apply lookup_lt_Some in Hb. lia.
  - right. rewrite Nat2Z.id in Hb'. by simplify_eq.
Qed.

End Preference.

(** X13. With at least three days, the table the four passes leave holds
    exercise minutes on a day before day [D // 3] only if every
    non-blocked day from [D // 3] on is full. *)
Theorem exercises_keep_off_first_third
    (D : Z) (blocked : gset Z)
    (maxd learn_total exo_total review_total mock_total : Z) :
  3 <= D -> 0 <= exo_total -> 0 <= review_total -> 0 <= mock_total ->
  exists pd,
    place_all D blocked maxd learn_total exo_total review_total mock_total
      = Ok pd /\
    forall (n : nat) a,
      Z.of_nat n < D / 3 -> pd !! n = Some a -> d_exo a <> 0 ->
      forall (m : nat) b,
        D / 3 <= Z.of_nat m -> pd !! m = Some b ->
        Z.of_nat m ∈ blocked \/ maxd <= day_sum b.
Proof.
  intros HD He Hr Hm.
  destruct (place_all_trace D blocked maxd learn_total exo_total review_total
              mock_total ltac:(lia))
    as (pd1 & pd2 & pd3 & pd4 & _ & Hrun2 & _ & _ & Hrun
        & (Hlen0 & Hlen1 & Hlen2 & Hlen3 & Hlen4)
        & (Hk1 & _ & Hk3 & Hk4) & _ & _ & Hp3 & Hp4).
  exists pd4. split; [done|]. intros n a Hn Ha Hexo m b Hmb Hb.
  assert (Horder : order_exo D = py_range (D / 3) D).
  { unfold order_exo. by rewrite bool_decide_eq_true_2. }
  destruct (push_then_spill_preference blocked maxd exo exo_total
              (order_exo D) (reverse (days_idx D)) pd1 pd2) as [Hout|Hfull];
    [ apply (in_table_range D); [done|apply order_exo_range]
    | apply (in_table_range D); [done|apply reverse_days_idx_range]
    | done | done | | ].
  - exfalso. apply Hexo.
    pose proof (lookup_lt_Some _ _ _ Ha) as Hlt.
    destruct (lookup_lt_is_Some_2 ((fun _ : Z => empty_day) <$> days_idx D) n)
      as [a0 Ha0]; [lia|].
    destruct (Hk1 n a0 Ha0) as (a1 & Ha1 & Hs1).
    apply empty_table_lookup in Ha0 as ->.
    assert (Ha2 : pd2 !! n = Some a1).
    { rewrite Hout; [done|]. rewrite Horder. unfold py_range.
      rewrite elem_of_seqZ. lia. }
    destruct (Hk3 n a1 Ha2) as (a3 & Ha3 & Hs3).
    destruct (Hk4 n a3 Ha3) as (a4 & Ha4 & Hs4). simplify_eq.
    change (d_exo a) with (bucket exo a).
    by rewrite (Hs4 exo), (Hs3 exo), (Hs1 exo).
  - rewrite Horder in Hfull.
    destruct (Hp3 Hr) as (_ & Hg3 & _). destruct (Hp4 Hm) as (_ & Hg4 & _).
    eapply (order_full_from D); [|done|done|done].
    eapply order_full_grown; [exact Hg4|].
    eapply order_full_grown; [exact Hg3|exact Hfull].
Qed.

Lemma exercises_keep_off_first_third_witness :
  3 <= 6 /\ 0 <= 300 /\ 0 <= 120 /\ 0 <= 0 /\
  exists pd,
    place_all 6 ∅ 240 100 300 120 0 = Ok pd /\
    forall (n : nat) a,
      Z.of_nat n < 6 / 3 -> pd !! n = Some a -> d_exo a <> 0 ->
      forall (m : nat) b,
        6 / 3 <= Z.of_nat m -> pd !! m = Some b ->
        Z.of_nat m ∈ (∅ : gset Z) \/ 240 <= day_sum b.
Proof.
  assert (HD : 3 <= 6) by lia.
  assert (He : 0 <= 300) by lia.
  assert (Hr : 0 <= 120) by lia.
  assert (Hm : 0 <= 0) by lia.
  split; [exact HD|]. split; [exact He|]. split; [exact Hr|].
  split; [exact Hm|].
  exact (exercises_keep_off_first_third 6 ∅ 240 100 300 120 0 HD He Hr Hm).
Defined.

(** X14. The table the four passes leave holds mock minutes on a day before
    day [floor(0.6 * D)] only if every non-blocked day from that day on is
    full. *)
Theorem mocks_keep_to_last_days
    (D : Z) (blocked : gset Z)
    (maxd learn_total exo_total review_total mock_total : Z) :
  1 <= D -> 0 <= mock_total ->
  exists pd,
    place_all D blocked maxd learn_total exo_total review_total mock_total
      = Ok pd /\
    forall (n : nat) a,
      Z.of_nat n < D * 6 / 10 -> pd !! n = Some a -> d_mock a <> 0 ->
      forall (m : nat) b,
        D * 6 / 10 <= Z.of_nat m -> pd !! m = Some b ->
        Z.of_nat m ∈ blocked \/ maxd <= day_sum b.
Proof.
  intros HD Hm.
  destruct (place_all_trace D blocked maxd learn_total exo_total review_total
              mock_total HD)
    as (pd1 & pd2 & pd3 & pd4 & _ & _ & _ & Hrun4 & Hrun
        & (Hlen0 & Hlen1 & Hlen2 & Hlen3 & Hlen4)
        & (Hk1 & Hk2 & Hk3 & _) & _).
  exists pd4. split; [done|]. intros n a Hn Ha Hmock m b Hmb Hb.
  pose proof (order_mock_floor D HD) as Horder.
  unfold mock_pass in Hrun4.
  destruct (push_then_spill_preference blocked maxd mock mock_total
              (order_mock D) (reverse (days_idx D)) pd3 pd4) as [Hout|Hfull];
    [ apply (in_table_range D); [done|apply order_mock_range]
    | apply (in_table_range D); [done|apply reverse_days_idx_range]
    | done | done | | ].
  - exfalso. apply Hmock.
    pose proof (lookup_lt_Some _ _ _ Ha) as Hlt.
    destruct (lookup_lt_is_Some_2 ((fun _ : Z => empty_day) <$> days_idx D) n)
      as [a0 Ha0]; [lia|].
    destruct (Hk1 n a0 Ha0) as (a1 & Ha1 & Hs1).
    destruct (Hk2 n a1 Ha1) as (a2 & Ha2 & Hs2).
    destruct (Hk3 n a2 Ha2) as (a3 & Ha3 & Hs3).
    apply empty_table_lookup in Ha0 as ->.
    assert (Ha4 : pd4 !! n = Some a3).
    { rewrite Hout; [done|]. rewrite Horder. unfold py_range.
      rewrite elem_of_seqZ. lia. }
    simplify_eq. change (d_mock a) with (bucket mock a).
    by rewrite (Hs3 mock), (Hs2 mock), (Hs1 mock).
  - rewrite Horder in Hfull. by eapply (order_full_from D).
Qed.

Lemma mocks_keep_to_last_days_witness :
  1 <= 5 /\ 0 <= 135 /\
  exists pd,
    place_all 5 ∅ 240 600 300 120 135 = Ok pd /\
    forall (n : nat) a,
      Z.of_nat n < 5 * 6 / 10 -> pd !! n = Some a -> d_mock a <> 0 ->
      forall (m : nat) b,
        5 * 6 / 10 <= Z.of_nat m -> pd !! m = Some b ->
        Z.of_nat m ∈ (∅ : gset Z) \/ 240 <= day_sum b.
Proof.
  assert (HD : 1 <= 5) by lia.
  assert (Hm : 0 <= 135) by lia.
  split; [exact HD|]. split; [exact Hm|].
  exact (mocks_keep_to_last_days 5 ∅ 240 600 300 120 135 HD Hm).
Defined.

(** ** Blocked indices outside the planning window *)

Section BlockedRange.

Context (D : Z) (b1 b2 : gset Z) (maxd mind : Z).
Hypothesis Hsame : same_blocked_days D b1 b2.

Lemma push_same_blocked (kind : Kind) (order : list Z) :
  Forall (fun d => 0 <= d < D) order ->
  forall rem pd, push b1 maxd kind rem order pd = push b2 maxd kind rem order pd.
Proof.
  induction order as [|d order IH]; intros Hall rem pd; [done|].
  apply Forall_cons in Hall as [Hd Hall]. cbn [push].
  rewrite (bool_decide_ext (d ∈ b1) (d ∈ b2)) by (by apply Hsame).
  case_bool_decide; [by apply IH|].
  destruct (py_get pd d) as [a|e]; [|done]. cbv zeta.
  case_bool_decide; [by apply IH|].
  destruct (py_set pd d _) as [pd'|e]; [|done].
  case_bool_decide; [done|by apply IH].
Qed.

Lemma push_then_spill_same_blocked (kind : Kind) (minutes : Z)
    (order spill_order : list Z) (pd : list DayAllocation) :
  Forall (fun d => 0 <= d < D) order ->
  Forall (fun d => 0 <= d < D) spill_order ->
  push_then_spill b1 maxd kind minutes order spill_order pd
  = push_then_spill b2 maxd kind minutes order spill_order pd.
Proof.
  intros Ho Hs. unfold push_then_spill. rewrite (push_same_blocked _ _ Ho).
  destruct (push b2 maxd kind minutes order pd) as [[rem pd1]|e]; [|done].
  case_bool_decide; [|done]. by rewrite (push_same_blocked _ _ Hs).
Qed.

Lemma review_loop_same_blocked (share spill : Z) (ws : list (list Z)) :
  Forall (fun w => exists t, w = [t] /\ 0 <= t < D) ws ->
  forall i pd,
    review_loop D b1 maxd i ws share spill pd
    = review_loop D b2 maxd i ws share spill pd.
Proof.
  induction ws as [|w ws IH]; intros Hall i pd; [done|].
  apply Forall_cons in Hall as [(t & -> & Ht) Hall]. cbn [review_loop].
  change (py_get [t] 0) with (Ok t). cbv beta iota zeta.
  rewrite push_then_spill_same_blocked
    by (by apply around_range || apply days_idx_range).
  destruct (push_then_spill b2 maxd review _ _ _ pd) as [pd'|e]; [|done].
  by apply IH.
Qed.

Lemma place_all_same_blocked (learn_total exo_total review_total mock_total : Z) :
  1 <= D ->
  place_all D b1 maxd learn_total exo_total review_total mock_total
  = place_all D b2 maxd learn_total exo_total review_total mock_total.
Proof.
  intros HD. unfold place_all.
  rewrite push_then_spill_same_blocked
    by (apply days_idx_range || apply reverse_days_idx_range).
  destruct (push_then_spill b2 maxd learn _ _ _ _) as [pd1|e]; [|done].
  cbv beta iota.
  rewrite push_then_spill_same_blocked
    by (apply order_exo_range || apply reverse_days_idx_range).
  destruct (push_then_spill b2 maxd exo _ _ _ _) as [pd2|e]; [|done].
  cbv beta iota. unfold review_pass.
  rewrite review_loop_same_blocked by (by apply waves_targets).
  destruct (review_loop D b2 maxd _ _ _ _ _) as [pd3|e]; [|done].
  cbv beta iota. unfold mock_pass.
  by rewrite push_then_spill_same_blocked
    by (apply order_mock_range || apply reverse_days_idx_range).
Qed.

Lemma rebalance_loop_same_blocked (ds : list Z) :
  Forall (fun d => 0 <= d < D) ds ->
  forall pd, rebalance_loop D b1 mind ds pd = rebalance_loop D b2 mind ds pd.
Proof.
  induction ds as [|d ds IH]; intros Hall pd; [done|].
  apply Forall_cons in Hall as [Hd Hall]. cbn [rebalance_loop].
  assert (Hday : rebalance_day D b1 mind d pd = rebalance_day D b2 mind d pd).
  { unfold rebalance_day.
    by rewrite (bool_decide_ext (d ∈ b1) (d ∈ b2)) by (by apply Hsame). }
  rewrite Hday. destruct (rebalance_day D b2 mind d pd) as [pd'|e]; [|done].
  by apply IH.
Qed.

Lemma run_same_blocked (learn_total exo_total review_total mock_total : Z)
    (start_date : option Z) :
  1 <= D ->
  run D b1 maxd mind learn_total exo_total review_total mock_total start_date
  = run D b2 maxd mind learn_total exo_total review_total mock_total start_date.
Proof.
  intros HD. unfold run, rebalance. rewrite place_all_same_blocked by done.
  destruct (place_all D b2 maxd _ _ _ _) as [pd|e]; [|done]. cbv beta iota.
  by rewrite rebalance_loop_same_blocked by apply days_idx_range.
Qed.

End BlockedRange.

(** X15. With at least one day, only the blocked indices inside
    [[0, days_available)] count: two configurations with the same number
    of days, cap and floor whose blocked lists hold the same indices of
    that range (in any order, with any repetitions, with any indices
    outside it) give the same result, rows or error. *)
Theorem blocked_indices_outside_ignored
    (learn_total exo_total review_total mock_total : Z)
    (c1 c2 : Constraints) (start_date : option Z) :
  1 <= days_available c1 ->
  days_available c2 = days_available c1 ->
  max_minutes_per_day c2 = max_minutes_per_day c1 ->
  min_minutes_per_day c2 = min_minutes_per_day c1 ->
  same_blocked_days (days_available c1) (blocked_set c1) (blocked_set c2) ->
  distribute_minutes_over_days learn_total exo_total review_total mock_total
    c1 start_date
  = distribute_minutes_over_days learn_total exo_total review_total mock_total
    c2 start_date.
Proof.
  intros HD HeqD Hmax Hmin Hsame. unfold distribute_minutes_over_days.
  rewrite HeqD, Hmax, Hmin. by apply run_same_blocked.
Qed.

Lemma blocked_indices_outside_ignored_witness :
  let c1 := {| days_available := 3; max_minutes_per_day := 240;
               min_minutes_per_day := 60; blocked_days := Some [1; 7; -1; 1] |} in
  let c2 := {| days_available := 3; max_minutes_per_day := 240;
               min_minutes_per_day := 60; blocked_days := Some [1] |} in
  1 <= days_available c1 /\
  same_blocked_days (days_available c1) (blocked_set c1) (blocked_set c2) /\
  distribute_minutes_over_days 300 200 90 60 c1 None
  = distribute_minutes_over_days 300 200 90 60 c2 None.
Proof.
  intros c1 c2.
  assert (HD : 1 <= days_available c1) by (simpl; lia).
  assert (Hsame : same_blocked_days (days_available c1)
                    (blocked_set c1) (blocked_set c2)).
  { intros d Hd. unfold blocked_set, c1, c2. simpl in *.
    rewrite !elem_of_union, !elem_of_singleton, elem_of_empty. lia. }
  split; [exact HD|]. split; [exact Hsame|].
  exact (blocked_indices_outside_ignored 300 200 90 60 c1 c2 None HD
           eq_refl eq_refl eq_refl Hsame).
Defined.
